(** * PubMed search wrapper (pubmed.py): model and verified properties

    The development follows [PubMedAPIWrapper]: the query normalisation of
    [run], the search and per-identifier loop of [lazy_load], the
    empty-summary filter of [load], the rate-limit retry loop of
    [retrieve_article] and the shape-directed decoding of [_parse_article].

    Text is modelled by [string] (one [ascii] per character), Python
    integers by [Z].  The network is a parameter: a function from the number
    of requests already sent and the requested URL to a response. *)

From Stdlib Require Import ZArith List String Ascii Bool Lia.
From Equations Require Import Equations.
Import ListNotations.
Set Warnings "-register-all".
Open Scope string_scope.
Open Scope Z_scope.

(** ** Python primitives used by the wrapper *)

Module Py.

(** [str.isspace] on the ASCII range, which is also what [\s] matches in a
    [str] pattern: TAB, LF, VT, FF, CR, the separators 0x1c-0x1f, and SPACE.
    A [string] holds the UTF-8 bytes of a text, so that the whitespace
    characters outside ASCII (U+0085, U+00A0, U+2000 to U+200A, U+3000 and
    the like) are not recognised: [isspace], and [re_sub_ws], [strip] and
    the filter built on it, are those of Python on ASCII text. *)
Definition isspace (c : ascii) : bool :=
  let n := N_of_ascii c in
  (((9 <=? n) && (n <=? 13)) || ((28 <=? n) && (n <=? 31)) || (n =? 32))%N.

(** [re.sub('\s+', '+', s)]: a left-to-right scan; [in_run] tells whether
    the previous character belonged to the whitespace run being replaced. *)
Fixpoint sub_ws_from (in_run : bool) (s : string) : string :=
  match s with
  | EmptyString => EmptyString
  | String c r =>
      if isspace c
      then (if in_run then sub_ws_from true r
            else String "+" (sub_ws_from true r))
      else String c (sub_ws_from false r)
  end.

Definition re_sub_ws (s : string) : string := sub_ws_from false s.

(** First [n] characters, one per [ascii]: the characters of Python on
    ASCII text, the bytes of the UTF-8 encoding otherwise. *)
Fixpoint take (n : nat) (s : string) : string :=
  match n, s with
  | S m, String c r => String c (take m r)
  | _, _ => EmptyString
  end.

(** The slice [s[:k]]; a negative bound counts from the end. *)
Definition slice_to (k : Z) (s : string) : string :=
  if k <? 0
  then take (Z.to_nat (Z.of_nat (String.length s) + k)) s
  else take (Z.to_nat k) s.

(** The slice [l[:k]] of a list. *)
Definition list_slice_to {A} (k : Z) (l : list A) : list A :=
  if k <? 0
  then firstn (Z.to_nat (Z.of_nat (List.length l) + k)) l
  else firstn (Z.to_nat k) l.

Fixpoint lstrip (s : string) : string :=
  match s with
  | EmptyString => EmptyString
  | String c r => if isspace c then lstrip r else s
  end.

Fixpoint rstrip (s : string) : string :=
  match s with
  | EmptyString => EmptyString
  | String c r =>
      match rstrip r with
      | EmptyString => if isspace c then EmptyString else String c EmptyString
      | r' => String c r'
      end
  end.

(** [s.strip()] *)
Definition strip (s : string) : string := rstrip (lstrip s).

(** [sep.join(l)] *)
Fixpoint join (sep : string) (l : list string) : string :=
  match l with
  | [] => EmptyString
  | [x] => x
  | x :: rest => x ++ sep ++ join sep rest
  end.

(** [needle in hay] for two strings. *)
Fixpoint contains (needle hay : string) : bool :=
  String.prefix needle hay ||
  match hay with
  | EmptyString => false
  | String _ r => contains needle r
  end.

(** The characters of a string, each as a one-character string. *)
Fixpoint chars (s : string) : list string :=
  match s with
  | EmptyString => []
  | String c r => String c EmptyString :: chars r
  end.

Fixpoint mem_ascii (c : ascii) (s : string) : bool :=
  match s with
  | EmptyString => false
  | String d r => Ascii.eqb c d || mem_ascii c r
  end.

Definition is_alnum (c : ascii) : bool :=
  let n := N_of_ascii c in
  (((48 <=? n) && (n <=? 57)) || ((65 <=? n) && (n <=? 90))
   || ((97 <=? n) && (n <=? 122)))%N.

Definition hex_digit (n : N) : ascii :=
  if (n <? 10)%N then ascii_of_N (48 + n) else ascii_of_N (55 + n).

(** [urllib.parse.quote(s, safe)]: letters, digits, [_.-~] and the
    characters of [safe] are kept, any other one becomes [%XX], byte by
    byte of the UTF-8 encoding, which a [string] holds.  Together with
    [take], which then counts bytes where Python counts characters, this
    is the encoded term of the code on ASCII text. *)
Fixpoint quote (safe : string) (s : string) : string :=
  match s with
  | EmptyString => EmptyString
  | String c r =>
      if is_alnum c || mem_ascii c "_.-~" || mem_ascii c safe
      then String c (quote safe r)
      else let n := N_of_ascii c in
           String "%" (String (hex_digit (n / 16)) (String (hex_digit (n mod 16))
             (quote safe r)))
  end.

End Py.

(** The [safe] argument that [lazy_load] gives to [quote]; the character
    of code 34 is the double quote. *)
Definition safe_chars : string := ":/?=&" ++ String "034" "[]+".

(** ** Exceptions and results *)

Inductive Exn : Type :=
| HTTPError (code : Z)          (* urllib.error.HTTPError, with its status *)
| URLError                      (* any other failure of the transport *)
| KeyError (key : string)
| TypeError
| AttributeError
| ValueError
| DecodeError.                  (* UnicodeDecodeError, ExpatError, JSONDecodeError *)

Inductive Res (A : Type) : Type :=
| Ok (a : A)
| Raise (e : Exn).
Arguments Ok {A} a.
Arguments Raise {A} e.

Definition rbind {A B} (r : Res A) (k : A -> Res B) : Res B :=
  match r with
  | Ok a => k a
  | Raise e => Raise e
  end.

Notation "x <- r ;; k" := (rbind r (fun x => k))
  (at level 61, r at next level, right associativity).

(** [try: r  except KeyError: h] *)
Definition except_KeyError {A} (r h : Res A) : Res A :=
  match r with
  | Raise (KeyError _) => h
  | _ => r
  end.

(** [for x in l: ...] collecting results, stopping at the first exception. *)
Fixpoint rmap {A B} (f : A -> Res B) (l : list A) : Res (list B) :=
  match l with
  | [] => Ok []
  | x :: rest => y <- f x ;; ys <- rmap f rest ;; Ok (y :: ys)
  end.

Fixpoint assoc {V} (k : string) (d : list (string * V)) : option V :=
  match d with
  | [] => None
  | (k', v) :: rest => if String.eqb k k' then Some v else assoc k rest
  end.

(** ** Documents produced by [xmltodict.parse]

    An element without attributes and children is its text ([XStr]) or
    [None] when empty; an element with attributes or children is a dict
    whose ['@name'] entries are the attribute values and whose ['#text']
    entry is the character data, both always of type [str]; a repeated
    child is a list.  The dict is kept in three parts so that these two
    kinds of entries are strings by construction. *)

Inductive XVal : Type :=
| XNone
| XStr (s : string)
| XDict (attrs : list (string * string)) (text : option string)
        (children : list (string * XVal))
| XList (items : list XVal).

(** The empty dict literal. *)
Definition XEmpty : XVal := XDict [] None [].

Module X.

(** Lookup of key [k] in a dict given by its three parts. *)
Definition lookup (a : list (string * string)) (t : option string)
    (c : list (string * XVal)) (k : string) : option XVal :=
  match k with
  | String "@" name => option_map XStr (assoc name a)
  | _ => if String.eqb k "#text" then option_map XStr t else assoc k c
  end.

(** [v[k]] *)
Definition getitem (v : XVal) (k : string) : Res XVal :=
  match v with
  | XDict a t c =>
      match lookup a t c k with
      | Some x => Ok x
      | None => Raise (KeyError k)
      end
  | _ => Raise TypeError
  end.

(** [v.get(k, default)] *)
Definition get (v : XVal) (k : string) (default : XVal) : Res XVal :=
  match v with
  | XDict a t c =>
      match lookup a t c k with
      | Some x => Ok x
      | None => Ok default
      end
  | _ => Raise AttributeError
  end.

Definition keys (a : list (string * string)) (t : option string)
    (c : list (string * XVal)) : list string :=
  map (fun kv => String "@" (fst kv)) a
  ++ match t with Some _ => ["#text"] | None => [] end
  ++ map fst c.

Definition is_str_eq (k : string) (v : XVal) : bool :=
  match v with
  | XStr s => String.eqb s k
  | _ => false
  end.

(** [k in v], for a string [k]. *)
Definition contains (k : string) (v : XVal) : Res bool :=
  match v with
  | XDict a t c =>
      Ok (match lookup a t c k with Some _ => true | None => false end)
  | XStr s => Ok (Py.contains k s)
  | XList l => Ok (existsb (is_str_eq k) l)
  | XNone => Raise TypeError
  end.

(** The values that [for x in v] goes through. *)
Definition iter (v : XVal) : Res (list XVal) :=
  match v with
  | XList l => Ok l
  | XDict a t c => Ok (map XStr (keys a t c))
  | XStr s => Ok (map XStr (Py.chars s))
  | XNone => Raise TypeError
  end.

(** The string that [v] is, as [v + ': '] and the string-typed fields
    need it; a [TypeError] otherwise, which no ['@name'] or ['#text']
    entry can cause. *)
Definition as_str (v : XVal) : Res string :=
  match v with
  | XStr s => Ok s
  | _ => Raise TypeError
  end.

End X.

(** ** Documents produced by [json.loads] *)

Inductive JVal : Type :=
| JNull
| JBool (b : bool)
| JNum (n : Z)
| JStr (s : string)
| JList (items : list JVal)
| JDict (entries : list (string * JVal)).

Module J.

(** [v[k]] for a string key. *)
Definition getitem (v : JVal) (k : string) : Res JVal :=
  match v with
  | JDict d =>
      match assoc k d with
      | Some x => Ok x
      | None => Raise (KeyError k)
      end
  | _ => Raise TypeError
  end.

(** [v[:k]] *)
Definition slice_to (v : JVal) (k : Z) : Res JVal :=
  match v with
  | JList l => Ok (JList (Py.list_slice_to k l))
  | JStr s => Ok (JStr (Py.slice_to k s))
  | _ => Raise TypeError
  end.

(** The values that [for x in v] goes through. *)
Definition iter (v : JVal) : Res (list JVal) :=
  match v with
  | JList l => Ok l
  | JStr s => Ok (map JStr (Py.chars s))
  | JDict d => Ok (map (fun kv => JStr (fst kv)) d)
  | _ => Raise TypeError
  end.

End J.

(** ** The wrapper object, the network and the observable trace *)

Record PubMedAPIWrapper : Type := mkWrapper {
  base_url_esearch : string;
  base_url_efetch : string;
  base_url_citation : string;
  max_retry : Z;
  sleep_time : Z;   (* a float in the source; doubling it is exact *)
  MAX_QUERY_LENGTH : Z
}.

Definition default_wrapper : PubMedAPIWrapper := {|
  base_url_esearch := "https://eutils.ncbi.nlm.nih.gov/entrez/eutils/esearch.fcgi?";
  base_url_efetch := "https://eutils.ncbi.nlm.nih.gov/entrez/eutils/efetch.fcgi?";
  base_url_citation := "https://api.ncbi.nlm.nih.gov/lit/ctxp/v1/pubmed/?";
  max_retry := 5;
  sleep_time := 30;
  MAX_QUERY_LENGTH := 128
|}.

(** [self.sleep_time = t] *)
Definition set_sleep_time (w : PubMedAPIWrapper) (t : Z) : PubMedAPIWrapper :=
  {| base_url_esearch := base_url_esearch w;
     base_url_efetch := base_url_efetch w;
     base_url_citation := base_url_citation w;
     max_retry := max_retry w;
     sleep_time := t;
     MAX_QUERY_LENGTH := MAX_QUERY_LENGTH w |}.

(** What the outside world sees of an execution, oldest event first. *)
Inductive Event : Type :=
| Request (url : string)
| Sleep (seconds : Z).

Record State : Type := mkState {
  self : PubMedAPIWrapper;
  trace : list Event
}.

Definition is_request (e : Event) : bool :=
  match e with Request _ => true | Sleep _ => false end.

(** Number of requests sent so far. *)
Definition requests (t : list Event) : nat := List.length (filter is_request t).

(** The delays of the sleeps so far, oldest first. *)
Fixpoint sleeps (t : list Event) : list Z :=
  match t with
  | [] => []
  | Sleep d :: r => d :: sleeps r
  | Request _ :: r => sleeps r
  end.

(** The body of a response, seen through the two decoders the wrapper
    applies to it after [read().decode("utf-8")]. *)
Record Payload : Type := mkPayload {
  as_xml : Res XVal;      (* xmltodict.parse *)
  as_json : Res JVal      (* json.loads *)
}.

Definition xml_payload (x : XVal) : Payload :=
  {| as_xml := Ok x; as_json := Raise DecodeError |}.
Definition json_payload (j : JVal) : Payload :=
  {| as_xml := Raise DecodeError; as_json := Ok j |}.

(** The network: the answer to the [n+1]-th request, for URL [url]. *)
Definition Network : Type := nat -> string -> Res Payload.

(** The dict returned by [_parse_article]. *)
Record Details : Type := mkDetails {
  uid : string;
  pmc_id : option string;
  Summary : string;
  Citation : JVal;
  title : string
}.

(** The dict appended by [run]. *)
Record ResultDoc : Type := mkDoc {
  URL : string;
  doc_Summary : string;
  doc_Citation : JVal
}.

(** ** [_parse_article]: the parts that do not touch the network *)

(** The article node: the standard shape, or the book shape when a key of
    the standard one is missing. *)
Definition article_node (text_dict : XVal) : Res XVal :=
  except_KeyError
    (a <- X.getitem text_dict "PubmedArticleSet" ;;
     b <- X.getitem a "PubmedArticle" ;;
     c <- X.getitem b "MedlineCitation" ;;
     X.getitem c "Article")
    (a <- X.getitem text_dict "PubmedArticleSet" ;;
     b <- X.getitem a "PubmedBookArticle" ;;
     X.getitem b "BookDocument").

(** One turn of the loop over the blocks: what [txt] appends to
    [summaries]. *)
Definition block_lines (txt : XVal) : Res (list string) :=
  let prefix := "" in
  has_cat <- X.contains "@NlmCategory" txt ;;
  prefix <- (if has_cat : bool
             then v <- X.getitem txt "@NlmCategory" ;;
                  s <- X.as_str v ;; Ok (prefix ++ (s ++ ": "))
             else Ok prefix) ;;
  has_label <- X.contains "@Label" txt ;;
  prefix <- (if has_label : bool
             then v <- X.getitem txt "@Label" ;;
                  s <- X.as_str v ;; Ok (prefix ++ (s ++ ": "))
             else Ok prefix) ;;
  has_text <- X.contains "#text" txt ;;
  if has_text : bool
  then v <- X.getitem txt "#text" ;; s <- X.as_str v ;; Ok [prefix ++ s]
  else Ok [].

Definition newline : string := String "010" EmptyString.

(** The three shapes of the abstract. *)
Definition summary_of (abstract_text : XVal) : Res string :=
  match abstract_text with
  | XStr s => Ok s
  | XDict _ _ _ =>
      v <- X.get abstract_text "#text" (XStr "") ;; X.as_str v
  | _ =>
      blocks <- X.iter abstract_text ;;
      summaries <- rmap block_lines blocks ;;
      Ok (Py.join newline (List.concat summaries))
  end.

Definition parse_summary (ar : XVal) : Res string :=
  abstract <- X.get ar "Abstract" XEmpty ;;
  abstract_text <- X.get abstract "AbstractText" (XList []) ;;
  summary_of abstract_text.

(** One turn of the comprehension over the identifier entries. *)
Definition pmc_entry (x : XVal) : Res (list string) :=
  t <- X.getitem x "@IdType" ;;
  if X.is_str_eq "pmc" t
  then v <- X.getitem x "#text" ;; s <- X.as_str v ;; Ok [s]
  else Ok [].

(** The nested identifier list of the document. *)
Definition article_ids_of (text_dict : XVal) : Res XVal :=
  a <- X.getitem text_dict "PubmedArticleSet" ;;
  b <- X.getitem a "PubmedArticle" ;;
  c <- X.getitem b "PubmedData" ;;
  d <- X.getitem c "ArticleIdList" ;;
  X.getitem d "ArticleId".

Definition pmc_ids (text_dict : XVal) : Res (list string) :=
  article_ids <- article_ids_of text_dict ;;
  entries <- X.iter article_ids ;;
  found <- rmap pmc_entry entries ;;
  Ok (List.concat found).

(** The [try ... except: pmc_id = None] block. *)
Definition parse_pmc_id (text_dict : XVal) : option string :=
  match pmc_ids text_dict with
  | Ok (p :: _) => Some p
  | Ok [] => None
  | Raise _ => None
  end.

Definition parse_title (ar : XVal) : Res string :=
  t <- X.getitem ar "ArticleTitle" ;;
  match t with
  | XStr s => Ok s
  | _ => v <- X.getitem t "#text" ;; X.as_str v
  end.

(** ** The methods that talk to the network *)

(** The state after [urllib.request.urlopen(url)] was called. *)
Definition requested (url : string) (st : State) : State :=
  {| self := self st; trace := trace st ++ [Request url] |}.

(** The state after [time.sleep(self.sleep_time); self.sleep_time *= 2]. *)
Definition slept (st : State) : State :=
  {| self := set_sleep_time (self st) (sleep_time (self st) * 2);
     trace := trace st ++ [Sleep (sleep_time (self st))] |}.

Section Wrapper.

Variable net : Network.

(** [urllib.request.urlopen(url)] *)
Definition urlopen (url : string) (st : State) : Res Payload * State :=
  (net (requests (trace st)) url, requested url st).

(** The [while True] loop of [retrieve_article].  [time.sleep] refuses a
    negative delay with a [ValueError], raised from inside the handler. *)
Equations? retry_loop (url : string) (retry : Z) (st : State)
    : Res Payload * State
    by wf (Z.to_nat (max_retry (self st) - retry)) lt :=
  retry_loop url retry st with net (requests (trace st)) url := {
    | Ok result => (Ok result, requested url st)
    | Raise (HTTPError code)
        with Z.eq_dec code 429, Z_lt_dec retry (max_retry (self st)) := {
        | left _, left _ with Z_lt_dec (sleep_time (self st)) 0 := {
            | left _ => (Raise ValueError, requested url st)
            | right _ => retry_loop url (retry + 1) (slept (requested url st)) }
        | _, _ => (Raise (HTTPError code), requested url st) }
    | Raise e => (Raise e, requested url st) }.
Proof. simpl. lia. Qed.

Definition citation_url (w : PubMedAPIWrapper) (uid : string) : string :=
  base_url_citation w ++ "format=citation&id=" ++ uid.

Definition _parse_article (uid : string) (text_dict : XVal) (st : State)
    : Res Details * State :=
  match (ar <- article_node text_dict ;;
         summary <- parse_summary ar ;; Ok (ar, summary)) with
  | Raise e => (Raise e, st)
  | Ok (ar, summary) =>
      let pmc_id := parse_pmc_id text_dict in
      let (result, st1) := urlopen (citation_url (self st) uid) st in
      (result <- result ;;
       citations <- as_json result ;;
       title <- parse_title ar ;;
       ama <- J.getitem citations "ama" ;;
       orig <- J.getitem ama "orig" ;;
       Ok {| uid := uid; pmc_id := pmc_id; Summary := summary;
             Citation := orig; title := title |},
       st1)
  end.

Definition efetch_url (w : PubMedAPIWrapper) (uid webenv : string) : string :=
  base_url_efetch w ++ "db=pubmed&retmode=xml&id=" ++ uid
  ++ "&webenv=" ++ webenv.

(** [uid] and [webenv] come from the search response; building the URL
    raises a [TypeError] unless both are strings. *)
Definition retrieve_article (uid webenv : JVal) (st : State)
    : Res Details * State :=
  match uid, webenv with
  | JStr uid, JStr webenv =>
      let (result, st1) := retry_loop (efetch_url (self st) uid webenv) 0 st in
      match (result <- result ;; as_xml result) with
      | Raise e => (Raise e, st1)
      | Ok text_dict => _parse_article uid text_dict st1
      end
  | _, _ => (Raise TypeError, st)
  end.

Definition search_url (w : PubMedAPIWrapper) (query : string) : string :=
  base_url_esearch w ++ "db=pubmed&term=" ++ Py.quote safe_chars query
  ++ "&retmode=json&retmax=1000&usehistory=y" ++ "&sort=relevance".

(** The [for uid in ...] loop of [lazy_load]: [try] the identifier, on any
    exception [continue].  Nothing after [retrieve_article] in the [try]
    body can raise, and the local list [references] is never read. *)
Fixpoint lazy_load_loop (uids : list JVal) (webenv : JVal) (st : State)
    : list Details * State :=
  match uids with
  | [] => ([], st)
  | uid :: rest =>
      let (r, st1) := retrieve_article uid webenv st in
      let (yielded, st2) := lazy_load_loop rest webenv st1 in
      match r with
      | Ok details => (details :: yielded, st2)
      | Raise _ => (yielded, st2)
      end
  end.

(** What [lazy_load] reads in the search response. *)
Definition search_result (top_k_results : Z) (result : Res Payload)
    : Res (JVal * list JVal) :=
  result <- result ;;
  json_text <- as_json result ;;
  esearchresult <- J.getitem json_text "esearchresult" ;;
  webenv <- J.getitem esearchresult "webenv" ;;
  esearchresult <- J.getitem json_text "esearchresult" ;;
  idlist <- J.getitem esearchresult "idlist" ;;
  top <- J.slice_to idlist top_k_results ;;
  uids <- J.iter top ;;
  Ok (webenv, uids).

(** [lazy_load], run to the end of the generator. *)
Definition lazy_load (query : string) (top_k_results : Z) (st : State)
    : Res (list Details) * State :=
  let (result, st1) := urlopen (search_url (self st) query) st in
  match search_result top_k_results result with
  | Raise e => (Raise e, st1)
  | Ok (webenv, uids) =>
      let (yielded, st2) := lazy_load_loop uids webenv st1 in
      (Ok yielded, st2)
  end.

(** [len(x['Summary'].strip()) > 0] *)
Definition has_summary (x : Details) : bool :=
  negb (Nat.eqb (String.length (Py.strip (Summary x))) 0).

Definition load (query : string) (top_k_results : Z) (st : State)
    : Res (list Details) * State :=
  let (r, st1) := lazy_load query top_k_results st in
  (l <- r ;; Ok (filter has_summary l), st1).

(** The URL that [run] derives for one result. *)
Definition doc_url (result : Details) : string :=
  match pmc_id result with
  | None => "https://pubmed.ncbi.nlm.nih.gov/" ++ uid result ++ "/"
  | Some p => "https://www.ncbi.nlm.nih.gov/pmc/articles/" ++ p ++ "/"
  end.

Definition to_doc (result : Details) : ResultDoc :=
  {| URL := doc_url result;
     doc_Summary := Summary result;
     doc_Citation := Citation result |}.

(** The term that [run] hands to [load]. *)
Definition submitted_term (w : PubMedAPIWrapper) (query : string) : string :=
  Py.slice_to (MAX_QUERY_LENGTH w) (Py.re_sub_ws query).

Definition run (query : string) (top_k_results : Z) (st : State)
    : Res (list ResultDoc) * State :=
  let (r, st1) := load (submitted_term (self st) query) top_k_results st in
  (l <- r ;; Ok (map to_doc l), st1).

End Wrapper.

(** ** Vocabulary of the statements *)

(** The state after [k] turns of the retry loop that ended in a sleep. *)
Fixpoint backed_off (url : string) (k : nat) (st : State) : State :=
  match k with
  | O => st
  | S k' => backed_off url k' (slept (requested url st))
  end.

(** [k] failed attempts on [url], each followed by a sleep, the first one
    of [d] seconds and every next one twice as long. *)
Fixpoint backoff_trace (url : string) (k : nat) (d : Z) : list Event :=
  match k with
  | O => []
  | S k' => Request url :: Sleep d :: backoff_trace url k' (d * 2)
  end.

(** [d; 2d; 4d; ...], [k] delays. *)
Fixpoint geometric (d : Z) (k : nat) : list Z :=
  match k with
  | O => []
  | S k' => d :: geometric (d * 2) k'
  end.

Fixpoint nondecreasing (l : list Z) : Prop :=
  match l with
  | a :: (b :: _) as rest => a <= b /\ nondecreasing rest
  | _ => True
  end.

(** From [st] to [st'], [k] sleeps happened, continuing the doubling of
    the delay stored in the object. *)
Definition backoff_continues (st st' : State) (k : nat) : Prop :=
  sleeps (trace st') = (sleeps (trace st) ++ geometric (sleep_time (self st)) k)%list
  /\ sleep_time (self st') = sleep_time (self st) * 2 ^ Z.of_nat k
  /\ (k <> O -> 0 <= sleep_time (self st)).

(** A network on which every request is answered by a rate-limit error. *)
Definition always_429 : Network := fun _ _ => Raise (HTTPError 429).

(** A network that answers the first three requests by a rate-limit error
    and every later one by the body [p]. *)
Definition three_429_then (p : Payload) : Network :=
  fun n _ => if (n <? 3)%nat then Raise (HTTPError 429) else Ok p.

(** A wrapper that was just created, before any request. *)
Definition fresh : State := {| self := default_wrapper; trace := [] |}.

(** A network whose every answer is the error [e]. *)
Definition always_fails (e : Exn) : Network := fun _ _ => Raise e.

(** [n] spaces. *)
Fixpoint blanks (n : nat) : string :=
  match n with
  | O => EmptyString
  | S m => String " " (blanks m)
  end.

Fixpoint no_space (s : string) : bool :=
  match s with
  | EmptyString => true
  | String c r => negb (Py.isspace c) && no_space r
  end.

(** The collapse of whitespace runs as the specification words it: a
    character that is not whitespace is kept; a whitespace character starts
    a run, and the whole run is replaced by one [+]. *)
Equations? collapse_runs (s : string) : string by wf (String.length s) lt :=
  collapse_runs EmptyString := EmptyString;
  collapse_runs (String c r) with Py.isspace c := {
    | true => String "+" (collapse_runs (Py.lstrip r))
    | false => String c (collapse_runs r) }.
Proof.
  clear collapse_runs. induction r as [| d r IH]; simpl; [lia |].
  destruct (Py.isspace d); simpl; lia.
Qed.

(** A dict of the parsed document, by its three parts. *)
Definition Node : Type :=
  (list (string * string) * option string * list (string * XVal))%type.

Definition node_val (b : Node) : XVal :=
  let '(a, t, c) := b in XDict a t c.

Definition node_text (b : Node) : option string :=
  let '(_, t, _) := b in t.

Definition has_text (b : Node) : bool :=
  match node_text b with Some _ => true | None => false end.

(** The prefix of a block as the specification words it: the category
    label, if any, then the section label, if any, each followed by a
    colon and a space. *)
Definition label_prefix (a : list (string * string)) : string :=
  match assoc "NlmCategory" a with Some c => c ++ ": " | None => "" end
  ++ match assoc "Label" a with Some l => l ++ ": " | None => "" end.

(** The line of a block: its prefix, then its text. *)
Definition block_line (b : Node) : string :=
  let '(a, t, _) := b in
  label_prefix a ++ match t with Some s => s | None => "" end.

(** Whether an identifier entry carries the type tag [pmc]. *)
Definition is_pmc (b : Node) : bool :=
  let '(a, _, _) := b in
  match assoc "IdType" a with
  | Some ty => String.eqb ty "pmc"
  | None => false
  end.

(** An identifier entry that the comprehension reads without error: it
    has a type tag and, when the tag is [pmc], a text. *)
Definition entry_ok (b : Node) : bool :=
  let '(a, t, _) := b in
  match assoc "IdType" a with
  | Some ty => if String.eqb ty "pmc"
               then match t with Some _ => true | None => false end
               else true
  | None => false
  end.

(** The alternate identifier as the specification words it: the value of
    the first entry whose type tag is the marker. *)
Definition first_pmc (entries : list Node) : option string :=
  match find is_pmc entries with
  | Some b => node_text b
  | None => None
  end.

Fixpoint all_space (s : string) : bool :=
  match s with
  | EmptyString => true
  | String c r => Py.isspace c && all_space r
  end.

(** The outcome of each identifier of the batch, in order, every call of
    [retrieve_article] starting in the state the previous one left. *)
Fixpoint attempts (net : Network) (uids : list JVal) (webenv : JVal)
    (st : State) : list (Res Details) :=
  match uids with
  | [] => []
  | uid :: rest =>
      let (r, st1) := retrieve_article net uid webenv st in
      r :: attempts net rest webenv st1
  end.

(** The values of the outcomes that are not exceptions, in order. *)
Fixpoint successes {A} (l : list (Res A)) : list A :=
  match l with
  | [] => []
  | Ok a :: rest => a :: successes rest
  | Raise _ :: rest => successes rest
  end.

(** The network always answers the detail and citation requests for [u]
    with a well-formed article, from which [_parse_article] builds [d]. *)
Definition serves (net : Network) (w : PubMedAPIWrapper) (webenv u : string)
    (d : Details) : Prop :=
  exists p x ar c j ama,
    (forall n, net n (efetch_url w u webenv) = Ok p)
    /\ as_xml p = Ok x
    /\ article_node x = Ok ar
    /\ parse_summary ar = Ok (Summary d)
    /\ parse_pmc_id x = pmc_id d
    /\ (forall n, net n (citation_url w u) = Ok c)
    /\ as_json c = Ok j
    /\ parse_title ar = Ok (title d)
    /\ J.getitem j "ama" = Ok ama
    /\ J.getitem ama "orig" = Ok (Citation d)
    /\ uid d = u.

(** A document with the outer element but neither the article nor the book
    shape under it. *)
Definition lacks_both_shapes (x : XVal) : Prop :=
  exists a t c,
    X.getitem x "PubmedArticleSet" = Ok (XDict a t c)
    /\ X.lookup a t c "PubmedArticle" = None
    /\ X.lookup a t c "PubmedBookArticle" = None.

(** The network always answers the detail request for [u] with such a
    document. *)
Definition serves_malformed (net : Network) (w : PubMedAPIWrapper)
    (webenv u : string) : Prop :=
  exists p x,
    (forall n, net n (efetch_url w u webenv) = Ok p)
    /\ as_xml p = Ok x
    /\ lacks_both_shapes x.

(** *** A concrete network for the scenario of the specification *)

Module Scenario.

Definition elem (children : list (string * XVal)) : XVal :=
  XDict [] None children.

Definition search_json : JVal :=
  JDict [("header", JDict [("type", JStr "esearch")]);
         ("esearchresult",
          JDict [("count", JStr "3");
                 ("idlist", JList [JStr "111"; JStr "222"; JStr "333"]);
                 ("webenv", JStr "MCID_1")])].

(** A journal article with a plain abstract and a PMC identifier. *)
Definition xml_111 : XVal :=
  elem [("PubmedArticleSet",
    elem [("PubmedArticle",
      elem [("MedlineCitation",
              elem [("Article",
                elem [("ArticleTitle", XStr "Fever in influenza");
                      ("Abstract",
                       elem [("AbstractText",
                              XStr "Fever is the most common sign.")])])]);
            ("PubmedData",
              elem [("ArticleIdList",
                elem [("ArticleId",
                  XList [XDict [("IdType", "pubmed")] (Some "111") [];
                         XDict [("IdType", "pmc")] (Some "PMC123") []])])])])])].

(** Neither shape under the outer element. *)
Definition xml_222 : XVal :=
  elem [("PubmedArticleSet", elem [("DeleteCitation", XStr "222")])].

(** A book chapter with a structured abstract. *)
Definition xml_333 : XVal :=
  elem [("PubmedArticleSet",
    elem [("PubmedBookArticle",
      elem [("BookDocument",
        elem [("ArticleTitle", XDict [("book", "flu")] (Some "Influenza") []);
              ("Abstract",
               elem [("AbstractText",
                 XList [XDict [("NlmCategory", "BACKGROUND")]
                          (Some "Influenza is seasonal.") [];
                        XDict [("Label", "Methods")]
                          (Some "We reviewed cases.") []])])])])])].

Definition citation (s : string) : JVal :=
  JDict [("ama", JDict [("orig", JStr s); ("format", JStr "AMA")])].

Definition term : string := "fever+AND+influenza".

Definition net : Network := fun _ url =>
  if String.eqb url (search_url default_wrapper term)
  then Ok (json_payload search_json)
  else if String.eqb url (efetch_url default_wrapper "111" "MCID_1")
  then Ok (xml_payload xml_111)
  else if String.eqb url (efetch_url default_wrapper "222" "MCID_1")
  then Ok (xml_payload xml_222)
  else if String.eqb url (efetch_url default_wrapper "333" "MCID_1")
  then Ok (xml_payload xml_333)
  else if String.eqb url (citation_url default_wrapper "111")
  then Ok (json_payload (citation "Doe J. Fever in influenza. 2020."))
  else if String.eqb url (citation_url default_wrapper "222")
  then Ok (json_payload (citation "Poe E. Deleted. 2021."))
  else if String.eqb url (citation_url default_wrapper "333")
  then Ok (json_payload (citation "Roe R. Influenza. 2019."))
  else Raise (HTTPError 404).

Definition details_111 : Details :=
  {| uid := "111"; pmc_id := Some "PMC123";
     Summary := "Fever is the most common sign.";
     Citation := JStr "Doe J. Fever in influenza. 2020.";
     title := "Fever in influenza" |}.

Definition details_333 : Details :=
  {| uid := "333"; pmc_id := None;
     Summary := "BACKGROUND: Influenza is seasonal." ++ newline
                ++ "Methods: We reviewed cases.";
     Citation := JStr "Roe R. Influenza. 2019.";
     title := "Influenza" |}.

Definition doc_111 : ResultDoc :=
  {| URL := "https://www.ncbi.nlm.nih.gov/pmc/articles/PMC123/";
     doc_Summary := "Fever is the most common sign.";
     doc_Citation := JStr "Doe J. Fever in influenza. 2020." |}.

Definition doc_333 : ResultDoc :=
  {| URL := "https://pubmed.ncbi.nlm.nih.gov/333/";
     doc_Summary := "BACKGROUND: Influenza is seasonal." ++ newline
                    ++ "Methods: We reviewed cases.";
     doc_Citation := JStr "Roe R. Influenza. 2019." |}.

End Scenario.

(** A network that answers every other request, starting with the first,
    by a rate-limit error, and the others by an empty document. *)
Definition limited_every_other : Network :=
  fun n _ => if Nat.even n then Raise (HTTPError 429)
             else Ok (xml_payload XNone).

(** The fields of the object that no method assigns. *)
Definition same_config (w w' : PubMedAPIWrapper) : Prop :=
  base_url_esearch w' = base_url_esearch w
  /\ base_url_efetch w' = base_url_efetch w
  /\ base_url_citation w' = base_url_citation w
  /\ max_retry w' = max_retry w
  /\ MAX_QUERY_LENGTH w' = MAX_QUERY_LENGTH w.

(** Sum of a list of delays. *)
Fixpoint total (l : list Z) : Z :=
  match l with
  | [] => 0
  | d :: rest => d + total rest
  end.

(** The requests of a run that finds every article at the first attempt. *)
Definition served_trace (w : PubMedAPIWrapper) (webenv : string)
    (uids : list string) : list Event :=
  flat_map (fun u => [Request (efetch_url w u webenv);
                      Request (citation_url w u)]) uids.

(** An element of a block sequence: character data alone, or a dict. *)
Definition item_val (i : string + Node) : XVal :=
  match i with
  | inl s => XStr s
  | inr b => node_val b
  end.

(** A text block in which none of the three keys occurs as a substring. *)
Definition plain_text (s : string) : bool :=
  negb (Py.contains "@NlmCategory" s) && negb (Py.contains "@Label" s)
  && negb (Py.contains "#text" s).

(** The dict blocks of a sequence, in order. *)
Fixpoint nodes_of (items : list (string + Node)) : list Node :=
  match items with
  | [] => []
  | inl _ :: rest => nodes_of rest
  | inr b :: rest => b :: nodes_of rest
  end.

Fixpoint texts_of (items : list (string + Node)) : list string :=
  match items with
  | [] => []
  | inl s :: rest => s :: texts_of rest
  | inr _ :: rest => texts_of rest
  end.

(** Whether [quote] keeps every character of [s] as it is. *)
Fixpoint all_kept (safe s : string) : bool :=
  match s with
  | EmptyString => true
  | String c r =>
      (Py.is_alnum c || Py.mem_ascii c "_.-~" || Py.mem_ascii c safe)
      && all_kept safe r
  end.

(** A wrapper configured with a negative delay. *)
Definition negative_delay : State :=
  {| self := set_sleep_time default_wrapper (-1); trace := [] |}.

(** Whether every character of [s] is whitespace or kept by [quote]. *)
Fixpoint all_kept_or_space (safe s : string) : bool :=
  match s with
  | EmptyString => true
  | String c r =>
      (Py.isspace c
       || Py.is_alnum c || Py.mem_ascii c "_.-~" || Py.mem_ascii c safe)
      && all_kept_or_space safe r
  end.

(** ** The tools built on the wrapper *)

(** The fields of [PubmedQueryRun] that [_run] reads; [api_wrapper] is the
    wrapper object of the state. *)
Record PubmedQueryRun : Type := mkTool {
  top_k_results : Z;
  doc_content_tokens_max : Z
}.

Definition default_tool : PubmedQueryRun :=
  {| top_k_results := 5; doc_content_tokens_max := 2000 |}.

Definition no_result : string := "No good PubMed Result was found".

Section Tools.

(** [str] on the citation taken from the citation response, which is what
    the f-string applies to it. *)
Variable py_str : JVal -> string.

Variable net : Network.

(** One element of the list built by [PubmedQueryRun._run]. *)
Definition format_result (tool : PubmedQueryRun) (result : ResultDoc) : string :=
  "URL: " ++ URL result ++ newline
  ++ "Summary:" ++ newline
  ++ Py.slice_to (doc_content_tokens_max tool) (doc_Summary result) ++ newline
  ++ "Citation:" ++ newline ++ py_str (doc_Citation result).

(** [PubmedQueryRun._run] *)
Definition PubmedQueryRun_run (tool : PubmedQueryRun) (query : string)
    (st : State) : Res string * State :=
  let (r, st1) := run net query (top_k_results tool) st in
  (docs <- r ;;
   let docs := map (format_result tool) docs in
   Ok (match docs with
       | [] => no_result
       | _ => Py.join (newline ++ newline) docs
       end),
   st1).

End Tools.

(** ** The callers of the wrapper and the dialogue (pbl.py, roles.py,
    patient.py) *)

Module Re.

(** The shortest prefix of [s] that ends with [c]. *)
Fixpoint upto_first (c : ascii) (s : string) : option string :=
  match s with
  | EmptyString => None
  | String d r =>
      if Ascii.eqb d c then Some (String d EmptyString)
      else option_map (String d) (upto_first c r)
  end.

(** The longest prefix of [s] that ends with [c]. *)
Fixpoint upto_last (c : ascii) (s : string) : option string :=
  match s with
  | EmptyString => None
  | String d r =>
      match upto_last c r with
      | Some m => Some (String d m)
      | None => if Ascii.eqb d c then Some (String d EmptyString) else None
      end
  end.

(** A match of [\[.+?\]] at the start of [s], with [re.DOTALL]: the
    bracket, one character of any kind, then as few characters as possible
    up to a closing bracket. *)
Definition bracket_at (s : string) : option string :=
  match s with
  | String "[" (String x r) =>
      option_map (fun m => String "[" (String x m)) (upto_first "]" r)
  | _ => None
  end.

(** [re.search('\[.+?\]', s, re.DOTALL)]: the match at the first position
    that has one. *)
Fixpoint search_bracket (s : string) : option string :=
  match bracket_at s with
  | Some m => Some m
  | None =>
      match s with
      | EmptyString => None
      | String _ r => search_bracket r
      end
  end.

(** A match of [\{.+\}] at the start of [s], with [re.DOTALL]: the brace,
    one character of any kind, then as many characters as possible up to a
    closing brace. *)
Definition brace_at (s : string) : option string :=
  match s with
  | String "{" (String x r) =>
      option_map (fun m => String "{" (String x m)) (upto_last "}" r)
  | _ => None
  end.

(** [re.search('\{.+\}', s, re.DOTALL)] *)
Fixpoint search_brace (s : string) : option string :=
  match brace_at s with
  | Some m => Some m
  | None =>
      match s with
      | EmptyString => None
      | String _ r => search_brace r
      end
  end.

End Re.

Section Callers.

(** [json.loads], on the text cut out of a reply of the chat model. *)
Variable json_loads : string -> Res JVal.

Variable net : Network.

(** The questions that [raise_questions] makes problems of, for one reply
    [result] of a student: none without a bracketed text, else the
    elements of the decoded text. *)
Definition questions_of (result : string) : Res (list JVal) :=
  match Re.search_bracket result with
  | None => Ok []
  | Some question_match =>
      questions <- json_loads question_match ;;
      J.iter questions
  end.

(** The query that [search_knowledge] reads in the reply [search_result]
    of the chat model; [None.group()] is an [AttributeError]. *)
Definition pubmed_query (search_result : string) : Res JVal :=
  match Re.search_brace search_result with
  | None => Raise AttributeError
  | Some text =>
      search_result_json <- json_loads text ;;
      pubmed <- J.getitem search_result_json "Pubmed" ;;
      match pubmed with
      | JStr _ => J.getitem search_result_json "Pubmed"
      | _ =>
          pubmed <- J.getitem search_result_json "Pubmed" ;;
          J.getitem pubmed "query"
      end
  end.

(** [self.pubmed_api_wrapper.run(query)], with the default of ten results;
    [re.sub] raises a [TypeError] on a query that is not a string. *)
Definition run_query (query : JVal) (st : State)
    : Res (list ResultDoc) * State :=
  match query with
  | JStr q => run net q 10 st
  | _ => (Raise TypeError, st)
  end.

(** [search_knowledge], from the reply of the chat model on. *)
Definition search_knowledge (search_result : string) (st : State)
    : Res (list ResultDoc) * State :=
  match pubmed_query search_result with
  | Raise e => (Raise e, st)
  | Ok query => run_query query st
  end.

End Callers.

Fixpoint no_char (c : ascii) (s : string) : bool :=
  match s with
  | EmptyString => true
  | String d r => negb (Ascii.eqb d c) && no_char c r
  end.

(** *** Replies of the chat model for the examples *)

Module Replies.

(** The double quote. *)
Definition dq : string := String "034" EmptyString.

(** The text [{"Pubmed": "fever AND influenza"}]. *)
Definition query_json : string :=
  "{" ++ dq ++ "Pubmed" ++ dq ++ ": " ++ dq ++ "fever AND influenza" ++ dq ++ "}".

(** The text [["Which drug?", "Which dose?"]]. *)
Definition questions_json : string :=
  "[" ++ dq ++ "Which drug?" ++ dq ++ ", " ++ dq ++ "Which dose?" ++ dq ++ "]".

(** [json.loads] on the texts of the examples. *)
Definition json_loads (s : string) : Res JVal :=
  if String.eqb s query_json
  then Ok (JDict [("Pubmed", JStr "fever AND influenza")])
  else if String.eqb s questions_json
  then Ok (JList [JStr "Which drug?"; JStr "Which dose?"])
  else Raise DecodeError.

End Replies.

(** ** The inquiry dialogue (roles.py, patient.py, [PBL.inquiry]) *)

Inductive Message : Type :=
| SystemMessage (content : string)
| HumanMessage (content : string)
| AIMessage (content : string).

Definition content (m : Message) : string :=
  match m with
  | SystemMessage c | HumanMessage c | AIMessage c => c
  end.

(** The chat model: the content of its answer to the [n+1]-th call, made
    with the given messages. *)
Definition ChatModel : Type := nat -> list Message -> string.

(** The two characters that end the inquiry, in UTF-8. *)
Definition goodbye : string :=
  String "229" (String "134" (String "141"
    (String "232" (String "167" (String "129" EmptyString))))).

(** ['再见' in s] *)
Definition says_goodbye (s : string) : bool := Py.contains goodbye s.

Module roles.

Record NursingIntern : Type := mkIntern {
  dialogue_record : list Message;
  inquiry_end : bool
}.

(** [NursingIntern()] *)
Definition init : NursingIntern :=
  {| dialogue_record := []; inquiry_end := false |}.

(** [inquiry_greet]; [prompt] is [prompts.inquiry_system_prompt]. *)
Definition inquiry_greet (chat_llm : ChatModel) (prompt : string)
    (self : NursingIntern) (calls : nat) : Message * NursingIntern * nat :=
  let record := (dialogue_record self ++ [SystemMessage prompt])%list in
  let result := AIMessage (chat_llm calls record) in
  (result,
   {| dialogue_record := (record ++ [result])%list;
      inquiry_end := inquiry_end self |},
   S calls).

Definition inquiry_respond (chat_llm : ChatModel) (self : NursingIntern)
    (patient_input : string) (calls : nat) : Message * NursingIntern * nat :=
  let record := (dialogue_record self ++ [HumanMessage patient_input])%list in
  let result := AIMessage (chat_llm calls record) in
  (result,
   {| dialogue_record := (record ++ [result])%list;
      inquiry_end := if says_goodbye (content result) then true
                     else inquiry_end self |},
   S calls).

End roles.

Module patient.

Record MockPatient : Type := mkPatient {
  dialogue_record : list Message
}.

(** The text of the constructor, line breaks and indentation included. *)
Definition system_prompt : string :=
  newline ++ "        你是一个模拟病人，你现在得了感冒，请根据相关医学知识回复合适的内容。"
  ++ newline ++ "        ".

(** [MockPatient()] *)
Definition init : MockPatient :=
  {| dialogue_record := [SystemMessage system_prompt] |}.

Definition get_response (chat_llm : ChatModel) (self : MockPatient)
    (question : string) (calls : nat) : string * MockPatient * nat :=
  let record := (dialogue_record self ++ [HumanMessage question])%list in
  let result := AIMessage (chat_llm calls record) in
  (content result, {| dialogue_record := (record ++ [result])%list |}, S calls).

End patient.

(** The fields of [PBL] that the inquiry uses. *)
Record PBL : Type := mkPBL {
  patent_online : patient.MockPatient;
  nursing_intern : roles.NursingIntern;
  inquiry_dialogue : list Message
}.

(** [PBL()], for these fields. *)
Definition PBL_init : PBL :=
  {| patent_online := patient.init;
     nursing_intern := roles.init;
     inquiry_dialogue := [] |}.

(** How a method call ends, when it does. *)
Inductive Outcome (A : Type) : Type :=
| Returns (a : A)
| IndexError.
Arguments Returns {A} a.
Arguments IndexError {A}.

(** [l[-1]] *)
Definition last_message (l : list Message) : option Message :=
  match rev l with
  | m :: _ => Some m
  | [] => None
  end.

(** The [while not self.nursing_intern.inquiry_end] loop of [inquiry];
    [None] when [fuel] turns do not reach its end. *)
Fixpoint inquiry_loop (chat_llm : ChatModel) (fuel : nat) (self : PBL)
    (calls : nat) : option (Outcome (PBL * nat)) :=
  match fuel with
  | O => None
  | S fuel' =>
      if roles.inquiry_end (nursing_intern self)
      then Some (Returns (self, calls))
      else
        match last_message (inquiry_dialogue self) with
        | None => Some IndexError
        | Some m =>
            let '(patient_response, patent_online', calls1) :=
              patient.get_response chat_llm (patent_online self)
                (content m) calls in
            let dialogue1 :=
              (inquiry_dialogue self ++ [HumanMessage patient_response])%list in
            let '(intern_response, nursing_intern', calls2) :=
              roles.inquiry_respond chat_llm (nursing_intern self)
                patient_response calls1 in
            inquiry_loop chat_llm fuel'
              {| patent_online := patent_online';
                 nursing_intern := nursing_intern';
                 inquiry_dialogue := (dialogue1 ++ [intern_response])%list |}
              calls2
        end
  end.

(** [PBL.inquiry] *)
Definition inquiry (chat_llm : ChatModel) (prompt : string) (fuel : nat)
    (self : PBL) (calls : nat) : option (Outcome (PBL * nat)) :=
  let '(intern_greet, nursing_intern', calls1) :=
    roles.inquiry_greet chat_llm prompt (nursing_intern self) calls in
  inquiry_loop chat_llm fuel
    {| patent_online := patent_online self;
       nursing_intern := nursing_intern';
       inquiry_dialogue := (inquiry_dialogue self ++ [intern_greet])%list |}
    calls1.

(** The dialogue made of a greeting and of rounds, each the answer of the
    patient and the reply of the intern. *)
Definition dialogue_of (greet : string) (rounds : list (string * string))
    : list Message :=
  AIMessage greet
  :: flat_map (fun r => [HumanMessage (fst r); AIMessage (snd r)]) rounds.

(** The same dialogue as the patient records it: every message of the
    intern but the last as a question, followed by the own answer. *)
Fixpoint patient_view (question : string) (rounds : list (string * string))
    : list Message :=
  match rounds with
  | [] => []
  | r :: rest =>
      HumanMessage question :: AIMessage (fst r) :: patient_view (snd r) rest
  end.

(** A chat model that says goodbye from its fifth answer on. *)
Definition brief_model : ChatModel :=
  fun n _ => if (n <? 4)%nat then "How do you feel?" else "Thank you. " ++ goodbye.

(** The last message of the intern in a dialogue. *)
Fixpoint last_reply (greet : string) (rounds : list (string * string))
    : string :=
  match rounds with
  | [] => greet
  | r :: rest => last_reply (snd r) rest
  end.

(** The three records of an inquiry that started from [PBL()] agree on the
    dialogue made of [greet] and [rounds]. *)
Definition records_agree (prompt greet : string)
    (rounds : list (string * string)) (self : PBL) : Prop :=
  inquiry_dialogue self = dialogue_of greet rounds
  /\ roles.dialogue_record (nursing_intern self)
     = SystemMessage prompt :: dialogue_of greet rounds
  /\ patient.dialogue_record (patent_online self)
     = SystemMessage patient.system_prompt :: patient_view greet rounds.

(** A chat model that never says goodbye. *)
Definition endless_model : ChatModel := fun _ _ => "How do you feel?".

(** The network of the scenario behind a rate limit: the first three
    requests are answered by HTTP 429. *)
Definition scenario_after_429 : Network :=
  fun n url => if (n <? 3)%nat then Raise (HTTPError 429)
               else Scenario.net n url.

(** A book chapter whose first block has no text. *)
Definition xml_textless_block : XVal :=
  Scenario.elem [("PubmedArticleSet",
    Scenario.elem [("PubmedBookArticle",
      Scenario.elem [("BookDocument",
        Scenario.elem
          [("ArticleTitle", XStr "Influenza");
           ("Abstract",
            Scenario.elem [("AbstractText",
              XList [XDict [("NlmCategory", "BACKGROUND")] None [];
                     XDict [("Label", "Methods")]
                       (Some "We reviewed cases.") []])])])])])].

(** Whether [s] is ASCII text, on which characters, code points and UTF-8
    bytes are the same. *)
Fixpoint is_ascii (s : string) : bool :=
  match s with
  | EmptyString => true
  | String c r => (N_of_ascii c <? 128)%N && is_ascii r
  end.

(** An element of a parsed sequence: an empty element, character data, or
    a dict. *)
Definition element_val (i : option (string + Node)) : XVal :=
  match i with
  | None => XNone
  | Some i => item_val i
  end.

(** An element on which the loop over the blocks raises. *)
Definition breaks_loop (i : option (string + Node)) : bool :=
  match i with
  | None => true
  | Some (inl s) => negb (plain_text s)
  | Some (inr _) => false
  end.

(** A search response with a header and an identifier list, but without
    session token, and the network that always answers it. *)
Definition no_session_json : JVal :=
  JDict [("header", JDict [("type", JStr "esearch")]);
         ("esearchresult",
          JDict [("count", JStr "1"); ("idlist", JList [JStr "111"])])].

Definition no_session_net : Network :=
  fun _ _ => Ok (json_payload no_session_json).

(** * Properties *)

(** ** The primitives on examples *)

Example re_sub_ws_ex :
  Py.re_sub_ws "fever   AND
 influenza" = "fever+AND+influenza".
Proof. reflexivity. Qed.

Example strip_ex : Py.strip "  a b
 " = "a b".
Proof. reflexivity. Qed.

Example quote_ex :
  Py.quote safe_chars "fever+AND+influenza(x)%" = "fever+AND+influenza%28x%29%25".
Proof. reflexivity. Qed.

(** ** The retry loop *)

Lemma retry_loop_eq net url retry st :
  retry_loop net url retry st =
  match net (requests (trace st)) url with
  | Ok result => (Ok result, requested url st)
  | Raise (HTTPError code) =>
      if (code =? 429) && (retry <? max_retry (self st))
      then if sleep_time (self st) <? 0
           then (Raise ValueError, requested url st)
           else retry_loop net url (retry + 1) (slept (requested url st))
      else (Raise (HTTPError code), requested url st)
  | Raise e => (Raise e, requested url st)
  end.
Proof.
  rewrite retry_loop_unfold_eq.
  unfold retry_loop_unfold, retry_loop_unfold_clause_1,
    retry_loop_unfold_clause_1_clause_2,
    retry_loop_unfold_clause_1_clause_2_clause_1,
    retry_loop_unfold_clause_1_clause_2_clause_1_clause_1.
  destruct (net (requests (trace st)) url) as [p | e]; [reflexivity |].
  destruct e; try reflexivity.
  destruct (Z.eq_dec code 429) as [Hc | Hc].
  - apply Z.eqb_eq in Hc as Hc'. rewrite Hc'.
    destruct (Z_lt_dec retry (max_retry (self st))) as [Hr | Hr].
    + apply Z.ltb_lt in Hr as Hr'. rewrite Hr'.
      destruct (Z_lt_dec (sleep_time (self st)) 0) as [Hs | Hs]; simpl.
      * apply Z.ltb_lt in Hs. rewrite Hs. reflexivity.
      * apply Z.nlt_ge, Z.ltb_ge in Hs. rewrite Hs. reflexivity.
    + apply Z.nlt_ge, Z.ltb_ge in Hr. rewrite Hr. subst code. reflexivity.
  - rewrite (proj2 (Z.eqb_neq _ _) Hc). simpl.
    destruct (Z_lt_dec retry (max_retry (self st))); reflexivity.
Qed.

Lemma requests_app t1 t2 :
  requests (t1 ++ t2)%list = (requests t1 + requests t2)%nat.
Proof. unfold requests. rewrite filter_app, length_app. reflexivity. Qed.

Lemma sleeps_app t1 t2 : sleeps (t1 ++ t2)%list = (sleeps t1 ++ sleeps t2)%list.
Proof.
  induction t1 as [| [u | d] t1 IH]; simpl; [reflexivity | exact IH |].
  now rewrite IH.
Qed.

Lemma requests_requested url st :
  requests (trace (requested url st)) = S (requests (trace st)).
Proof. simpl. rewrite requests_app. unfold requests. simpl. lia. Qed.

Lemma requests_slept st : requests (trace (slept st)) = requests (trace st).
Proof. simpl. rewrite requests_app. unfold requests. simpl. lia. Qed.

Lemma requests_backoff_trace url k d :
  requests (backoff_trace url k d) = k.
Proof.
  revert d. induction k as [| k IH]; intros d; [reflexivity |].
  change (S (requests (backoff_trace url k (d * 2))) = S k). now rewrite IH.
Qed.

Lemma sleeps_backoff_trace url k d :
  sleeps (backoff_trace url k d) = geometric d k.
Proof.
  revert d. induction k as [| k IH]; intros d; simpl; [reflexivity |].
  now rewrite IH.
Qed.

Lemma trace_backed_off url k st :
  trace (backed_off url k st)
  = (trace st ++ backoff_trace url k (sleep_time (self st)))%list.
Proof.
  revert st. induction k as [| k IH]; intros st; simpl.
  - now rewrite app_nil_r.
  - rewrite IH. simpl. rewrite <- !app_assoc. reflexivity.
Qed.

Lemma sleep_time_backed_off url k st :
  sleep_time (self (backed_off url k st))
  = sleep_time (self st) * 2 ^ Z.of_nat k.
Proof.
  revert st. induction k as [| k IH]; intros st.
  - simpl. lia.
  - change (backed_off url (S k) st)
      with (backed_off url k (slept (requested url st))).
    rewrite IH. simpl sleep_time. rewrite Nat2Z.inj_succ, Z.pow_succ_r; lia.
Qed.

Lemma config_backed_off url k st :
  max_retry (self (backed_off url k st)) = max_retry (self st)
  /\ base_url_efetch (self (backed_off url k st)) = base_url_efetch (self st)
  /\ base_url_citation (self (backed_off url k st)) = base_url_citation (self st)
  /\ base_url_esearch (self (backed_off url k st)) = base_url_esearch (self st)
  /\ MAX_QUERY_LENGTH (self (backed_off url k st)) = MAX_QUERY_LENGTH (self st).
Proof.
  revert st. induction k as [| k IH]; intros st; simpl; [tauto |].
  destruct (IH (slept (requested url st))) as (H1 & H2 & H3 & H4 & H5).
  simpl in *. tauto.
Qed.

(** [k] rate-limited attempts within the retry budget take the loop to its
    [k+1]-th turn, [k] sleeps later. *)
Lemma retry_loop_backoff net url k : forall retry st,
  0 <= sleep_time (self st) ->
  (k <> O -> retry + Z.of_nat k <= max_retry (self st)) ->
  (forall i, (i < k)%nat ->
     net (requests (trace st) + i)%nat url = Raise (HTTPError 429)) ->
  retry_loop net url retry st
  = retry_loop net url (retry + Z.of_nat k) (backed_off url k st).
Proof.
  induction k as [| k IH]; intros retry st Hs Hr Hnet.
  - simpl. now rewrite Z.add_0_r.
  - rewrite retry_loop_eq.
    specialize (Hnet O (Nat.lt_0_succ k)) as H0.
    rewrite Nat.add_0_r in H0. rewrite H0.
    assert (Hr' : retry + Z.of_nat (S k) <= max_retry (self st))
      by (apply Hr; discriminate).
    replace (retry <? max_retry (self st)) with true
      by (symmetry; apply Z.ltb_lt; lia).
    replace (sleep_time (self st) <? 0) with false
      by (symmetry; apply Z.ltb_ge; lia).
    simpl andb. cbv iota.
    rewrite (IH (retry + 1) (slept (requested url st))).
    + simpl backed_off. f_equal. lia.
    + simpl. lia.
    + simpl. lia.
    + intros i Hi. rewrite requests_slept, requests_requested.
      replace (S (requests (trace st)) + i)%nat
        with (requests (trace st) + S i)%nat by lia.
      apply Hnet. lia.
Qed.

(** Whatever the network answers, the loop leaves the object and the trace
    as [k] backed-off attempts and one last request do. *)
Lemma retry_loop_state net url : forall n retry st,
  Z.to_nat (max_retry (self st) - retry) = n ->
  exists k,
    snd (retry_loop net url retry st) = requested url (backed_off url k st)
    /\ (k <> O -> 0 <= sleep_time (self st)).
Proof.
  induction n as [| n IH]; intros retry st Hn; rewrite retry_loop_eq;
    destruct (net (requests (trace st)) url) as [p | e];
    try (exists O; split; [reflexivity | congruence]);
    destruct e; try (exists O; split; [reflexivity | congruence]).
  - replace (retry <? max_retry (self st)) with false
      by (symmetry; apply Z.ltb_ge; lia).
    rewrite andb_false_r. exists O; split; [reflexivity | congruence].
  - destruct ((code =? 429) && (retry <? max_retry (self st))) eqn:Hc;
      [| exists O; split; [reflexivity | congruence]].
    destruct (sleep_time (self st) <? 0) eqn:Hs;
      [exists O; split; [reflexivity | congruence] |].
    destruct (IH (retry + 1) (slept (requested url st))) as (k & Hk & _).
    + simpl. lia.
    + exists (S k). split; [exact Hk |]. intros _. apply Z.ltb_ge. exact Hs.
Qed.

Lemma retry_loop_raises_at_ceiling net url retry st :
  net (requests (trace st)) url = Raise (HTTPError 429) ->
  max_retry (self st) <= retry ->
  retry_loop net url retry st = (Raise (HTTPError 429), requested url st).
Proof.
  intros Hnet Hr. rewrite retry_loop_eq, Hnet.
  replace (retry <? max_retry (self st)) with false
    by (symmetry; apply Z.ltb_ge; lia).
  reflexivity.
Qed.

Lemma retry_loop_fatal net url retry st e :
  net (requests (trace st)) url = Raise e ->
  e <> HTTPError 429 ->
  retry_loop net url retry st = (Raise e, requested url st).
Proof.
  intros Hnet He. rewrite retry_loop_eq, Hnet.
  destruct e; try reflexivity.
  destruct (Z.eqb_spec code 429) as [-> | Hc]; [congruence | reflexivity].
Qed.

Lemma retry_loop_success net url retry st p :
  net (requests (trace st)) url = Ok p ->
  retry_loop net url retry st = (Ok p, requested url st).
Proof. intros Hnet. now rewrite retry_loop_eq, Hnet. Qed.

(** ** Effects of the other methods *)

Lemma parse_article_state net u x st :
  snd (_parse_article net u x st) = st
  \/ snd (_parse_article net u x st) = requested (citation_url (self st) u) st.
Proof.
  unfold _parse_article.
  destruct (article_node x) as [ar | e]; simpl; [| now left].
  destruct (parse_summary ar) as [s | e]; simpl; [| now left].
  now right.
Qed.

Lemma parse_article_state_exact net u x st :
  snd (_parse_article net u x st)
  = match (ar <- article_node x ;; parse_summary ar) with
    | Ok _ => requested (citation_url (self st) u) st
    | Raise _ => st
    end.
Proof.
  unfold _parse_article.
  destruct (article_node x) as [ar | e]; simpl; [| reflexivity].
  destruct (parse_summary ar) as [s | e]; reflexivity.
Qed.

(** What [_parse_article] returns when the article node, the abstract, the
    citation and the title are read without error, whatever the identifier
    list of the document is. *)
Lemma parse_article_success net u x st ar s c j t ama o :
  article_node x = Ok ar ->
  parse_summary ar = Ok s ->
  net (requests (trace st)) (citation_url (self st) u) = Ok c ->
  as_json c = Ok j ->
  parse_title ar = Ok t ->
  J.getitem j "ama" = Ok ama ->
  J.getitem ama "orig" = Ok o ->
  _parse_article net u x st
  = (Ok {| uid := u; pmc_id := parse_pmc_id x; Summary := s;
           Citation := o; title := t |},
     requested (citation_url (self st) u) st).
Proof.
  intros Har Hs Hc Hj Ht Hama Ho. unfold _parse_article, urlopen.
  rewrite Har. cbn [rbind]. rewrite Hs. cbn [rbind]. cbv iota.
  rewrite Hc. cbn [rbind]. rewrite Hj. cbn [rbind]. rewrite Ht. cbn [rbind].
  rewrite Hama. cbn [rbind]. rewrite Ho. reflexivity.
Qed.

(** The summary of an article node whose abstract is there is the one of
    the value under [AbstractText]. *)
Lemma parse_summary_abstract ar abstract v :
  X.getitem ar "Abstract" = Ok abstract ->
  X.getitem abstract "AbstractText" = Ok v ->
  parse_summary ar = summary_of v.
Proof.
  intros Ha Hv. unfold parse_summary.
  destruct ar as [| s | a t c | l]; try discriminate.
  unfold X.getitem in Ha. unfold X.get.
  destruct (X.lookup a t c "Abstract") as [abs |]; [| discriminate].
  inversion Ha. subst abs. cbn [rbind].
  destruct abstract as [| s | a' t' c' | l]; try discriminate.
  unfold X.getitem in Hv.
  destruct (X.lookup a' t' c' "AbstractText") as [v' |]; [| discriminate].
  inversion Hv. reflexivity.
Qed.

(** The summary that [_parse_article] returns is the decoding, by
    [summary_of], of the value under [AbstractText]. *)
Lemma parse_article_summary net u x st ar abstract v s c j t ama o :
  article_node x = Ok ar ->
  X.getitem ar "Abstract" = Ok abstract ->
  X.getitem abstract "AbstractText" = Ok v ->
  summary_of v = Ok s ->
  net (requests (trace st)) (citation_url (self st) u) = Ok c ->
  as_json c = Ok j ->
  parse_title ar = Ok t ->
  J.getitem j "ama" = Ok ama ->
  J.getitem ama "orig" = Ok o ->
  _parse_article net u x st
  = (Ok {| uid := u; pmc_id := parse_pmc_id x; Summary := s;
           Citation := o; title := t |},
     requested (citation_url (self st) u) st).
Proof.
  intros Har Ha Hv Hs. apply parse_article_success; [exact Har |].
  rewrite (parse_summary_abstract ar abstract v Ha Hv). exact Hs.
Qed.

(** A failure of the abstract decoding is the failure of [_parse_article],
    before the citation request. *)
Lemma parse_article_summary_error net u x st ar abstract v e :
  article_node x = Ok ar ->
  X.getitem ar "Abstract" = Ok abstract ->
  X.getitem abstract "AbstractText" = Ok v ->
  summary_of v = Raise e ->
  _parse_article net u x st = (Raise e, st).
Proof.
  intros Har Ha Hv Hs. unfold _parse_article. rewrite Har. cbn [rbind].
  rewrite (parse_summary_abstract ar abstract v Ha Hv), Hs. reflexivity.
Qed.

Lemma parse_article_node_error net u x st e :
  article_node x = Raise e -> _parse_article net u x st = (Raise e, st).
Proof. intros H. unfold _parse_article. rewrite H. reflexivity. Qed.

Lemma geometric_app d k1 k2 :
  geometric d (k1 + k2)
  = (geometric d k1 ++ geometric (d * 2 ^ Z.of_nat k1) k2)%list.
Proof.
  revert d. induction k1 as [| k1 IH]; intros d.
  - simpl. now rewrite Z.mul_1_r.
  - change (d :: geometric (d * 2) (k1 + k2)
            = d :: (geometric (d * 2) k1
                    ++ geometric (d * 2 ^ Z.of_nat (S k1)) k2)%list).
    rewrite IH. do 3 f_equal. rewrite Nat2Z.inj_succ, Z.pow_succ_r; lia.
Qed.

Lemma geometric_nondecreasing k : forall d,
  (k <> O -> 0 <= d) -> nondecreasing (geometric d k).
Proof.
  induction k as [| k IH]; intros d Hd; [exact I |].
  assert (0 <= d) by (apply Hd; discriminate).
  destruct k as [| k]; [exact I |].
  change (d <= d * 2 /\ nondecreasing (geometric (d * 2) (S k))).
  split; [lia |]. apply IH. intros _. lia.
Qed.

Lemma backoff_continues_refl st : backoff_continues st st 0.
Proof.
  unfold backoff_continues. simpl. rewrite app_nil_r.
  repeat split; [lia | congruence].
Qed.

Lemma backoff_continues_trans st1 st2 st3 k1 k2 :
  backoff_continues st1 st2 k1 -> backoff_continues st2 st3 k2 ->
  backoff_continues st1 st3 (k1 + k2).
Proof.
  intros (Hs1 & Ht1 & Hp1) (Hs2 & Ht2 & Hp2). unfold backoff_continues.
  rewrite Hs2, Hs1, Ht2, Ht1, geometric_app, <- app_assoc.
  repeat split.
  - rewrite Nat2Z.inj_add, Z.pow_add_r; lia.
  - intros Hk. destruct k1 as [| k1]; [| apply Hp1; discriminate].
    simpl in Hk. specialize (Hp2 Hk). rewrite Ht1 in Hp2. simpl in Hp2. lia.
Qed.

Lemma backoff_continues_then st1 st2 st3 k :
  backoff_continues st1 st2 k -> backoff_continues st2 st3 0 ->
  backoff_continues st1 st3 k.
Proof.
  intros H1 H2. rewrite <- (Nat.add_0_r k).
  eapply backoff_continues_trans; eassumption.
Qed.

Lemma backoff_continues_after st1 st2 st3 k :
  backoff_continues st1 st2 0 -> backoff_continues st2 st3 k ->
  backoff_continues st1 st3 k.
Proof.
  intros H1 H2. change k with (0 + k)%nat.
  eapply backoff_continues_trans; eassumption.
Qed.

Lemma backoff_continues_requested url st :
  backoff_continues st (requested url st) 0.
Proof.
  unfold backoff_continues. simpl. rewrite sleeps_app. simpl.
  repeat split; [lia | congruence].
Qed.

Lemma backoff_continues_backed_off url k st :
  (k <> O -> 0 <= sleep_time (self st)) ->
  backoff_continues st (backed_off url k st) k.
Proof.
  intros Hk. unfold backoff_continues.
  rewrite trace_backed_off, sleeps_app, sleeps_backoff_trace,
    sleep_time_backed_off.
  repeat split. exact Hk.
Qed.

Lemma retry_loop_backoff_continues net url st :
  exists k, backoff_continues st (snd (retry_loop net url 0 st)) k.
Proof.
  destruct (retry_loop_state net url _ 0 st eq_refl) as (k & Hk & Hp).
  exists k. rewrite Hk.
  eapply backoff_continues_then.
  - apply backoff_continues_backed_off. exact Hp.
  - apply backoff_continues_requested.
Qed.

Lemma parse_article_backoff_continues net u x st :
  backoff_continues st (snd (_parse_article net u x st)) 0.
Proof.
  destruct (parse_article_state net u x st) as [-> | ->].
  - apply backoff_continues_refl.
  - apply backoff_continues_requested.
Qed.

Lemma retrieve_article_backoff_continues net uid webenv st :
  exists k, backoff_continues st (snd (retrieve_article net uid webenv st)) k.
Proof.
  unfold retrieve_article.
  destruct uid as [| | | u | |]; try (exists O; apply backoff_continues_refl).
  destruct webenv as [| | | w | |]; try (exists O; apply backoff_continues_refl).
  destruct (retry_loop_backoff_continues net (efetch_url (self st) u w) st)
    as (k & Hk).
  destruct (retry_loop net (efetch_url (self st) u w) 0 st) as [r st1].
  simpl in Hk. exists k.
  destruct (result <- r ;; as_xml result) as [x | e]; simpl; [| exact Hk].
  eapply backoff_continues_then; [exact Hk |].
  apply parse_article_backoff_continues.
Qed.

Lemma lazy_load_loop_backoff_continues net webenv uids : forall st,
  exists k, backoff_continues st (snd (lazy_load_loop net uids webenv st)) k.
Proof.
  induction uids as [| uid rest IH]; intros st.
  - exists O. apply backoff_continues_refl.
  - simpl.
    destruct (retrieve_article_backoff_continues net uid webenv st) as (k1 & H1).
    destruct (retrieve_article net uid webenv st) as [r st1]. simpl in H1.
    destruct (IH st1) as (k2 & H2).
    destruct (lazy_load_loop net rest webenv st1) as [ys st2]. simpl in H2.
    exists (k1 + k2)%nat.
    destruct r; simpl; eapply backoff_continues_trans; eassumption.
Qed.

Lemma lazy_load_backoff_continues net query top_k st :
  exists k, backoff_continues st (snd (lazy_load net query top_k st)) k.
Proof.
  unfold lazy_load, urlopen.
  destruct (search_result top_k _) as [[webenv uids] | e]; simpl.
  - destruct (lazy_load_loop_backoff_continues net webenv uids
                (requested (search_url (self st) query) st)) as (k & Hk).
    destruct (lazy_load_loop net uids webenv _) as [ys st2]. simpl in *.
    exists k.
    eapply backoff_continues_after; [apply backoff_continues_requested |].
    exact Hk.
  - exists O. apply backoff_continues_requested.
Qed.

Lemma run_backoff_continues net query top_k st :
  exists k, backoff_continues st (snd (run net query top_k st)) k.
Proof.
  unfold run, load.
  destruct (lazy_load_backoff_continues net
              (submitted_term (self st) query) top_k st) as (k & Hk).
  destruct (lazy_load net _ top_k st) as [r st1]. exists k. exact Hk.
Qed.

(** ** Claims on the retry policy *)

Lemma retrieve_article_unfold net u w st :
  retrieve_article net (JStr u) (JStr w) st
  = let (result, st1) := retry_loop net (efetch_url (self st) u w) 0 st in
    match (result <- result ;; as_xml result) with
    | Raise e => (Raise e, st1)
    | Ok text_dict => _parse_article net u text_dict st1
    end.
Proof. reflexivity. Qed.

(** C1, as the code has it: when every attempt on the detail URL is
    answered by HTTP 429, [retrieve_article] makes [max_retry + 1] attempts
    (the first one and [max_retry] retries, six with the default of 5),
    sleeps before each retry with a doubling delay, and raises the 429
    error of the last attempt to its caller. *)
Theorem retrieve_article_retry_ceiling net u w st :
  0 <= sleep_time (self st) ->
  (forall k, (requests (trace st) <= k)%nat ->
     net k (efetch_url (self st) u w) = Raise (HTTPError 429)) ->
  exists st',
    retrieve_article net (JStr u) (JStr w) st = (Raise (HTTPError 429), st')
    /\ trace st'
       = (trace st
          ++ backoff_trace (efetch_url (self st) u w)
               (Z.to_nat (max_retry (self st))) (sleep_time (self st))
          ++ [Request (efetch_url (self st) u w)])%list
    /\ requests (trace st')
       = (requests (trace st) + (Z.to_nat (max_retry (self st)) + 1))%nat
    /\ sleeps (trace st')
       = (sleeps (trace st)
          ++ geometric (sleep_time (self st)) (Z.to_nat (max_retry (self st))))%list.
Proof.
  intros Hs Hnet.
  set (url := efetch_url (self st) u w) in *.
  set (n := Z.to_nat (max_retry (self st))).
  assert (Hloop : retry_loop net url 0 st
                  = (Raise (HTTPError 429), requested url (backed_off url n st))).
  { rewrite (retry_loop_backoff net url n 0 st Hs).
    - apply retry_loop_raises_at_ceiling.
      + apply Hnet. rewrite trace_backed_off, requests_app. lia.
      + destruct (config_backed_off url n st) as (-> & _). subst n. lia.
    - intros Hn. subst n. lia.
    - intros i _. apply Hnet. lia. }
  exists (requested url (backed_off url n st)).
  rewrite retrieve_article_unfold. fold url. rewrite Hloop. simpl rbind. cbv iota.
  split; [reflexivity |].
  simpl trace. rewrite trace_backed_off, <- app_assoc.
  split; [reflexivity |]. split.
  - rewrite !requests_app, requests_backoff_trace. reflexivity.
  - rewrite !sleeps_app, sleeps_backoff_trace. simpl. now rewrite app_nil_r.
Qed.

Lemma retrieve_article_retry_ceiling_witness :
  0 <= sleep_time (self fresh)
  /\ exists st',
       retrieve_article always_429 (JStr "111") (JStr "w") fresh
       = (Raise (HTTPError 429), st')
       /\ requests (trace st') = 6%nat
       /\ sleeps (trace st') = [30; 60; 120; 240; 480].
Proof.
  split; [discriminate |].
  destruct (retrieve_article_retry_ceiling always_429 "111" "w" fresh)
    as (st' & H1 & _ & H3 & H4).
  - discriminate.
  - reflexivity.
  - exists st'. split; [exact H1 |]. split; [exact H3 | exact H4].
Defined.

(** C1, as the claim words it, fails on the code: with every attempt
    rate-limited the default wrapper gives up after six attempts, not five. *)
Lemma retry_ceiling_six_attempts :
  (forall k, always_429 k
     (efetch_url (self fresh) "111" "w") = Raise (HTTPError 429))
  /\ fst (retrieve_article always_429 (JStr "111") (JStr "w") fresh)
     = Raise (HTTPError 429)
  /\ requests (trace (snd (retrieve_article always_429 (JStr "111") (JStr "w") fresh)))
     = 6%nat
  /\ requests (trace (snd (retrieve_article always_429 (JStr "111") (JStr "w") fresh)))
     <> 5%nat.
Proof.
  split; [reflexivity |]. split; [vm_compute; reflexivity |].
  split; [vm_compute; reflexivity |]. vm_compute. discriminate.
Qed.

(** C2, as the code has it: rate-limited on attempts 1, 2 and 3 and served
    on attempt 4, the fetch of [retrieve_article] makes exactly four
    requests to the detail URL and sleeps after each of the three failures,
    for the base delay, twice and four times it.  [retrieve_article] then
    parses the document and sends one more request, for the citation, when
    the article node and the abstract of the document are decoded, five
    requests in all; it sends no other request otherwise.  The delay left
    in the object is eight times the base. *)
Theorem retrieve_article_three_retries net u w p st :
  0 <= sleep_time (self st) ->
  3 <= max_retry (self st) ->
  net (requests (trace st)) (efetch_url (self st) u w) = Raise (HTTPError 429) ->
  net (requests (trace st) + 1)%nat (efetch_url (self st) u w)
    = Raise (HTTPError 429) ->
  net (requests (trace st) + 2)%nat (efetch_url (self st) u w)
    = Raise (HTTPError 429) ->
  net (requests (trace st) + 3)%nat (efetch_url (self st) u w) = Ok p ->
  exists st1 r st2,
    retry_loop net (efetch_url (self st) u w) 0 st = (Ok p, st1)
    /\ trace st1
       = (trace st
          ++ [Request (efetch_url (self st) u w); Sleep (sleep_time (self st));
              Request (efetch_url (self st) u w); Sleep (2 * sleep_time (self st));
              Request (efetch_url (self st) u w); Sleep (4 * sleep_time (self st));
              Request (efetch_url (self st) u w)])%list
    /\ retrieve_article net (JStr u) (JStr w) st = (r, st2)
    /\ trace st2
       = (trace st1
          ++ match (x <- as_xml p ;; ar <- article_node x ;; parse_summary ar) with
             | Ok _ => [Request (citation_url (self st) u)]
             | Raise _ => []
             end)%list
    /\ requests (trace st2)
       = (requests (trace st) + 4
          + match (x <- as_xml p ;; ar <- article_node x ;; parse_summary ar) with
            | Ok _ => 1
            | Raise _ => 0
            end)%nat
    /\ sleeps (trace st2)
       = (sleeps (trace st)
          ++ [sleep_time (self st); 2 * sleep_time (self st);
              4 * sleep_time (self st)])%list
    /\ sleep_time (self st2) = 8 * sleep_time (self st).
Proof.
  intros Hs Hm H0 H1 H2 H3.
  set (url := efetch_url (self st) u w) in *.
  assert (Hloop : retry_loop net url 0 st
                  = (Ok p, requested url (backed_off url 3 st))).
  { rewrite (retry_loop_backoff net url 3 0 st Hs).
    - apply retry_loop_success.
      rewrite trace_backed_off, requests_app, requests_backoff_trace. exact H3.
    - intros _. simpl. lia.
    - intros i Hi.
      destruct i as [| [| [| i]]]; [| assumption | assumption | lia].
      now rewrite Nat.add_0_r. }
  set (st1 := requested url (backed_off url 3 st)) in *.
  assert (Htrace : trace st1
                   = (trace st
                      ++ [Request url; Sleep (sleep_time (self st));
                          Request url; Sleep (2 * sleep_time (self st));
                          Request url; Sleep (4 * sleep_time (self st));
                          Request url])%list).
  { subst st1. simpl trace. rewrite <- !app_assoc. simpl.
    replace (sleep_time (self st) * 2) with (2 * sleep_time (self st)) by lia.
    replace (2 * sleep_time (self st) * 2) with (4 * sleep_time (self st)) by lia.
    reflexivity. }
  assert (Hself : sleep_time (self st1) = 8 * sleep_time (self st)
                  /\ citation_url (self st1) u = citation_url (self st) u).
  { subst st1.
    change (self (requested url (backed_off url 3 st)))
      with (self (backed_off url 3 st)).
    split.
    - rewrite sleep_time_backed_off. change (2 ^ Z.of_nat 3) with 8. lia.
    - unfold citation_url.
      destruct (config_backed_off url 3 st) as (_ & _ & -> & _). reflexivity. }
  destruct Hself as [Hdelay Hcit].
  exists st1, (fst (retrieve_article net (JStr u) (JStr w) st)),
         (snd (retrieve_article net (JStr u) (JStr w) st)).
  split; [exact Hloop |]. split; [exact Htrace |].
  split; [now destruct (retrieve_article net (JStr u) (JStr w) st) |].
  assert (Hst2 :
    snd (retrieve_article net (JStr u) (JStr w) st)
    = match (x <- as_xml p ;; ar <- article_node x ;; parse_summary ar) with
      | Ok _ => requested (citation_url (self st) u) st1
      | Raise _ => st1
      end).
  { rewrite retrieve_article_unfold. fold url. rewrite Hloop. cbn [rbind].
    destruct (as_xml p) as [x | e]; [| reflexivity].
    rewrite parse_article_state_exact, Hcit. reflexivity. }
  rewrite Hst2.
  destruct (x <- as_xml p ;; ar <- article_node x ;; parse_summary ar)
    as [s | e].
  - cbn [trace requested self].
    split; [reflexivity |].
    rewrite requests_app, sleeps_app, Htrace, requests_app, sleeps_app.
    unfold requests at 2 3. simpl.
    split; [lia |]. split; [now rewrite app_nil_r | exact Hdelay].
  - rewrite app_nil_r.
    split; [reflexivity |].
    rewrite Htrace, requests_app, sleeps_app.
    unfold requests at 2. simpl.
    split; [lia |]. split; [reflexivity | exact Hdelay].
Qed.

Lemma retrieve_article_three_retries_witness :
  exists st2,
    retrieve_article scenario_after_429 (JStr "111") (JStr "MCID_1") fresh
    = (Ok Scenario.details_111, st2)
    /\ requests (trace st2) = 5%nat
    /\ sleeps (trace st2) = [30; 60; 120]
    /\ sleep_time (self st2) = 240.
Proof.
  destruct (retrieve_article_three_retries scenario_after_429 "111" "MCID_1"
              (xml_payload Scenario.xml_111) fresh)
    as (st1 & r & st2 & _ & _ & Hr & _ & Hn & Hs & Hd);
    try reflexivity; try discriminate.
  exists st2.
  assert (E : r = Ok Scenario.details_111).
  { apply (f_equal fst) in Hr. simpl in Hr. rewrite <- Hr.
    vm_compute. reflexivity. }
  subst r. split; [exact Hr |]. split; [exact Hn |]. split; [exact Hs | exact Hd].
Defined.

(** C2, as the claim words it, fails on the code: after three rate-limited
    attempts and a well-formed article on the fourth, [retrieve_article]
    has sent five requests, the fifth being the citation request of
    [_parse_article]. *)
Lemma three_retries_five_requests :
  scenario_after_429 0%nat (efetch_url default_wrapper "111" "MCID_1")
  = Raise (HTTPError 429)
  /\ scenario_after_429 1%nat (efetch_url default_wrapper "111" "MCID_1")
     = Raise (HTTPError 429)
  /\ scenario_after_429 2%nat (efetch_url default_wrapper "111" "MCID_1")
     = Raise (HTTPError 429)
  /\ scenario_after_429 3%nat (efetch_url default_wrapper "111" "MCID_1")
     = Ok (xml_payload Scenario.xml_111)
  /\ fst (retrieve_article scenario_after_429 (JStr "111") (JStr "MCID_1") fresh)
     = Ok Scenario.details_111
  /\ trace (snd (retrieve_article scenario_after_429
                   (JStr "111") (JStr "MCID_1") fresh))
     = [Request (efetch_url default_wrapper "111" "MCID_1"); Sleep 30;
        Request (efetch_url default_wrapper "111" "MCID_1"); Sleep 60;
        Request (efetch_url default_wrapper "111" "MCID_1"); Sleep 120;
        Request (efetch_url default_wrapper "111" "MCID_1");
        Request (citation_url default_wrapper "111")]
  /\ requests (trace (snd (retrieve_article scenario_after_429
                             (JStr "111") (JStr "MCID_1") fresh)))
     <> 4%nat.
Proof.
  split; [reflexivity |]. split; [reflexivity |]. split; [reflexivity |].
  split; [reflexivity |]. split; [vm_compute; reflexivity |].
  split; [vm_compute; reflexivity |]. vm_compute. discriminate.
Qed.

(** C8: a transport error other than HTTP 429 is raised by
    [retrieve_article] at the attempt that meets it, with no sleep and no
    request after it; [k] is the number of rate-limited attempts before,
    0 for an error on the first attempt. *)
Theorem retrieve_article_fatal_error net u w e k st :
  0 <= sleep_time (self st) ->
  (k <> O -> Z.of_nat k <= max_retry (self st)) ->
  (forall i, (i < k)%nat ->
     net (requests (trace st) + i)%nat (efetch_url (self st) u w)
     = Raise (HTTPError 429)) ->
  net (requests (trace st) + k)%nat (efetch_url (self st) u w) = Raise e ->
  e <> HTTPError 429 ->
  retrieve_article net (JStr u) (JStr w) st
  = (Raise e,
     requested (efetch_url (self st) u w)
       (backed_off (efetch_url (self st) u w) k st)).
Proof.
  intros Hs Hk Hnet He Hne.
  rewrite retrieve_article_unfold.
  rewrite (retry_loop_backoff net _ k 0 st Hs Hk Hnet).
  rewrite (retry_loop_fatal net _ _ _ e); [reflexivity | | exact Hne].
  rewrite trace_backed_off, requests_app, requests_backoff_trace. exact He.
Qed.

Lemma retrieve_article_fatal_error_witness :
  retrieve_article (always_fails (HTTPError 500)) (JStr "111") (JStr "w") fresh
  = (Raise (HTTPError 500),
     {| self := default_wrapper;
        trace := [Request (efetch_url default_wrapper "111" "w")] |}).
Proof.
  apply (retrieve_article_fatal_error
           (always_fails (HTTPError 500)) "111" "w" (HTTPError 500) 0 fresh).
  - discriminate.
  - intros H. now elim H.
  - intros i Hi. inversion Hi.
  - reflexivity.
  - discriminate.
Defined.

(** A call of [retrieve_article] whose first attempt is rate-limited, with
    a retry budget and a delay that is not negative, sleeps at least once,
    the first time for the stored delay, and leaves the stored delay
    doubled as many times as it slept. *)
Lemma retrieve_article_rate_limited net u w st :
  0 <= sleep_time (self st) ->
  0 < max_retry (self st) ->
  net (requests (trace st)) (efetch_url (self st) u w) = Raise (HTTPError 429) ->
  exists k,
    backoff_continues st (snd (retrieve_article net (JStr u) (JStr w) st)) (S k)
    /\ max_retry (self (snd (retrieve_article net (JStr u) (JStr w) st)))
       = max_retry (self st).
Proof.
  intros Hs Hm Hnet.
  set (url := efetch_url (self st) u w) in *.
  destruct (retry_loop_state net url _ 1 (slept (requested url st)) eq_refl)
    as (k & Hk & _).
  assert (Hloop : snd (retry_loop net url 0 st)
                  = requested url (backed_off url (S k) st)).
  { rewrite retry_loop_eq, Hnet.
    replace (0 <? max_retry (self st)) with true
      by (symmetry; apply Z.ltb_lt; exact Hm).
    replace (sleep_time (self st) <? 0) with false
      by (symmetry; apply Z.ltb_ge; exact Hs).
    exact Hk. }
  assert (Hcont : backoff_continues st
                    (requested url (backed_off url (S k) st)) (S k)).
  { eapply backoff_continues_then.
    - apply backoff_continues_backed_off. intros _. exact Hs.
    - apply backoff_continues_requested. }
  assert (Hmax : max_retry (self (requested url (backed_off url (S k) st)))
                 = max_retry (self st)).
  { change (self (requested url (backed_off url (S k) st)))
      with (self (backed_off url (S k) st)).
    apply config_backed_off. }
  exists k. rewrite retrieve_article_unfold. fold url.
  destruct (retry_loop net url 0 st) as [r st1]. simpl in Hloop. subst st1.
  change (backed_off url k (slept (requested url st)))
    with (backed_off url (S k) st).
  destruct (result <- r ;; as_xml result) as [x | e]; cbv beta iota;
    [| split; assumption].
  destruct (parse_article_state net u x
              (requested url (backed_off url (S k) st))) as [-> | ->].
  - split; assumption.
  - split; [| exact Hmax].
    eapply backoff_continues_then; [exact Hcont |].
    apply backoff_continues_requested.
Qed.

(** C9: the delay doubled by a retry stays in the object.  Over two calls
    of [retrieve_article] on the same object, and over a whole [run], the
    sleeps continue one doubling sequence that starts at the stored delay:
    the second call starts from the delay the first one left, the field is
    the initial delay times two to the number of sleeps, and the delays
    never decrease.  When the first attempt of each of two calls is
    rate-limited, the first call sleeps first for the stored delay [b] and
    doubles the field at each sleep, and the second call sleeps first for
    the delay [b 2^k] that the first one left after its [k >= 1] sleeps,
    not for [b]. *)
Theorem backoff_delay_persists net uid1 uid2 webenv query top_k st :
  (exists k1 k2,
     let st1 := snd (retrieve_article net uid1 webenv st) in
     let st2 := snd (retrieve_article net uid2 webenv st1) in
     backoff_continues st st1 k1
     /\ backoff_continues st1 st2 k2
     /\ sleeps (trace st2)
        = (sleeps (trace st) ++ geometric (sleep_time (self st)) k1
           ++ geometric (sleep_time (self st) * 2 ^ Z.of_nat k1) k2)%list
     /\ sleep_time (self st2) = sleep_time (self st) * 2 ^ Z.of_nat (k1 + k2)
     /\ nondecreasing (geometric (sleep_time (self st)) (k1 + k2)))
  /\ (exists k,
        backoff_continues st (snd (run net query top_k st)) k
        /\ nondecreasing (geometric (sleep_time (self st)) k))
  /\ (forall u1 u2 w,
        0 <= sleep_time (self st) ->
        0 < max_retry (self st) ->
        net (requests (trace st)) (efetch_url (self st) u1 w)
        = Raise (HTTPError 429) ->
        net (requests (trace (snd (retrieve_article net (JStr u1) (JStr w) st))))
          (efetch_url (self (snd (retrieve_article net (JStr u1) (JStr w) st)))
             u2 w)
        = Raise (HTTPError 429) ->
        exists k1 k2,
          let st1 := snd (retrieve_article net (JStr u1) (JStr w) st) in
          let st2 := snd (retrieve_article net (JStr u2) (JStr w) st1) in
          sleeps (trace st1)
          = (sleeps (trace st)
             ++ sleep_time (self st)
                :: geometric (sleep_time (self st) * 2) k1)%list
          /\ sleep_time (self st1)
             = sleep_time (self st) * 2 ^ Z.of_nat (S k1)
          /\ sleeps (trace st2)
             = (sleeps (trace st1)
                ++ sleep_time (self st) * 2 ^ Z.of_nat (S k1)
                   :: geometric (sleep_time (self st) * 2 ^ Z.of_nat (S k1) * 2)
                        k2)%list
          /\ sleep_time (self st2)
             = sleep_time (self st) * 2 ^ Z.of_nat (S k1 + S k2)).
Proof.
  split; [| split].
  - destruct (retrieve_article_backoff_continues net uid1 webenv st) as (k1 & H1).
    destruct (retrieve_article_backoff_continues net uid2 webenv
                (snd (retrieve_article net uid1 webenv st))) as (k2 & H2).
    exists k1, k2. cbv zeta.
    pose proof (backoff_continues_trans _ _ _ _ _ H1 H2) as (H3 & H4 & H5).
    repeat split; try apply H1; try apply H2.
    + rewrite H3, geometric_app. reflexivity.
    + exact H4.
    + apply geometric_nondecreasing. exact H5.
  - destruct (run_backoff_continues net query top_k st) as (k & Hk).
    exists k. split; [exact Hk |].
    apply geometric_nondecreasing. apply Hk.
  - intros u1 u2 w Hs Hm Hnet1 Hnet2.
    destruct (retrieve_article_rate_limited net u1 w st Hs Hm Hnet1)
      as (k1 & (Hs1 & Ht1 & _) & Hm1).
    set (st1 := snd (retrieve_article net (JStr u1) (JStr w) st)) in *.
    assert (Hs1' : 0 <= sleep_time (self st1)).
    { rewrite Ht1. apply Z.mul_nonneg_nonneg; [exact Hs |].
      apply Z.pow_nonneg. lia. }
    assert (Hm1' : 0 < max_retry (self st1)) by (rewrite Hm1; exact Hm).
    destruct (retrieve_article_rate_limited net u2 w st1 Hs1' Hm1' Hnet2)
      as (k2 & (Hs2 & Ht2 & _) & _).
    exists k1, k2. cbv zeta. fold st1.
    split; [exact Hs1 |]. split; [exact Ht1 |].
    split; [rewrite Hs2, Ht1; reflexivity |].
    rewrite Ht2, Ht1, <- Z.mul_assoc, <- Z.pow_add_r by lia.
    f_equal. f_equal. lia.
Qed.

Lemma backoff_delay_persists_witness :
  exists k1 k2,
    let st1 := snd (retrieve_article limited_every_other
                      (JStr "111") (JStr "w") fresh) in
    let st2 := snd (retrieve_article limited_every_other
                      (JStr "222") (JStr "w") st1) in
    sleeps (trace st1) = 30 :: geometric 60 k1
    /\ sleep_time (self st1) = 30 * 2 ^ Z.of_nat (S k1)
    /\ sleeps (trace st2)
       = (sleeps (trace st1)
          ++ 30 * 2 ^ Z.of_nat (S k1)
             :: geometric (30 * 2 ^ Z.of_nat (S k1) * 2) k2)%list
    /\ sleep_time (self st2) = 30 * 2 ^ Z.of_nat (S k1 + S k2).
Proof.
  apply (proj2 (proj2 (backoff_delay_persists limited_every_other
                         (JStr "111") (JStr "222") (JStr "w") "q" 1 fresh))
           "111" "222" "w").
  - discriminate.
  - reflexivity.
  - reflexivity.
  - vm_compute. reflexivity.
Defined.

(** Two identifiers, each rate-limited once: the second one waits for
    the delay that the first one doubled. *)
Example second_identifier_starts_doubled :
  let st1 := snd (retrieve_article limited_every_other
                    (JStr "111") (JStr "w") fresh) in
  let st2 := snd (retrieve_article limited_every_other
                    (JStr "222") (JStr "w") st1) in
  sleeps (trace st1) = [30] /\ sleep_time (self st1) = 60
  /\ sleeps (trace st2) = [30; 60] /\ sleep_time (self st2) = 120.
Proof. vm_compute. repeat split. Qed.

(** ** The query handed to the search *)

Lemma sub_ws_from_true_lstrip s :
  Py.sub_ws_from true s = Py.sub_ws_from false (Py.lstrip s).
Proof.
  induction s as [| c r IH]; simpl; [reflexivity |].
  destruct (Py.isspace c) eqn:Hc; [exact IH |].
  simpl. now rewrite Hc.
Qed.

Lemma re_sub_ws_collapse_runs s : Py.re_sub_ws s = collapse_runs s.
Proof.
  unfold Py.re_sub_ws.
  funelim (collapse_runs s); simp collapse_runs; simpl.
  - reflexivity.
  - rewrite Heq. simpl. rewrite sub_ws_from_true_lstrip. now f_equal.
  - rewrite Heq. simpl. now f_equal.
Qed.

Lemma sub_ws_from_no_space b s : no_space (Py.sub_ws_from b s) = true.
Proof.
  revert b. induction s as [| c r IH]; intros b; simpl; [reflexivity |].
  destruct (Py.isspace c) eqn:Hc.
  - destruct b; simpl; apply IH.
  - simpl. rewrite Hc. simpl. apply IH.
Qed.

Lemma length_take n : forall s,
  String.length (Py.take n s) = Nat.min n (String.length s).
Proof.
  induction n as [| n IH]; intros [| c r]; simpl; try reflexivity.
  now rewrite IH.
Qed.

Lemma take_all n : forall s, (String.length s <= n)%nat -> Py.take n s = s.
Proof.
  induction n as [| n IH]; intros [| c r] H; simpl in *;
    try reflexivity; try lia.
  rewrite IH; [reflexivity | lia].
Qed.

Lemma trace_grows_refl st : exists ext, trace st = (trace st ++ ext)%list.
Proof. exists []. now rewrite app_nil_r. Qed.

Lemma trace_grows_trans st1 st2 st3 :
  (exists ext, trace st2 = (trace st1 ++ ext)%list) ->
  (exists ext, trace st3 = (trace st2 ++ ext)%list) ->
  exists ext, trace st3 = (trace st1 ++ ext)%list.
Proof.
  intros (e1 & H1) (e2 & H2). exists (e1 ++ e2)%list.
  now rewrite H2, H1, app_assoc.
Qed.

Lemma retrieve_article_trace_grows net uid webenv st :
  exists ext,
    trace (snd (retrieve_article net uid webenv st)) = (trace st ++ ext)%list.
Proof.
  unfold retrieve_article.
  destruct uid as [| | | u | |]; try apply trace_grows_refl.
  destruct webenv as [| | | w | |]; try apply trace_grows_refl.
  destruct (retry_loop_state net (efetch_url (self st) u w) _ 0 st eq_refl)
    as (k & Hk & _).
  destruct (retry_loop net (efetch_url (self st) u w) 0 st) as [r st1].
  simpl in Hk. subst st1.
  assert (H1 : exists ext,
             trace (requested (efetch_url (self st) u w)
                      (backed_off (efetch_url (self st) u w) k st))
             = (trace st ++ ext)%list).
  { simpl. rewrite trace_backed_off, <- app_assoc. eexists. reflexivity. }
  destruct (result <- r ;; as_xml result) as [x | e]; simpl; [| exact H1].
  eapply trace_grows_trans; [exact H1 |].
  destruct (parse_article_state net u x
              (requested (efetch_url (self st) u w)
                 (backed_off (efetch_url (self st) u w) k st))) as [-> | ->].
  - apply trace_grows_refl.
  - simpl. eexists. reflexivity.
Qed.

Lemma lazy_load_loop_trace_grows net webenv uids : forall st,
  exists ext,
    trace (snd (lazy_load_loop net uids webenv st)) = (trace st ++ ext)%list.
Proof.
  induction uids as [| uid rest IH]; intros st.
  - apply trace_grows_refl.
  - simpl.
    pose proof (retrieve_article_trace_grows net uid webenv st) as H1.
    destruct (retrieve_article net uid webenv st) as [r st1]. simpl in H1.
    pose proof (IH st1) as H2.
    destruct (lazy_load_loop net rest webenv st1) as [ys st2]. simpl in H2.
    destruct r; simpl; eapply trace_grows_trans; eassumption.
Qed.

(** The first thing [run] does on the network is the search for the
    submitted term. *)
Lemma run_first_request net query top_k st :
  exists rest,
    trace (snd (run net query top_k st))
    = (trace st
       ++ Request (search_url (self st) (submitted_term (self st) query))
          :: rest)%list.
Proof.
  unfold run, load, lazy_load, urlopen.
  set (url := search_url (self st) (submitted_term (self st) query)).
  destruct (search_result top_k _) as [[webenv uids] | e]; simpl.
  - destruct (lazy_load_loop_trace_grows net webenv uids (requested url st))
      as (ext & Hext).
    destruct (lazy_load_loop net uids webenv (requested url st)) as [ys st2].
    simpl in *. exists ext. rewrite Hext, <- app_assoc. reflexivity.
  - exists []. reflexivity.
Qed.

(** C7, as the code has it: [run] replaces every whitespace run of the
    query by one [+] and submits the first [MAX_QUERY_LENGTH] characters of
    the result; the submitted term has exactly that length when the
    collapsed query is longer, and is the whole collapsed query otherwise.
    The search request for that term is the first request of the run. *)
Theorem submitted_term_truncated w query :
  0 <= MAX_QUERY_LENGTH w ->
  Py.re_sub_ws query = collapse_runs query
  /\ no_space (Py.re_sub_ws query) = true
  /\ submitted_term w query
     = Py.take (Z.to_nat (MAX_QUERY_LENGTH w)) (Py.re_sub_ws query)
  /\ Z.of_nat (String.length (submitted_term w query))
     = Z.min (MAX_QUERY_LENGTH w)
         (Z.of_nat (String.length (Py.re_sub_ws query)))
  /\ (MAX_QUERY_LENGTH w < Z.of_nat (String.length (Py.re_sub_ws query)) ->
      Z.of_nat (String.length (submitted_term w query)) = MAX_QUERY_LENGTH w)
  /\ (Z.of_nat (String.length (Py.re_sub_ws query)) <= MAX_QUERY_LENGTH w ->
      submitted_term w query = Py.re_sub_ws query)
  /\ forall net top_k st, self st = w ->
       exists rest,
         trace (snd (run net query top_k st))
         = (trace st
            ++ Request (search_url w (submitted_term w query)) :: rest)%list.
Proof.
  intros HM.
  assert (Hterm : submitted_term w query
                  = Py.take (Z.to_nat (MAX_QUERY_LENGTH w)) (Py.re_sub_ws query)).
  { unfold submitted_term, Py.slice_to.
    replace (MAX_QUERY_LENGTH w <? 0) with false
      by (symmetry; apply Z.ltb_ge; exact HM).
    reflexivity. }
  split; [apply re_sub_ws_collapse_runs |].
  split; [apply sub_ws_from_no_space |].
  split; [exact Hterm |].
  assert (Hlen : Z.of_nat (String.length (submitted_term w query))
                 = Z.min (MAX_QUERY_LENGTH w)
                     (Z.of_nat (String.length (Py.re_sub_ws query)))).
  { rewrite Hterm, length_take. lia. }
  split; [exact Hlen |].
  split; [intros H; rewrite Hlen; lia |].
  split.
  - intros H. rewrite Hterm. apply take_all. lia.
  - intros net top_k st <-. apply run_first_request.
Qed.

Lemma submitted_term_truncated_witness :
  0 <= MAX_QUERY_LENGTH default_wrapper
  /\ submitted_term default_wrapper "fever   AND influenza"
     = "fever+AND+influenza"
  /\ Z.of_nat (String.length
       (submitted_term default_wrapper (blanks 1 ++ "abcdefgh" ++ blanks 200)))
     = 10.
Proof.
  split; [discriminate |]. split.
  - destruct (submitted_term_truncated default_wrapper "fever   AND influenza")
      as (_ & _ & H & _); [discriminate |].
    rewrite H. reflexivity.
  - destruct (submitted_term_truncated default_wrapper
                (blanks 1 ++ "abcdefgh" ++ blanks 200))
      as (_ & _ & _ & H & _); [discriminate |].
    rewrite H. reflexivity.
Defined.

(** C7, as the claim words it, fails on the code: a query of 129 spaces is
    longer than [MAX_QUERY_LENGTH], yet the submitted term is the single
    character [+]. *)
Lemma long_query_short_term :
  String.length (blanks 129) = 129%nat
  /\ MAX_QUERY_LENGTH default_wrapper = 128
  /\ submitted_term default_wrapper (blanks 129) = "+"
  /\ Z.of_nat (String.length (submitted_term default_wrapper (blanks 129)))
     <> MAX_QUERY_LENGTH default_wrapper.
Proof.
  split; [reflexivity |]. split; [reflexivity |].
  split; [reflexivity |]. vm_compute. discriminate.
Qed.

(** ** The abstract *)

Lemma string_app_nil_r (s : string) : s ++ "" = s.
Proof. induction s as [| c s IH]; simpl; [reflexivity | now rewrite IH]. Qed.

Lemma string_app_assoc (s1 s2 s3 : string) :
  (s1 ++ s2) ++ s3 = s1 ++ (s2 ++ s3).
Proof. induction s1 as [| c s1 IH]; simpl; [reflexivity | now rewrite IH]. Qed.

Lemma block_lines_node a t c :
  block_lines (XDict a t c)
  = Ok (match t with Some s => [label_prefix a ++ s] | None => [] end).
Proof.
  unfold block_lines, label_prefix. simpl.
  destruct (assoc "NlmCategory" a) as [cat |];
    destruct (assoc "Label" a) as [lab |];
    destruct t as [s |]; cbn; rewrite ?string_app_nil_r; reflexivity.
Qed.

Lemma rmap_block_lines (bs : list Node) :
  rmap block_lines (map node_val bs)
  = Ok (map (fun b : Node =>
               if has_text b then [block_line b] else []) bs).
Proof.
  induction bs as [| [[a t] c] bs IH]; [reflexivity |].
  simpl map. simpl rmap. rewrite block_lines_node, IH.
  destruct t; reflexivity.
Qed.

Lemma concat_block_lines (bs : list Node) :
  List.concat (map (fun b : Node =>
                      if has_text b then [block_line b] else []) bs)
  = map block_line (filter has_text bs).
Proof.
  induction bs as [| b bs IH]; [reflexivity |].
  simpl. destruct (has_text b); simpl; now rewrite IH.
Qed.

Lemma summary_of_blocks (bs : list Node) :
  summary_of (XList (map node_val bs))
  = Ok (Py.join newline (map block_line (filter has_text bs))).
Proof.
  unfold summary_of. simpl X.iter. unfold rbind at 1.
  rewrite rmap_block_lines. simpl rbind. now rewrite concat_block_lines.
Qed.

Lemma filter_all {A} (f : A -> bool) (l : list A) :
  forallb f l = true -> filter f l = l.
Proof.
  induction l as [| x l IH]; simpl; [reflexivity |].
  intros H. apply andb_true_iff in H as [Hx Hl]. rewrite Hx.
  now rewrite IH.
Qed.

(** The three shapes of the abstract, for [summary_of]. *)
Lemma summary_of_shapes :
  (forall s, summary_of (XStr s) = Ok s)
  /\ (forall a t c,
        summary_of (XDict a t c)
        = Ok (match t with Some s => s | None => "" end))
  /\ (forall bs : list (list (string * string) * string * list (string * XVal)),
        summary_of
          (XList (map (fun b => let '(a, s, c) := b in XDict a (Some s) c) bs))
        = Ok (Py.join newline
                (map (fun b => let '(a, s, _) := b in label_prefix a ++ s) bs)))
  /\ (forall text1 text2,
        summary_of
          (XList [XDict [("NlmCategory", "BACKGROUND")] (Some text1) [];
                  XDict [("Label", "Methods")] (Some text2) []])
        = Ok ("BACKGROUND: " ++ text1 ++ newline ++ "Methods: " ++ text2)).
Proof.
  split; [reflexivity |]. split.
  { intros a t c. unfold summary_of. simpl. destruct t; reflexivity. }
  split.
  - intros bs.
    set (f := fun b : list (string * string) * string * list (string * XVal) =>
                let '(a, s, c) := b in ((a, Some s, c) : Node)).
    assert (H1 : map (fun b => let '(a, s, c) := b in XDict a (Some s) c) bs
                 = map node_val (map f bs)).
    { rewrite map_map. apply map_ext. intros [[a s] c]. reflexivity. }
    assert (H2 : filter has_text (map f bs) = map f bs).
    { apply filter_all. clear H1.
      induction bs as [| [[a s] c] bs IH]; [reflexivity | exact IH]. }
    rewrite H1, summary_of_blocks, H2, map_map. do 2 f_equal.
    apply map_ext. intros [[a s] c]. reflexivity.
  - intros text1 text2.
    change (summary_of
              (XList (map node_val
                 [([("NlmCategory", "BACKGROUND")], Some text1, []);
                  ([("Label", "Methods")], Some text2, [])]))
            = Ok ("BACKGROUND: " ++ text1 ++ newline ++ "Methods: " ++ text2)).
    rewrite summary_of_blocks. reflexivity.
Qed.

(** C6: the three shapes of the abstract.  A string is the summary; a
    single block gives its text, the empty string when it has none; a
    sequence of blocks that all have a text gives their lines, each the
    category and section prefix followed by the text, joined by newlines.
    The two-block scenario of the specification follows.  This decoding,
    applied to the value under [AbstractText], is the summary of
    [parse_summary] and the [Summary] that [_parse_article] returns. *)
Theorem summary_of_three_shapes :
  ((forall s, summary_of (XStr s) = Ok s)
  /\ (forall a t c,
        summary_of (XDict a t c)
        = Ok (match t with Some s => s | None => "" end))
  /\ (forall bs : list (list (string * string) * string * list (string * XVal)),
        summary_of
          (XList (map (fun b => let '(a, s, c) := b in XDict a (Some s) c) bs))
        = Ok (Py.join newline
                (map (fun b => let '(a, s, _) := b in label_prefix a ++ s) bs)))
  /\ (forall text1 text2,
        summary_of
          (XList [XDict [("NlmCategory", "BACKGROUND")] (Some text1) [];
                  XDict [("Label", "Methods")] (Some text2) []])
        = Ok ("BACKGROUND: " ++ text1 ++ newline ++ "Methods: " ++ text2)))
  /\ (forall ar abstract v,
        X.getitem ar "Abstract" = Ok abstract ->
        X.getitem abstract "AbstractText" = Ok v ->
        parse_summary ar = summary_of v)
  /\ (forall net u x st ar abstract v s c j t ama o,
        article_node x = Ok ar ->
        X.getitem ar "Abstract" = Ok abstract ->
        X.getitem abstract "AbstractText" = Ok v ->
        summary_of v = Ok s ->
        net (requests (trace st)) (citation_url (self st) u) = Ok c ->
        as_json c = Ok j ->
        parse_title ar = Ok t ->
        J.getitem j "ama" = Ok ama ->
        J.getitem ama "orig" = Ok o ->
        _parse_article net u x st
        = (Ok {| uid := u; pmc_id := parse_pmc_id x; Summary := s;
                 Citation := o; title := t |},
           requested (citation_url (self st) u) st)).
Proof.
  split; [exact summary_of_shapes |].
  split; [exact parse_summary_abstract |].
  intros net u x st ar abstract v s c j t ama o.
  apply parse_article_summary.
Qed.

Lemma summary_of_three_shapes_witness :
  _parse_article Scenario.net "333" Scenario.xml_333 fresh
  = (Ok {| uid := "333"; pmc_id := None;
           Summary := "BACKGROUND: Influenza is seasonal." ++ newline
                      ++ "Methods: We reviewed cases.";
           Citation := JStr "Roe R. Influenza. 2019.";
           title := "Influenza" |},
     requested (citation_url default_wrapper "333") fresh).
Proof.
  destruct summary_of_three_shapes as ((_ & _ & _ & Hscenario) & _ & Hparse).
  eapply (Hparse Scenario.net "333" Scenario.xml_333 fresh).
  - reflexivity.
  - reflexivity.
  - reflexivity.
  - exact (Hscenario "Influenza is seasonal." "We reviewed cases.").
  - reflexivity.
  - reflexivity.
  - reflexivity.
  - reflexivity.
  - reflexivity.
Defined.

(** Blocks without a text, for [summary_of]. *)
Lemma summary_of_textless :
  (forall bs : list Node,
     summary_of (XList (map node_val bs))
     = Ok (Py.join newline (map block_line (filter has_text bs))))
  /\ (forall bs : list (list (string * string) * list (string * XVal)),
        summary_of (XList (map (fun b => XDict (fst b) None (snd b)) bs))
        = Ok "")
  /\ (forall text,
        summary_of
          (XList [XDict [("NlmCategory", "BACKGROUND")] None [];
                  XDict [("Label", "Methods")] (Some text) []])
        = Ok ("Methods: " ++ text)).
Proof.
  split; [exact summary_of_blocks |]. split.
  - intros bs.
    set (f := fun b : list (string * string) * list (string * XVal) =>
                ((fst b, None, snd b) : Node)).
    assert (H1 : map (fun b => XDict (fst b) None (snd b)) bs
                 = map node_val (map f bs)).
    { rewrite map_map. apply map_ext. intros [a c]. reflexivity. }
    assert (H2 : filter has_text (map f bs) = []).
    { clear H1. induction bs as [| b bs IH]; [reflexivity | exact IH]. }
    rewrite H1, summary_of_blocks, H2. reflexivity.
  - intros text.
    change (summary_of
              (XList (map node_val
                 [([("NlmCategory", "BACKGROUND")], None, []);
                  ([("Label", "Methods")], Some text, [])]))
            = Ok ("Methods: " ++ text)).
    rewrite summary_of_blocks. reflexivity.
Qed.

(** C10: in a sequence of blocks, a block without a text adds no line, not
    even its prefix: the summary is the newline-join of the lines of the
    blocks that have a text, and it is empty when no block has one.  This
    is the [Summary] that [_parse_article] returns for a document whose
    [AbstractText] is such a sequence. *)
Theorem textless_blocks_add_nothing :
  ((forall bs : list Node,
     summary_of (XList (map node_val bs))
     = Ok (Py.join newline (map block_line (filter has_text bs))))
  /\ (forall bs : list (list (string * string) * list (string * XVal)),
        summary_of (XList (map (fun b => XDict (fst b) None (snd b)) bs))
        = Ok "")
  /\ (forall text,
        summary_of
          (XList [XDict [("NlmCategory", "BACKGROUND")] None [];
                  XDict [("Label", "Methods")] (Some text) []])
        = Ok ("Methods: " ++ text)))
  /\ (forall net u x st ar abstract (bs : list Node) c j t ama o,
        article_node x = Ok ar ->
        X.getitem ar "Abstract" = Ok abstract ->
        X.getitem abstract "AbstractText" = Ok (XList (map node_val bs)) ->
        net (requests (trace st)) (citation_url (self st) u) = Ok c ->
        as_json c = Ok j ->
        parse_title ar = Ok t ->
        J.getitem j "ama" = Ok ama ->
        J.getitem ama "orig" = Ok o ->
        _parse_article net u x st
        = (Ok {| uid := u; pmc_id := parse_pmc_id x;
                 Summary := Py.join newline
                              (map block_line (filter has_text bs));
                 Citation := o; title := t |},
           requested (citation_url (self st) u) st)).
Proof.
  split; [exact summary_of_textless |].
  intros net u x st ar abstract bs c j t ama o Har Ha Hv.
  apply (parse_article_summary net u x st ar abstract _ _ c j t ama o Har Ha Hv).
  apply summary_of_blocks.
Qed.

Lemma textless_blocks_add_nothing_witness :
  _parse_article Scenario.net "333" xml_textless_block fresh
  = (Ok {| uid := "333"; pmc_id := None;
           Summary := "Methods: We reviewed cases.";
           Citation := JStr "Roe R. Influenza. 2019.";
           title := "Influenza" |},
     requested (citation_url default_wrapper "333") fresh).
Proof.
  apply (proj2 textless_blocks_add_nothing Scenario.net "333"
           xml_textless_block fresh
           (Scenario.elem
              [("ArticleTitle", XStr "Influenza");
               ("Abstract",
                Scenario.elem [("AbstractText",
                  XList [XDict [("NlmCategory", "BACKGROUND")] None [];
                         XDict [("Label", "Methods")]
                           (Some "We reviewed cases.") []])])])
           (Scenario.elem [("AbstractText",
              XList [XDict [("NlmCategory", "BACKGROUND")] None [];
                     XDict [("Label", "Methods")]
                       (Some "We reviewed cases.") []])])
           [([("NlmCategory", "BACKGROUND")], None, []);
            ([("Label", "Methods")], Some "We reviewed cases.", [])]
           (json_payload (Scenario.citation "Roe R. Influenza. 2019."))
           (Scenario.citation "Roe R. Influenza. 2019.")
           "Influenza"
           (JDict [("orig", JStr "Roe R. Influenza. 2019.");
                   ("format", JStr "AMA")])
           (JStr "Roe R. Influenza. 2019."));
    reflexivity.
Defined.

(** ** The alternate identifier and the URL *)

Lemma pmc_entry_node a t c :
  pmc_entry (XDict a t c)
  = match assoc "IdType" a with
    | None => Raise (KeyError "@IdType")
    | Some ty =>
        if String.eqb ty "pmc"
        then match t with
             | Some s => Ok [s]
             | None => Raise (KeyError "#text")
             end
        else Ok []
    end.
Proof.
  unfold pmc_entry. simpl.
  destruct (assoc "IdType" a) as [ty |]; simpl; [| reflexivity].
  destruct (String.eqb ty "pmc"); [| reflexivity].
  destruct t; reflexivity.
Qed.

(** On entries that are read without error, the comprehension gives the
    texts of the entries tagged [pmc], so its head is the first of them. *)
Lemma rmap_pmc_entry_ok (es : list Node) :
  forallb entry_ok es = true ->
  exists found,
    rmap pmc_entry (map node_val es) = Ok found
    /\ match List.concat found with p :: _ => Some p | [] => None end
       = first_pmc es.
Proof.
  induction es as [| [[a t] c] es IH]; intros Hok.
  - exists []. split; reflexivity.
  - simpl in Hok. apply andb_true_iff in Hok as [Hb Hes].
    destruct (IH Hes) as (found & Hfound & Hhead).
    simpl map. simpl rmap. rewrite pmc_entry_node, Hfound.
    unfold first_pmc in *. simpl find.
    destruct (assoc "IdType" a) as [ty |]; [| discriminate].
    destruct (String.eqb ty "pmc").
    + destruct t as [s |]; [| discriminate].
      exists ([s] :: found). split; reflexivity.
    + exists ([] :: found). split; [reflexivity | exact Hhead].
Qed.

(** Without an entry tagged [pmc] the comprehension finds nothing, if it
    does not fail. *)
Lemma rmap_pmc_entry_none (es : list Node) :
  find is_pmc es = None ->
  forall found,
    rmap pmc_entry (map node_val es) = Ok found -> List.concat found = [].
Proof.
  induction es as [| [[a t] c] es IH]; intros Hnone found Hfound.
  - inversion Hfound. reflexivity.
  - simpl map in Hfound. simpl rmap in Hfound.
    rewrite pmc_entry_node in Hfound. simpl in Hnone.
    destruct (assoc "IdType" a) as [ty |]; [| discriminate].
    destruct (String.eqb ty "pmc"); [discriminate |].
    simpl in Hfound.
    destruct (rmap pmc_entry (map node_val es)) as [found' |] eqn:Hrest;
      [| discriminate].
    inversion Hfound. simpl. apply IH; [exact Hnone | reflexivity].
Qed.

Lemma parse_article_fields net u x st d st' :
  _parse_article net u x st = (Ok d, st') ->
  uid d = u /\ pmc_id d = parse_pmc_id x
  /\ exists ar, article_node x = Ok ar /\ parse_summary ar = Ok (Summary d)
                /\ parse_title ar = Ok (title d).
Proof.
  unfold _parse_article, urlopen.
  destruct (article_node x) as [ar | e]; simpl; [| discriminate].
  destruct (parse_summary ar) as [s | e] eqn:Hs; simpl; [| discriminate].
  destruct (net (requests (trace st)) (citation_url (self st) u)) as [p | e];
    simpl; [| discriminate].
  destruct (as_json p) as [j | e]; simpl; [| discriminate].
  destruct (parse_title ar) as [t | e] eqn:Ht; simpl; [| discriminate].
  destruct (J.getitem j "ama") as [ama | e]; simpl; [| discriminate].
  destruct (J.getitem ama "orig") as [orig | e]; simpl; [| discriminate].
  intros H. inversion H. simpl. split; [reflexivity |]. split; [reflexivity |].
  exists ar. auto.
Qed.

(** The alternate identifier and the URL, for [parse_pmc_id] and
    [to_doc]. *)
Lemma pmc_id_cases :
  (forall x es,
     article_ids_of x = Ok (XList (map node_val es)) ->
     forallb entry_ok es = true ->
     parse_pmc_id x = first_pmc es)
  /\ (forall x e, article_ids_of x = Raise e -> parse_pmc_id x = None)
  /\ (forall x es,
        article_ids_of x = Ok (XList (map node_val es)) ->
        find is_pmc es = None -> parse_pmc_id x = None)
  /\ (forall x e, pmc_ids x = Raise e -> parse_pmc_id x = None)
  /\ (forall net u x st d st',
        _parse_article net u x st = (Ok d, st') ->
        uid d = u /\ pmc_id d = parse_pmc_id x)
  /\ (forall d,
        pmc_id d = None ->
        URL (to_doc d) = "https://pubmed.ncbi.nlm.nih.gov/" ++ uid d ++ "/")
  /\ (forall d p,
        pmc_id d = Some p ->
        URL (to_doc d) = "https://www.ncbi.nlm.nih.gov/pmc/articles/" ++ p ++ "/").
Proof.
  repeat split.
  - intros x es Hids Hok. unfold parse_pmc_id, pmc_ids. rewrite Hids.
    simpl. destruct (rmap_pmc_entry_ok es Hok) as (found & -> & Hhead).
    simpl. rewrite <- Hhead. destruct (List.concat found); reflexivity.
  - intros x e H. unfold parse_pmc_id, pmc_ids. now rewrite H.
  - intros x es Hids Hnone. unfold parse_pmc_id, pmc_ids. rewrite Hids.
    simpl.
    destruct (rmap pmc_entry (map node_val es)) as [found |] eqn:Hf;
      [| reflexivity].
    simpl. now rewrite (rmap_pmc_entry_none es Hnone found Hf).
  - intros x e H. unfold parse_pmc_id. now rewrite H.
  - apply (parse_article_fields net u x st d st' H).
  - apply (parse_article_fields net u x st d st' H).
  - intros d H. unfold to_doc, doc_url. simpl. now rewrite H.
  - intros d p H. unfold to_doc, doc_url. simpl. now rewrite H.
Qed.


(** ** The empty-summary filter *)

Lemma lstrip_empty_iff s : Py.lstrip s = "" <-> all_space s = true.
Proof.
  induction s as [| c r IH]; simpl; [tauto |].
  destruct (Py.isspace c); simpl; [exact IH |].
  split; discriminate.
Qed.

Lemma lstrip_head s c r : Py.lstrip s = String c r -> Py.isspace c = false.
Proof.
  induction s as [| d s IH]; simpl; [discriminate |].
  destruct (Py.isspace d) eqn:Hd; [exact IH |].
  intros H. inversion H. subst. exact Hd.
Qed.

Lemma strip_empty_iff s : Py.strip s = "" <-> all_space s = true.
Proof.
  unfold Py.strip. rewrite <- lstrip_empty_iff.
  destruct (Py.lstrip s) as [| c r] eqn:Hl; [simpl; tauto |].
  apply lstrip_head in Hl. simpl. rewrite Hl.
  destruct (Py.rstrip r); split; discriminate.
Qed.

Lemma has_summary_iff d :
  has_summary d = true <-> Py.strip (Summary d) <> "".
Proof.
  unfold has_summary.
  destruct (Py.strip (Summary d)); simpl; split;
    congruence || discriminate || auto.
Qed.

Lemma filter_idempotent {A} (f : A -> bool) (l : list A) :
  filter f (filter f l) = filter f l.
Proof.
  induction l as [| x l IH]; simpl; [reflexivity |].
  destruct (f x) eqn:Hx; simpl; [rewrite Hx; now f_equal | exact IH].
Qed.

Lemma run_load net q k st docs st' :
  run net q k st = (Ok docs, st') ->
  exists l,
    lazy_load net (submitted_term (self st) q) k st = (Ok l, st')
    /\ load net (submitted_term (self st) q) k st
       = (Ok (filter has_summary l), st')
    /\ docs = map to_doc (filter has_summary l).
Proof.
  unfold run, load.
  destruct (lazy_load net (submitted_term (self st) q) k st) as [[l | e] st1];
    simpl; intros H; inversion H.
  exists l. auto.
Qed.

(** C4: every document returned by [run] has a summary that is not empty
    once trimmed, i.e. one with a character that is not whitespace; the
    list that [load] returns is left unchanged by the empty-summary filter,
    and filtering twice is filtering once. *)
Theorem run_summaries_not_blank net query top_k st docs st' :
  run net query top_k st = (Ok docs, st') ->
  Forall (fun doc => Py.strip (doc_Summary doc) <> ""
                     /\ all_space (doc_Summary doc) = false) docs
  /\ (exists kept,
        load net (submitted_term (self st) query) top_k st = (Ok kept, st')
        /\ docs = map to_doc kept
        /\ filter has_summary kept = kept)
  /\ (forall l, filter has_summary (filter has_summary l) = filter has_summary l).
Proof.
  intros Hrun. destruct (run_load _ _ _ _ _ _ Hrun) as (l & _ & Hload & ->).
  split; [| split].
  - apply Forall_forall. intros doc Hin.
    apply in_map_iff in Hin as (d & <- & Hd).
    apply filter_In in Hd as [_ Hd]. apply has_summary_iff in Hd.
    simpl. split; [exact Hd |].
    destruct (all_space (Summary d)) eqn:Hall; [| reflexivity].
    apply strip_empty_iff in Hall. contradiction.
  - exists (filter has_summary l).
    split; [exact Hload |]. split; [reflexivity | apply filter_idempotent].
  - intros l'. apply filter_idempotent.
Qed.

Lemma run_summaries_not_blank_witness :
  exists st',
    run Scenario.net "fever AND influenza" 3 fresh
    = (Ok [Scenario.doc_111; Scenario.doc_333], st')
    /\ Forall (fun doc => Py.strip (doc_Summary doc) <> ""
                          /\ all_space (doc_Summary doc) = false)
         [Scenario.doc_111; Scenario.doc_333].
Proof.
  exists (snd (run Scenario.net "fever AND influenza" 3 fresh)).
  assert (H : run Scenario.net "fever AND influenza" 3 fresh
              = (Ok [Scenario.doc_111; Scenario.doc_333],
                 snd (run Scenario.net "fever AND influenza" 3 fresh)))
    by (vm_compute; reflexivity).
  split; [exact H |].
  exact (proj1 (run_summaries_not_blank _ _ _ _ _ _ H)).
Defined.

(** ** The alternate identifier in the result *)

(** C5: the alternate identifier is the text of the first entry of the
    identifier list tagged [pmc]; a missing list, an entry list without
    such an entry and any structural error give no identifier, never a
    failure of the parse: [_parse_article] returns its details, with that
    identifier or none, for every document whose article node, abstract,
    title and citation are read, whatever its identifier list is.  The URL
    of each document of [run] is the article page of [uid] without an
    alternate identifier and the PMC page of the identifier with one. *)
Theorem pmc_id_and_url :
  ((forall x es,
     article_ids_of x = Ok (XList (map node_val es)) ->
     forallb entry_ok es = true ->
     parse_pmc_id x = first_pmc es)
  /\ (forall x e, article_ids_of x = Raise e -> parse_pmc_id x = None)
  /\ (forall x es,
        article_ids_of x = Ok (XList (map node_val es)) ->
        find is_pmc es = None -> parse_pmc_id x = None)
  /\ (forall x e, pmc_ids x = Raise e -> parse_pmc_id x = None)
  /\ (forall net u x st d st',
        _parse_article net u x st = (Ok d, st') ->
        uid d = u /\ pmc_id d = parse_pmc_id x)
  /\ (forall d,
        pmc_id d = None ->
        URL (to_doc d) = "https://pubmed.ncbi.nlm.nih.gov/" ++ uid d ++ "/")
  /\ (forall d p,
        pmc_id d = Some p ->
        URL (to_doc d) = "https://www.ncbi.nlm.nih.gov/pmc/articles/" ++ p ++ "/"))
  /\ (forall net u x st ar s c j t ama o,
        article_node x = Ok ar ->
        parse_summary ar = Ok s ->
        net (requests (trace st)) (citation_url (self st) u) = Ok c ->
        as_json c = Ok j ->
        parse_title ar = Ok t ->
        J.getitem j "ama" = Ok ama ->
        J.getitem ama "orig" = Ok o ->
        _parse_article net u x st
        = (Ok {| uid := u; pmc_id := parse_pmc_id x; Summary := s;
                 Citation := o; title := t |},
           requested (citation_url (self st) u) st))
  /\ (forall net query top_k st docs st',
        run net query top_k st = (Ok docs, st') ->
        exists kept,
          load net (submitted_term (self st) query) top_k st = (Ok kept, st')
          /\ docs = map to_doc kept
          /\ Forall2
               (fun d doc =>
                  URL doc
                  = match pmc_id d with
                    | None => "https://pubmed.ncbi.nlm.nih.gov/" ++ uid d ++ "/"
                    | Some p =>
                        "https://www.ncbi.nlm.nih.gov/pmc/articles/" ++ p ++ "/"
                    end)
               kept docs).
Proof.
  split; [exact pmc_id_cases |].
  split; [exact parse_article_success |].
  intros net query top_k st docs st' Hrun.
  destruct (run_load _ _ _ _ _ _ Hrun) as (l & _ & Hload & ->).
  exists (filter has_summary l). split; [exact Hload |].
  split; [reflexivity |].
  clear Hrun Hload.
  induction (filter has_summary l) as [| d kept IH]; constructor.
  - unfold to_doc, doc_url. simpl. destruct (pmc_id d); reflexivity.
  - exact IH.
Qed.

Lemma pmc_id_and_url_witness :
  _parse_article Scenario.net "111" Scenario.xml_111 fresh
  = (Ok Scenario.details_111,
     requested (citation_url default_wrapper "111") fresh)
  /\ _parse_article Scenario.net "333" Scenario.xml_333 fresh
     = (Ok Scenario.details_333,
        requested (citation_url default_wrapper "333") fresh)
  /\ parse_pmc_id Scenario.xml_111 = Some "PMC123"
  /\ parse_pmc_id Scenario.xml_333 = None
  /\ exists kept,
       load Scenario.net
         (submitted_term default_wrapper "fever AND influenza") 3 fresh
       = (Ok kept, snd (run Scenario.net "fever AND influenza" 3 fresh))
       /\ Forall2
            (fun d doc =>
               URL doc
               = match pmc_id d with
                 | None => "https://pubmed.ncbi.nlm.nih.gov/" ++ uid d ++ "/"
                 | Some p =>
                     "https://www.ncbi.nlm.nih.gov/pmc/articles/" ++ p ++ "/"
                 end)
            kept [Scenario.doc_111; Scenario.doc_333].
Proof.
  destruct pmc_id_and_url as ((H1 & H2 & _) & Hparse & Hrun).
  split; [| split; [| split; [| split]]].
  - assert (E : parse_pmc_id Scenario.xml_111 = Some "PMC123").
    { apply (H1 Scenario.xml_111
               [([("IdType", "pubmed")], Some "111", []);
                ([("IdType", "pmc")], Some "PMC123", [])]); reflexivity. }
    unfold Scenario.details_111. rewrite <- E.
    eapply (Hparse Scenario.net "111" Scenario.xml_111 fresh); reflexivity.
  - assert (E : parse_pmc_id Scenario.xml_333 = None).
    { apply (H2 Scenario.xml_333 (KeyError "PubmedArticle")). reflexivity. }
    unfold Scenario.details_333. rewrite <- E.
    eapply (Hparse Scenario.net "333" Scenario.xml_333 fresh); reflexivity.
  - apply (H1 Scenario.xml_111
             [([("IdType", "pubmed")], Some "111", []);
              ([("IdType", "pmc")], Some "PMC123", [])]); reflexivity.
  - apply (H2 Scenario.xml_333 (KeyError "PubmedArticle")). reflexivity.
  - destruct (Hrun Scenario.net "fever AND influenza" 3 fresh
                [Scenario.doc_111; Scenario.doc_333]
                (snd (run Scenario.net "fever AND influenza" 3 fresh)))
      as (kept & Hload & _ & Hurls).
    + vm_compute. reflexivity.
    + exists kept. split; [exact Hload | exact Hurls].
Defined.

(** ** Failures of single identifiers *)

Lemma lazy_load_loop_attempts net webenv uids : forall st,
  fst (lazy_load_loop net uids webenv st)
  = successes (attempts net uids webenv st).
Proof.
  induction uids as [| uid rest IH]; intros st; [reflexivity |].
  simpl. destruct (retrieve_article net uid webenv st) as [r st1].
  specialize (IH st1).
  destruct (lazy_load_loop net rest webenv st1) as [ys st2]. simpl in IH.
  destruct r; simpl; now rewrite IH.
Qed.

Lemma length_attempts net webenv uids : forall st,
  List.length (attempts net uids webenv st) = List.length uids.
Proof.
  induction uids as [| uid rest IH]; intros st; [reflexivity |].
  simpl. destruct (retrieve_article net uid webenv st) as [r st1].
  simpl. now rewrite IH.
Qed.

Lemma attempts_cons net uid rest webenv st :
  attempts net (uid :: rest) webenv st
  = fst (retrieve_article net uid webenv st)
    :: attempts net rest webenv (snd (retrieve_article net uid webenv st)).
Proof.
  simpl. destruct (retrieve_article net uid webenv st). reflexivity.
Qed.

Lemma run_eq net query top_k st :
  fst (run net query top_k st)
  = match search_result top_k
            (net (requests (trace st))
               (search_url (self st) (submitted_term (self st) query))) with
    | Raise e => Raise e
    | Ok (webenv, uids) =>
        Ok (map to_doc (filter has_summary
              (successes (attempts net uids webenv
                 (requested
                    (search_url (self st) (submitted_term (self st) query))
                    st)))))
    end.
Proof.
  unfold run, load, lazy_load, urlopen.
  destruct (search_result top_k _) as [[webenv uids] | e]; [| reflexivity].
  rewrite <- lazy_load_loop_attempts.
  destruct (lazy_load_loop net uids webenv _) as [ys st2]. reflexivity.
Qed.

Lemma serves_retrieve net webenv u d st :
  serves net (self st) webenv u d ->
  retrieve_article net (JStr u) (JStr webenv) st
  = (Ok d, requested (citation_url (self st) u)
             (requested (efetch_url (self st) u webenv) st)).
Proof.
  intros (p & x & ar & c & j & ama & Hp & Hx & Har & Hs & Hpmc & Hc & Hj
          & Ht & Hama & Horig & Hu).
  rewrite retrieve_article_unfold.
  rewrite (retry_loop_success net _ 0 st p (Hp _)).
  simpl rbind. rewrite Hx.
  unfold _parse_article, urlopen. rewrite Har. simpl rbind. rewrite Hs.
  simpl rbind. cbv iota. simpl self. rewrite Hc. simpl rbind.
  rewrite Hj. simpl rbind. rewrite Ht. simpl rbind. rewrite Hama.
  simpl rbind. rewrite Horig. simpl rbind. rewrite Hpmc.
  destruct d. simpl in Hu. subst. reflexivity.
Qed.

Lemma article_node_lacks_both x :
  lacks_both_shapes x -> article_node x = Raise (KeyError "PubmedBookArticle").
Proof.
  intros (a & t & c & Hset & H1 & H2).
  unfold article_node. rewrite Hset. cbn [rbind]. unfold X.getitem.
  rewrite H1, H2. reflexivity.
Qed.

Lemma serves_malformed_retrieve net webenv u st :
  serves_malformed net (self st) webenv u ->
  retrieve_article net (JStr u) (JStr webenv) st
  = (Raise (KeyError "PubmedBookArticle"),
     requested (efetch_url (self st) u webenv) st).
Proof.
  intros (p & x & Hp & Hx & Hlacks).
  rewrite retrieve_article_unfold.
  rewrite (retry_loop_success net _ 0 st p (Hp _)).
  simpl rbind. rewrite Hx.
  unfold _parse_article. rewrite (article_node_lacks_both x Hlacks).
  reflexivity.
Qed.

(** C3: [run] fails exactly when the search call does, with its error;
    otherwise every consumed identifier is tried, in order, each from the
    state the previous one left, and the result is made of the identifiers
    whose processing did not raise (detail fetch, parse or citation), less
    the blank summaries.  In the scenario of three identifiers whose second
    document lacks both shapes, the result is the documents of the first
    and of the third, in that order. *)
Theorem failed_identifiers_skipped net query top_k st :
  fst (run net query top_k st)
  = match search_result top_k
            (net (requests (trace st))
               (search_url (self st) (submitted_term (self st) query))) with
    | Raise e => Raise e
    | Ok (webenv, uids) =>
        Ok (map to_doc (filter has_summary
              (successes (attempts net uids webenv
                 (requested
                    (search_url (self st) (submitted_term (self st) query))
                    st)))))
    end
  /\ (forall uids webenv st0,
        List.length (attempts net uids webenv st0) = List.length uids)
  /\ (forall webenv d1 d3,
        search_result top_k
          (net (requests (trace st))
             (search_url (self st) (submitted_term (self st) query)))
        = Ok (JStr webenv, [JStr "111"; JStr "222"; JStr "333"]) ->
        serves net (self st) webenv "111" d1 ->
        serves_malformed net (self st) webenv "222" ->
        serves net (self st) webenv "333" d3 ->
        has_summary d1 = true ->
        has_summary d3 = true ->
        fst (run net query top_k st) = Ok [to_doc d1; to_doc d3]).
Proof.
  split; [apply run_eq |]. split.
  - intros uids webenv st0. apply length_attempts.
  - intros webenv d1 d3 Hsearch H1 H2 H3 Hs1 Hs3.
    rewrite run_eq, Hsearch.
    set (st1 := requested
                  (search_url (self st) (submitted_term (self st) query)) st).
    change (self st) with (self st1) in H1, H2, H3.
    rewrite attempts_cons, (serves_retrieve net webenv "111" d1 st1 H1).
    cbn [fst snd].
    set (st2 := requested (citation_url (self st1) "111")
                  (requested (efetch_url (self st1) "111" webenv) st1)).
    change (self st1) with (self st2) in H2, H3.
    rewrite attempts_cons, (serves_malformed_retrieve net webenv "222" st2 H2).
    cbn [fst snd].
    set (st3 := requested (efetch_url (self st2) "222" webenv) st2).
    change (self st2) with (self st3) in H3.
    rewrite attempts_cons, (serves_retrieve net webenv "333" d3 st3 H3).
    cbn [fst snd attempts successes filter map].
    rewrite Hs1, Hs3. reflexivity.
Qed.

Lemma scenario_serves_111 :
  serves Scenario.net default_wrapper "MCID_1" "111" Scenario.details_111.
Proof.
  exists (xml_payload Scenario.xml_111), Scenario.xml_111.
  eexists. eexists. eexists. eexists.
  split; [intros n; reflexivity |]. split; [reflexivity |].
  split; [reflexivity |]. split; [reflexivity |]. split; [reflexivity |].
  split; [intros n; reflexivity |]. split; [reflexivity |].
  split; [reflexivity |]. split; [reflexivity |]. split; reflexivity.
Defined.

Lemma scenario_serves_333 :
  serves Scenario.net default_wrapper "MCID_1" "333" Scenario.details_333.
Proof.
  exists (xml_payload Scenario.xml_333), Scenario.xml_333.
  eexists. eexists. eexists. eexists.
  split; [intros n; reflexivity |]. split; [reflexivity |].
  split; [reflexivity |]. split; [reflexivity |]. split; [reflexivity |].
  split; [intros n; reflexivity |]. split; [reflexivity |].
  split; [reflexivity |]. split; [reflexivity |]. split; reflexivity.
Defined.

Lemma scenario_serves_malformed_222 :
  serves_malformed Scenario.net default_wrapper "MCID_1" "222".
Proof.
  exists (xml_payload Scenario.xml_222), Scenario.xml_222.
  split; [intros n; reflexivity |]. split; [reflexivity |].
  exists [], None, [("DeleteCitation", XStr "222")].
  split; [reflexivity |]. split; reflexivity.
Defined.

Lemma failed_identifiers_skipped_witness :
  fst (run Scenario.net "fever AND influenza" 3 fresh)
  = Ok [to_doc Scenario.details_111; to_doc Scenario.details_333].
Proof.
  apply (proj2 (proj2 (failed_identifiers_skipped
                         Scenario.net "fever AND influenza" 3 fresh))
           "MCID_1" Scenario.details_111 Scenario.details_333).
  - reflexivity.
  - exact scenario_serves_111.
  - exact scenario_serves_malformed_222.
  - exact scenario_serves_333.
  - reflexivity.
  - reflexivity.
Defined.

(** * Further properties of the wrapper *)

(** ** What a run leaves of the object and costs on the network *)

Lemma same_config_refl w : same_config w w.
Proof. unfold same_config. tauto. Qed.

Lemma same_config_trans w1 w2 w3 :
  same_config w1 w2 -> same_config w2 w3 -> same_config w1 w3.
Proof.
  unfold same_config. intros (A1 & A2 & A3 & A4 & A5) (B1 & B2 & B3 & B4 & B5).
  rewrite B1, B2, B3, B4, B5. tauto.
Qed.

Lemma same_config_backed_off url k st :
  same_config (self st) (self (backed_off url k st)).
Proof.
  destruct (config_backed_off url k st) as (H1 & H2 & H3 & H4 & H5).
  unfold same_config. tauto.
Qed.

(** The number of sleeps of the loop is within what is left of the retry
    budget. *)
Lemma retry_loop_state_bounded net url : forall n retry st,
  Z.to_nat (max_retry (self st) - retry) = n ->
  exists k,
    (k <= n)%nat
    /\ snd (retry_loop net url retry st) = requested url (backed_off url k st)
    /\ (k <> O -> 0 <= sleep_time (self st)).
Proof.
  induction n as [| n IH]; intros retry st Hn; rewrite retry_loop_eq;
    destruct (net (requests (trace st)) url) as [p | e];
    try (exists O; split; [lia | split; [reflexivity | congruence]]);
    destruct e;
    try (exists O; split; [lia | split; [reflexivity | congruence]]).
  - replace (retry <? max_retry (self st)) with false
      by (symmetry; apply Z.ltb_ge; lia).
    rewrite andb_false_r.
    exists O; split; [lia | split; [reflexivity | congruence]].
  - destruct ((code =? 429) && (retry <? max_retry (self st))) eqn:Hc;
      [| exists O; split; [lia | split; [reflexivity | congruence]]].
    destruct (sleep_time (self st) <? 0) eqn:Hs;
      [exists O; split; [lia | split; [reflexivity | congruence]] |].
    destruct (IH (retry + 1) (slept (requested url st))) as (k & Hle & Hk & _).
    + simpl. lia.
    + exists (S k). split; [lia |]. split; [exact Hk |].
      intros _. apply Z.ltb_ge. exact Hs.
Qed.

(** One call of [retrieve_article]: the object keeps its configuration, and
    the trace grows by [k] backed-off attempts, within the retry budget, and
    by at most two more requests. *)
Lemma retrieve_article_effect net uid webenv st :
  exists k ext,
    (k <= Z.to_nat (max_retry (self st)))%nat
    /\ (k <> O -> 0 <= sleep_time (self st))
    /\ same_config (self st) (self (snd (retrieve_article net uid webenv st)))
    /\ trace (snd (retrieve_article net uid webenv st))
       = (trace st ++ ext)%list
    /\ sleeps ext = geometric (sleep_time (self st)) k
    /\ (requests ext <= k + 2)%nat.
Proof.
  unfold retrieve_article.
  assert (Hnil : exists k ext,
             (k <= Z.to_nat (max_retry (self st)))%nat
             /\ (k <> O -> 0 <= sleep_time (self st))
             /\ same_config (self st) (self st)
             /\ trace st = (trace st ++ ext)%list
             /\ sleeps ext = geometric (sleep_time (self st)) k
             /\ (requests ext <= k + 2)%nat).
  { exists O, []. rewrite app_nil_r.
    split; [lia |]. split; [congruence |].
    split; [apply same_config_refl |]. split; [reflexivity |].
    split; [reflexivity |]. unfold requests. simpl. lia. }
  destruct uid as [| | | u | |]; try exact Hnil.
  destruct webenv as [| | | w | |]; try exact Hnil.
  clear Hnil.
  set (url := efetch_url (self st) u w).
  destruct (retry_loop_state_bounded net url _ 0 st eq_refl)
    as (k & Hle & Hk & Hp).
  rewrite Z.sub_0_r in Hle.
  destruct (retry_loop net url 0 st) as [r st1]. simpl in Hk. subst st1.
  exists k.
  assert (Hone : exists ext,
             (k <= Z.to_nat (max_retry (self st)))%nat
             /\ (k <> O -> 0 <= sleep_time (self st))
             /\ same_config (self st)
                  (self (requested url (backed_off url k st)))
             /\ trace (requested url (backed_off url k st))
                = (trace st ++ ext)%list
             /\ sleeps ext = geometric (sleep_time (self st)) k
             /\ (requests ext <= k + 2)%nat).
  { exists (backoff_trace url k (sleep_time (self st)) ++ [Request url])%list.
    split; [exact Hle |]. split; [exact Hp |].
    split; [apply same_config_backed_off |].
    split; [simpl; rewrite trace_backed_off, <- app_assoc; reflexivity |].
    split.
    - rewrite sleeps_app, sleeps_backoff_trace. simpl. apply app_nil_r.
    - rewrite requests_app, requests_backoff_trace. unfold requests. simpl. lia. }
  destruct (result <- r ;; as_xml result) as [x | e]; simpl; [| exact Hone].
  destruct (parse_article_state net u x (requested url (backed_off url k st)))
    as [-> | ->]; [exact Hone |].
  exists (backoff_trace url k (sleep_time (self st))
          ++ [Request url;
              Request (citation_url
                         (self (requested url (backed_off url k st))) u)])%list.
  split; [exact Hle |]. split; [exact Hp |].
  split; [apply same_config_backed_off |].
  split; [simpl; rewrite trace_backed_off, <- !app_assoc; reflexivity |].
  split.
  - rewrite sleeps_app, sleeps_backoff_trace. simpl. apply app_nil_r.
  - rewrite requests_app, requests_backoff_trace. unfold requests. simpl. lia.
Qed.

Lemma lazy_load_loop_effect net webenv uids : forall st,
  exists ext,
    same_config (self st) (self (snd (lazy_load_loop net uids webenv st)))
    /\ trace (snd (lazy_load_loop net uids webenv st)) = (trace st ++ ext)%list
    /\ (requests ext
        <= List.length uids * (Z.to_nat (max_retry (self st)) + 2))%nat.
Proof.
  induction uids as [| uid rest IH]; intros st.
  - exists []. simpl. rewrite app_nil_r.
    split; [apply same_config_refl |]. split; [reflexivity |].
    unfold requests. simpl. lia.
  - simpl.
    destruct (retrieve_article_effect net uid webenv st)
      as (k & ext1 & Hk & _ & Hc1 & Ht1 & _ & Hr1).
    destruct (retrieve_article net uid webenv st) as [r st1]. simpl in *.
    destruct (IH st1) as (ext2 & Hc2 & Ht2 & Hr2).
    destruct (lazy_load_loop net rest webenv st1) as [ys st2]. simpl in *.
    assert (Hm : max_retry (self st1) = max_retry (self st)) by apply Hc1.
    rewrite Hm in Hr2.
    exists (ext1 ++ ext2)%list.
    assert (H : same_config (self st) (self st2)
                /\ trace st2 = (trace st ++ ext1 ++ ext2)%list
                /\ (requests (ext1 ++ ext2)
                    <= S (List.length rest)
                       * (Z.to_nat (max_retry (self st)) + 2))%nat).
    { split; [eapply same_config_trans; eassumption |].
      split; [rewrite Ht2, Ht1, app_assoc; reflexivity |].
      rewrite requests_app. simpl. lia. }
    destruct r; exact H.
Qed.

Lemma length_take_le n s : (String.length (Py.take n s) <= n)%nat.
Proof. rewrite length_take. lia. Qed.

Lemma length_chars s : List.length (Py.chars s) = String.length s.
Proof. induction s as [| c s IH]; simpl; [reflexivity | now rewrite IH]. Qed.

(** With a bound that is not negative, the slice has at most that many
    elements to go through. *)
Lemma slice_iter_length v k top uids :
  J.slice_to v k = Ok top -> J.iter top = Ok uids -> 0 <= k ->
  (List.length uids <= Z.to_nat k)%nat.
Proof.
  intros Hs Hi Hk.
  assert (Hneg : (k <? 0) = false) by (apply Z.ltb_ge; exact Hk).
  destruct v; simpl in Hs; try discriminate; inversion Hs; subst top;
    simpl in Hi; inversion Hi; subst uids.
  - rewrite length_map, length_chars. unfold Py.slice_to. rewrite Hneg.
    apply length_take_le.
  - unfold Py.list_slice_to. rewrite Hneg. rewrite length_firstn. lia.
Qed.

Lemma search_result_length k r webenv uids :
  search_result k r = Ok (webenv, uids) -> 0 <= k ->
  (List.length uids <= Z.to_nat k)%nat.
Proof.
  unfold search_result. intros H Hk.
  destruct r as [p | e]; simpl in H; [| discriminate].
  destruct (as_json p) as [j | e]; simpl in H; [| discriminate].
  destruct (J.getitem j "esearchresult") as [es | e]; simpl in H;
    [| discriminate].
  destruct (J.getitem es "webenv") as [w | e]; simpl in H; [| discriminate].
  destruct (J.getitem es "idlist") as [il | e]; simpl in H; [| discriminate].
  destruct (J.slice_to il k) as [top | e] eqn:Hs; simpl in H; [| discriminate].
  destruct (J.iter top) as [l | e] eqn:Hi; simpl in H; [| discriminate].
  inversion H. subst. eapply slice_iter_length; eassumption.
Qed.

Lemma length_successes {A} (l : list (Res A)) :
  (List.length (successes l) <= List.length l)%nat.
Proof.
  induction l as [| [a | e] l IH]; simpl; lia.
Qed.

Lemma length_filter_le {A} (f : A -> bool) (l : list A) :
  (List.length (filter f l) <= List.length l)%nat.
Proof.
  induction l as [| x l IH]; simpl; [lia |].
  destruct (f x); simpl; lia.
Qed.

(** [run] never returns more documents than [top_k_results] when that
    bound is not negative. *)
Theorem run_output_bounded net query top_k st docs st' :
  0 <= top_k ->
  run net query top_k st = (Ok docs, st') ->
  (List.length docs <= Z.to_nat top_k)%nat.
Proof.
  intros Hk Hrun.
  pose proof (run_eq net query top_k st) as Heq.
  rewrite Hrun in Heq. simpl in Heq.
  destruct (search_result top_k _) as [[webenv uids] | e] eqn:Hs;
    [| discriminate].
  inversion Heq. subst docs.
  apply search_result_length in Hs; [| exact Hk].
  rewrite length_map.
  eapply Nat.le_trans; [apply length_filter_le |].
  eapply Nat.le_trans; [apply length_successes |].
  rewrite length_attempts. exact Hs.
Qed.

Lemma run_output_bounded_witness :
  (List.length [Scenario.doc_111] <= Z.to_nat 1)%nat.
Proof.
  apply (run_output_bounded Scenario.net "fever AND influenza" 1 fresh
           [Scenario.doc_111]
           (snd (run Scenario.net "fever AND influenza" 1 fresh))).
  - discriminate.
  - vm_compute. reflexivity.
Defined.

(** [run] keeps the endpoints, the retry ceiling and the query cap of the
    object, only appends to the trace, and sends at most one search request
    and, for each of at most [top_k_results] identifiers, [max_retry + 1]
    detail requests and one citation request. *)
Theorem run_request_budget net query top_k st :
  0 <= top_k ->
  exists ext,
    same_config (self st) (self (snd (run net query top_k st)))
    /\ trace (snd (run net query top_k st)) = (trace st ++ ext)%list
    /\ (requests ext
        <= 1 + Z.to_nat top_k * (Z.to_nat (max_retry (self st)) + 2))%nat.
Proof.
  intros Hk. unfold run, load, lazy_load, urlopen.
  set (url := search_url (self st) (submitted_term (self st) query)).
  destruct (search_result top_k _) as [[webenv uids] | e] eqn:Hs; simpl.
  - apply search_result_length in Hs; [| exact Hk].
    destruct (lazy_load_loop_effect net webenv uids (requested url st))
      as (ext & Hc & Ht & Hr).
    destruct (lazy_load_loop net uids webenv (requested url st)) as [ys st2].
    simpl in *. exists (Request url :: ext).
    split; [exact Hc |].
    split; [rewrite Ht, <- app_assoc; reflexivity |].
    change (Request url :: ext) with ([Request url] ++ ext)%list.
    rewrite requests_app. unfold requests at 1. simpl.
    apply le_n_S. eapply Nat.le_trans; [exact Hr |].
    apply Nat.mul_le_mono_r. exact Hs.
  - exists [Request url].
    split; [apply same_config_refl |]. split; [reflexivity |].
    unfold requests. simpl. lia.
Qed.

Lemma run_request_budget_witness :
  exists ext,
    trace (snd (run Scenario.net "fever AND influenza" 3 fresh)) = ext
    /\ (requests ext <= 22)%nat.
Proof.
  destruct (run_request_budget Scenario.net "fever AND influenza" 3 fresh)
    as (ext & _ & Ht & Hr); [discriminate |].
  exists ext. split; [exact Ht | exact Hr].
Defined.

(** ** Time spent sleeping *)

Lemma total_geometric k : forall d,
  total (geometric d k) = d * (2 ^ Z.of_nat k - 1).
Proof.
  induction k as [| k IH]; intros d.
  - simpl. lia.
  - change (d + total (geometric (d * 2) k) = d * (2 ^ Z.of_nat (S k) - 1)).
    rewrite IH, Nat2Z.inj_succ, Z.pow_succ_r by lia. lia.
Qed.

(** One call of [retrieve_article] sleeps [k <= max_retry] times, for
    [b (2^k - 1)] seconds in all, [b] being the delay stored in the object:
    at most [b (2^max_retry - 1)], 930 seconds on a fresh default wrapper. *)
Theorem retrieve_article_sleep_total net uid webenv st :
  0 <= sleep_time (self st) ->
  exists k,
    (k <= Z.to_nat (max_retry (self st)))%nat
    /\ sleeps (trace (snd (retrieve_article net uid webenv st)))
       = (sleeps (trace st) ++ geometric (sleep_time (self st)) k)%list
    /\ total (geometric (sleep_time (self st)) k)
       = sleep_time (self st) * (2 ^ Z.of_nat k - 1)
    /\ total (geometric (sleep_time (self st)) k)
       <= sleep_time (self st)
          * (2 ^ Z.of_nat (Z.to_nat (max_retry (self st))) - 1).
Proof.
  intros Hb.
  destruct (retrieve_article_effect net uid webenv st)
    as (k & ext & Hk & _ & _ & Ht & Hs & _).
  exists k. split; [exact Hk |].
  split; [rewrite Ht, sleeps_app, Hs; reflexivity |].
  split; [apply total_geometric |].
  rewrite total_geometric.
  apply Z.mul_le_mono_nonneg_l; [exact Hb |].
  apply Z.sub_le_mono_r. apply Z.pow_le_mono_r; lia.
Qed.

Lemma retrieve_article_sleep_total_witness :
  exists k,
    sleeps (trace (snd (retrieve_article always_429 (JStr "111") (JStr "w") fresh)))
    = geometric 30 k
    /\ total (geometric 30 k) <= 930.
Proof.
  destruct (retrieve_article_sleep_total always_429 (JStr "111") (JStr "w") fresh)
    as (k & _ & Hs & _ & Hle); [discriminate |].
  exists k. split; [exact Hs | exact Hle].
Defined.

(** With a negative delay stored in the object, a rate-limited attempt that
    would be retried ends in the [ValueError] of [time.sleep]: one request,
    no sleep, no retry, and the rate-limit error is lost. *)
Theorem retrieve_article_negative_delay net u w st :
  sleep_time (self st) < 0 ->
  0 < max_retry (self st) ->
  net (requests (trace st)) (efetch_url (self st) u w) = Raise (HTTPError 429) ->
  retrieve_article net (JStr u) (JStr w) st
  = (Raise ValueError, requested (efetch_url (self st) u w) st).
Proof.
  intros Hs Hm Hnet. rewrite retrieve_article_unfold, retry_loop_eq, Hnet.
  replace (0 <? max_retry (self st)) with true
    by (symmetry; apply Z.ltb_lt; exact Hm).
  replace (sleep_time (self st) <? 0) with true
    by (symmetry; apply Z.ltb_lt; exact Hs).
  reflexivity.
Qed.

Lemma retrieve_article_negative_delay_witness :
  retrieve_article always_429 (JStr "111") (JStr "w") negative_delay
  = (Raise ValueError,
     requested (efetch_url (self negative_delay) "111" "w") negative_delay).
Proof.
  apply (retrieve_article_negative_delay always_429 "111" "w" negative_delay);
    reflexivity.
Defined.

(** ** A batch without failures *)

Lemma lazy_load_loop_cons net uid rest webenv st :
  lazy_load_loop net (uid :: rest) webenv st
  = let (r, st1) := retrieve_article net uid webenv st in
    let (yielded, st2) := lazy_load_loop net rest webenv st1 in
    match r with
    | Ok details => (details :: yielded, st2)
    | Raise _ => (yielded, st2)
    end.
Proof. reflexivity. Qed.

Lemma lazy_load_loop_served net webenv w uids ds :
  Forall2 (serves net w webenv) uids ds ->
  forall st, self st = w ->
  lazy_load_loop net (map JStr uids) (JStr webenv) st
  = (ds, {| self := w;
            trace := (trace st ++ served_trace w webenv uids)%list |}).
Proof.
  induction 1 as [| u d uids ds Hd _ IH]; intros st Hw.
  - simpl. rewrite app_nil_r. destruct st. simpl in Hw. now subst.
  - subst w. change (map JStr (u :: uids)) with (JStr u :: map JStr uids).
    rewrite lazy_load_loop_cons, (serves_retrieve net webenv u d st Hd).
    rewrite (IH (requested (citation_url (self st) u)
                   (requested (efetch_url (self st) u webenv) st)) eq_refl).
    simpl. rewrite <- !app_assoc. reflexivity.
Qed.

(** When the search succeeds and every identifier is served a well-formed
    article at the first attempt, [run] returns the documents of all the
    articles with a summary, in the order of the identifiers, after one
    search request and a detail and a citation request per identifier; it
    never sleeps and leaves the object as it was. *)
Theorem run_all_served net query top_k st webenv uids ds :
  search_result top_k
    (net (requests (trace st))
       (search_url (self st) (submitted_term (self st) query)))
  = Ok (JStr webenv, map JStr uids) ->
  Forall2 (serves net (self st) webenv) uids ds ->
  run net query top_k st
  = (Ok (map to_doc (filter has_summary ds)),
     {| self := self st;
        trace := (trace st
                  ++ Request (search_url (self st)
                                (submitted_term (self st) query))
                     :: served_trace (self st) webenv uids)%list |}).
Proof.
  intros Hs Hd. unfold run, load, lazy_load, urlopen. rewrite Hs.
  rewrite (lazy_load_loop_served net webenv (self st) uids ds Hd
             (requested (search_url (self st) (submitted_term (self st) query))
                st) eq_refl).
  simpl. rewrite <- app_assoc. reflexivity.
Qed.

Lemma run_all_served_witness :
  run Scenario.net "fever AND influenza" 1 fresh
  = (Ok [Scenario.doc_111],
     {| self := default_wrapper;
        trace := [Request (search_url default_wrapper Scenario.term);
                  Request (efetch_url default_wrapper "111" "MCID_1");
                  Request (citation_url default_wrapper "111")] |}).
Proof.
  apply (run_all_served Scenario.net "fever AND influenza" 1 fresh
           "MCID_1" ["111"] [Scenario.details_111]).
  - reflexivity.
  - constructor; [exact scenario_serves_111 | constructor].
Defined.

(** ** The two shapes of a document *)

(** The article shape wins over the book shape when its path is complete;
    the book shape is read exactly when the article path raises a
    [KeyError], which is what a missing [PubmedArticle], [MedlineCitation]
    or [Article] key does; any other error of the article path, such as
    the [TypeError] of a [PubmedArticle] that is a list, is the error of
    the parse, even when a book shape is present.  [_parse_article] raises
    the error of this step before any request and otherwise reads the
    abstract and the title in the node it gives. *)
Theorem article_node_shapes x set :
  X.getitem x "PubmedArticleSet" = Ok set ->
  article_node x
  = match (a <- X.getitem set "PubmedArticle" ;;
           c <- X.getitem a "MedlineCitation" ;;
           X.getitem c "Article") with
    | Ok ar => Ok ar
    | Raise (KeyError _) =>
        b <- X.getitem set "PubmedBookArticle" ;; X.getitem b "BookDocument"
    | Raise e => Raise e
    end
  /\ (forall a c ar,
        X.getitem set "PubmedArticle" = Ok a ->
        X.getitem a "MedlineCitation" = Ok c ->
        X.getitem c "Article" = Ok ar ->
        article_node x = Ok ar)
  /\ (forall k,
        X.getitem set "PubmedArticle" = Raise (KeyError k) ->
        article_node x
        = (b <- X.getitem set "PubmedBookArticle" ;; X.getitem b "BookDocument"))
  /\ (forall a k,
        X.getitem set "PubmedArticle" = Ok a ->
        X.getitem a "MedlineCitation" = Raise (KeyError k) ->
        article_node x
        = (b <- X.getitem set "PubmedBookArticle" ;; X.getitem b "BookDocument"))
  /\ (forall a c k,
        X.getitem set "PubmedArticle" = Ok a ->
        X.getitem a "MedlineCitation" = Ok c ->
        X.getitem c "Article" = Raise (KeyError k) ->
        article_node x
        = (b <- X.getitem set "PubmedBookArticle" ;; X.getitem b "BookDocument"))
  /\ (forall l,
        X.getitem set "PubmedArticle" = Ok (XList l) ->
        article_node x = Raise TypeError)
  /\ (forall net u st e,
        article_node x = Raise e -> _parse_article net u x st = (Raise e, st))
  /\ (forall net u st ar s c j t ama o,
        article_node x = Ok ar ->
        parse_summary ar = Ok s ->
        net (requests (trace st)) (citation_url (self st) u) = Ok c ->
        as_json c = Ok j ->
        parse_title ar = Ok t ->
        J.getitem j "ama" = Ok ama ->
        J.getitem ama "orig" = Ok o ->
        _parse_article net u x st
        = (Ok {| uid := u; pmc_id := parse_pmc_id x; Summary := s;
                 Citation := o; title := t |},
           requested (citation_url (self st) u) st)).
Proof.
  intros Hset.
  assert (Heq : article_node x
                = match (a <- X.getitem set "PubmedArticle" ;;
                         c <- X.getitem a "MedlineCitation" ;;
                         X.getitem c "Article") with
                  | Ok ar => Ok ar
                  | Raise (KeyError _) =>
                      b <- X.getitem set "PubmedBookArticle" ;;
                      X.getitem b "BookDocument"
                  | Raise e => Raise e
                  end).
  { unfold article_node. rewrite Hset. cbn [rbind].
    destruct (a <- X.getitem set "PubmedArticle" ;;
              c <- X.getitem a "MedlineCitation" ;;
              X.getitem c "Article") as [ar | e]; [reflexivity |].
    destruct e; reflexivity. }
  split; [exact Heq |].
  split; [| split; [| split; [| split; [| split; [| split]]]]].
  - intros a c ar Ha Hc Har. rewrite Heq, Ha. cbn [rbind]. rewrite Hc.
    cbn [rbind]. rewrite Har. reflexivity.
  - intros k Ha. rewrite Heq, Ha. reflexivity.
  - intros a k Ha Hc. rewrite Heq, Ha. cbn [rbind]. rewrite Hc. reflexivity.
  - intros a c k Ha Hc Har. rewrite Heq, Ha. cbn [rbind]. rewrite Hc.
    cbn [rbind]. rewrite Har. reflexivity.
  - intros l Ha. rewrite Heq, Ha. reflexivity.
  - intros net u st e. apply parse_article_node_error.
  - intros net u st ar s c j t ama o. apply parse_article_success.
Qed.

Lemma article_node_shapes_witness :
  _parse_article Scenario.net "333" Scenario.xml_333 fresh
  = (Ok Scenario.details_333,
     requested (citation_url default_wrapper "333") fresh).
Proof.
  destruct (article_node_shapes Scenario.xml_333
              (Scenario.elem
                 [("PubmedBookArticle",
                   Scenario.elem
                     [("BookDocument",
                       Scenario.elem
                         [("ArticleTitle",
                           XDict [("book", "flu")] (Some "Influenza") []);
                          ("Abstract",
                           Scenario.elem
                             [("AbstractText",
                               XList [XDict [("NlmCategory", "BACKGROUND")]
                                        (Some "Influenza is seasonal.") [];
                                      XDict [("Label", "Methods")]
                                        (Some "We reviewed cases.") []])])])])])
              eq_refl) as (_ & _ & Hbook & _ & _ & _ & _ & Hparse).
  pose proof (Hbook "PubmedArticle" eq_refl) as Hnode.
  cbn [rbind X.getitem X.lookup Scenario.elem assoc String.eqb Ascii.eqb
       Bool.eqb] in Hnode.
  change Scenario.details_333
    with {| uid := "333"; pmc_id := parse_pmc_id Scenario.xml_333;
            Summary := "BACKGROUND: Influenza is seasonal." ++ newline
                       ++ "Methods: We reviewed cases.";
            Citation := JStr "Roe R. Influenza. 2019.";
            title := "Influenza" |}.
  eapply (Hparse Scenario.net "333" fresh); [exact Hnode | | | | | |];
    reflexivity.
Defined.

(** ** Block sequences that mix text and dicts *)

Lemma block_lines_plain s :
  plain_text s = true -> block_lines (XStr s) = Ok [].
Proof.
  unfold plain_text, block_lines. intros H.
  apply andb_true_iff in H as [H H3]. apply andb_true_iff in H as [H1 H2].
  apply negb_true_iff in H1, H2, H3.
  simpl. rewrite H1. simpl. rewrite H2. simpl. rewrite H3. reflexivity.
Qed.

Lemma block_lines_marked s :
  plain_text s = false -> block_lines (XStr s) = Raise TypeError.
Proof.
  unfold plain_text, block_lines. intros H. simpl.
  destruct (Py.contains "@NlmCategory" s); [reflexivity |]. simpl.
  destruct (Py.contains "@Label" s); [reflexivity |]. simpl.
  destruct (Py.contains "#text" s); [reflexivity | discriminate].
Qed.

Lemma rmap_block_lines_mixed (items : list (string + Node)) :
  forallb plain_text (texts_of items) = true ->
  exists found,
    rmap block_lines (map item_val items) = Ok found
    /\ List.concat found = map block_line (filter has_text (nodes_of items)).
Proof.
  induction items as [| [s | [[a t] c]] items IH]; intros H.
  - exists []. split; reflexivity.
  - simpl in H. apply andb_true_iff in H as [Hs Hrest].
    destruct (IH Hrest) as (found & Hf & Hc).
    exists ([] :: found). simpl map. simpl rmap.
    rewrite (block_lines_plain s Hs), Hf. split; [reflexivity | exact Hc].
  - simpl in H. destruct (IH H) as (found & Hf & Hc).
    simpl map. simpl rmap. rewrite block_lines_node, Hf.
    destruct t as [s |].
    + exists ([label_prefix a ++ s] :: found). split; [reflexivity |].
      simpl. now rewrite Hc.
    + exists ([] :: found). split; [reflexivity | exact Hc].
Qed.

Lemma rmap_block_lines_breaks (items : list (option (string + Node))) :
  existsb breaks_loop items = true ->
  rmap block_lines (map element_val items) = Raise TypeError.
Proof.
  induction items as [| [[s | [[a t] c]] |] items IH]; intros H;
    [discriminate | | |].
  - simpl map. simpl rmap. cbn [existsb breaks_loop] in H.
    destruct (plain_text s) eqn:Hs.
    + rewrite (block_lines_plain s Hs). cbn [rbind].
      rewrite (IH H). reflexivity.
    + rewrite (block_lines_marked s Hs). reflexivity.
  - simpl map. simpl rmap. rewrite block_lines_node. cbn [rbind].
    cbn [existsb breaks_loop orb] in H. rewrite (IH H). reflexivity.
  - reflexivity.
Qed.

(** In a block sequence that mixes bare text and dicts, as [xmltodict]
    gives for paragraphs with and without attributes, the bare text is
    dropped from the summary: only the dict blocks with a text give lines.
    A bare text in which one of the keys ['@NlmCategory'], ['@Label'] or
    ['#text'] occurs, or an empty element, anywhere in the sequence, makes
    the decoding raise a [TypeError], and [_parse_article] with it, before
    the citation request. *)
Theorem mixed_blocks_keep_dicts_only :
  (forall items : list (string + Node),
     forallb plain_text (texts_of items) = true ->
     summary_of (XList (map item_val items))
     = Ok (Py.join newline
             (map block_line (filter has_text (nodes_of items)))))
  /\ (forall items : list (option (string + Node)),
        existsb breaks_loop items = true ->
        summary_of (XList (map element_val items)) = Raise TypeError)
  /\ (forall net u x st ar abstract (items : list (option (string + Node))),
        article_node x = Ok ar ->
        X.getitem ar "Abstract" = Ok abstract ->
        X.getitem abstract "AbstractText" = Ok (XList (map element_val items)) ->
        existsb breaks_loop items = true ->
        _parse_article net u x st = (Raise TypeError, st))
  /\ (forall net u x st ar abstract (items : list (string + Node)) c j t ama o,
        article_node x = Ok ar ->
        X.getitem ar "Abstract" = Ok abstract ->
        X.getitem abstract "AbstractText" = Ok (XList (map item_val items)) ->
        forallb plain_text (texts_of items) = true ->
        net (requests (trace st)) (citation_url (self st) u) = Ok c ->
        as_json c = Ok j ->
        parse_title ar = Ok t ->
        J.getitem j "ama" = Ok ama ->
        J.getitem ama "orig" = Ok o ->
        _parse_article net u x st
        = (Ok {| uid := u; pmc_id := parse_pmc_id x;
                 Summary := Py.join newline
                              (map block_line
                                 (filter has_text (nodes_of items)));
                 Citation := o; title := t |},
           requested (citation_url (self st) u) st)).
Proof.
  assert (Hok : forall items : list (string + Node),
            forallb plain_text (texts_of items) = true ->
            summary_of (XList (map item_val items))
            = Ok (Py.join newline
                    (map block_line (filter has_text (nodes_of items))))).
  { intros items H. unfold summary_of. simpl X.iter. unfold rbind at 1.
    destruct (rmap_block_lines_mixed items H) as (found & -> & Hc).
    simpl. now rewrite Hc. }
  assert (Hbad : forall items : list (option (string + Node)),
            existsb breaks_loop items = true ->
            summary_of (XList (map element_val items)) = Raise TypeError).
  { intros items H. unfold summary_of. simpl X.iter. unfold rbind at 1.
    rewrite (rmap_block_lines_breaks items H). reflexivity. }
  split; [exact Hok |]. split; [exact Hbad |]. split.
  - intros net u x st ar abstract items Har Ha Hv H.
    apply (parse_article_summary_error net u x st ar abstract _ _ Har Ha Hv).
    apply Hbad. exact H.
  - intros net u x st ar abstract items c j t ama o Har Ha Hv H.
    apply (parse_article_summary net u x st ar abstract _ _ c j t ama o
             Har Ha Hv).
    apply Hok. exact H.
Qed.

Lemma mixed_blocks_keep_dicts_only_witness :
  summary_of
    (XList [XStr "Unlabelled opening paragraph.";
            XDict [("Label", "Methods")] (Some "We reviewed cases.") []])
  = Ok "Methods: We reviewed cases."
  /\ summary_of
       (XList [XDict [("Label", "Methods")] (Some "We reviewed cases.") [];
               XStr "Plain."; XStr "See the #text field."])
     = Raise TypeError
  /\ summary_of
       (XList [XDict [("Label", "Methods")] (Some "We reviewed cases.") [];
               XNone])
     = Raise TypeError.
Proof.
  destruct mixed_blocks_keep_dicts_only as (H1 & H2 & _). split; [| split].
  - apply (H1 [inl "Unlabelled opening paragraph.";
               inr ([("Label", "Methods")], Some "We reviewed cases.", [])]).
    reflexivity.
  - apply (H2 [Some (inr ([("Label", "Methods")],
                          Some "We reviewed cases.", []));
               Some (inl "Plain."); Some (inl "See the #text field.")]).
    reflexivity.
  - apply (H2 [Some (inr ([("Label", "Methods")],
                          Some "We reviewed cases.", [])); None]).
    reflexivity.
Defined.

(** ** Identifier lists that are not read to the end *)

Lemma rmap_pmc_entry_bad (es : list Node) :
  forallb entry_ok es = false ->
  exists e, rmap pmc_entry (map node_val es) = Raise e.
Proof.
  induction es as [| [[a t] c] es IH]; intros H; [discriminate |].
  simpl map. simpl rmap. rewrite pmc_entry_node.
  simpl in H.
  destruct (assoc "IdType" a) as [ty |]; [| eexists; reflexivity].
  destruct (String.eqb ty "pmc").
  - destruct t as [s |]; [| eexists; reflexivity].
    simpl in H. destruct (IH H) as (e & ->). eexists. reflexivity.
  - simpl in H. destruct (IH H) as (e & ->). eexists. reflexivity.
Qed.

(** The identifier list is read as a whole: one entry without a type tag,
    or tagged [pmc] without a text, anywhere in the list, leaves the
    article without alternate identifier, even after an entry that
    carries one. *)
Theorem unreadable_entry_voids_pmc_id x es :
  article_ids_of x = Ok (XList (map node_val es)) ->
  forallb entry_ok es = false ->
  parse_pmc_id x = None.
Proof.
  intros Hids Hbad. unfold parse_pmc_id, pmc_ids. rewrite Hids. simpl.
  destruct (rmap_pmc_entry_bad es Hbad) as (e & ->). reflexivity.
Qed.

Lemma unreadable_entry_voids_pmc_id_witness :
  first_pmc [([("IdType", "pmc")], Some "PMC123", []);
             ([("Source", "doi")], Some "10.1/x", [])] = Some "PMC123"
  /\ parse_pmc_id
       (Scenario.elem [("PubmedArticleSet",
          Scenario.elem [("PubmedArticle",
            Scenario.elem [("PubmedData",
              Scenario.elem [("ArticleIdList",
                Scenario.elem [("ArticleId",
                  XList [XDict [("IdType", "pmc")] (Some "PMC123") [];
                         XDict [("Source", "doi")] (Some "10.1/x") []])])])])])])
     = None.
Proof.
  split; [reflexivity |].
  apply (unreadable_entry_voids_pmc_id _
           [([("IdType", "pmc")], Some "PMC123", []);
            ([("Source", "doi")], Some "10.1/x", [])]); reflexivity.
Defined.

(** An article with a single identifier has a dict, not a list, under
    [ArticleId]; the comprehension then goes through the keys of the dict
    and fails on the first one, so that no alternate identifier is found,
    even when the single entry is tagged [pmc]. *)
Theorem lone_identifier_gives_no_pmc_id x a t c :
  article_ids_of x = Ok (XDict a t c) ->
  X.keys a t c <> [] ->
  parse_pmc_id x = None.
Proof.
  intros Hids Hkeys. unfold parse_pmc_id, pmc_ids. rewrite Hids. simpl.
  destruct (X.keys a t c) as [| k ks]; [congruence | reflexivity].
Qed.

Lemma lone_identifier_gives_no_pmc_id_witness :
  parse_pmc_id
    (Scenario.elem [("PubmedArticleSet",
       Scenario.elem [("PubmedArticle",
         Scenario.elem [("PubmedData",
           Scenario.elem [("ArticleIdList",
             Scenario.elem [("ArticleId",
               XDict [("IdType", "pmc")] (Some "PMC123") [])])])])])])
  = None.
Proof.
  apply (lone_identifier_gives_no_pmc_id _
           [("IdType", "pmc")] (Some "PMC123") []).
  - reflexivity.
  - discriminate.
Defined.

(** ** The term in the search URL *)

Lemma quote_kept safe s : all_kept safe s = true -> Py.quote safe s = s.
Proof.
  induction s as [| c r IH]; [reflexivity |].
  cbn [all_kept Py.quote].
  intros H. apply andb_true_iff in H as [Hc Hr]. rewrite Hc.
  now rewrite IH.
Qed.

Lemma length_quote safe s :
  (String.length s <= String.length (Py.quote safe s) <= 3 * String.length s)%nat.
Proof.
  induction s as [| c r IH]; [simpl; lia |].
  cbn [Py.quote].
  destruct (Py.is_alnum c || Py.mem_ascii c "_.-~" || Py.mem_ascii c safe);
    cbn [String.length]; lia.
Qed.

Lemma all_kept_sub_ws b s :
  all_kept_or_space safe_chars s = true ->
  all_kept safe_chars (Py.sub_ws_from b s) = true.
Proof.
  revert b. induction s as [| c r IH]; intros b H; simpl; [reflexivity |].
  simpl in H. apply andb_true_iff in H as [Hc Hr].
  destruct (Py.isspace c) eqn:Hsp.
  - destruct b; simpl; apply IH; exact Hr.
  - simpl in Hc. simpl. rewrite Hc. simpl. apply IH. exact Hr.
Qed.

Lemma all_kept_take safe n : forall s,
  all_kept safe s = true -> all_kept safe (Py.take n s) = true.
Proof.
  induction n as [| n IH]; intros [| c r] H; simpl; try reflexivity.
  simpl in H. apply andb_true_iff in H as [Hc Hr]. rewrite Hc. simpl.
  apply IH. exact Hr.
Qed.

(** For a query of ASCII characters, on which characters and UTF-8 bytes
    are the same, the term that reaches the search URL is at most three
    times as long as the query cap; and for a query made of whitespace and
    of characters that [quote] keeps (letters, digits, [_.-~] and the safe
    characters, the [+] separator among them) it is the submitted term
    itself. *)
Theorem search_url_term w query :
  is_ascii query = true ->
  0 <= MAX_QUERY_LENGTH w ->
  (String.length (Py.quote safe_chars (submitted_term w query))
   <= 3 * Z.to_nat (MAX_QUERY_LENGTH w))%nat
  /\ (all_kept_or_space safe_chars query = true ->
      Py.quote safe_chars (submitted_term w query) = submitted_term w query).
Proof.
  intros _ HM.
  assert (Hterm : submitted_term w query
                  = Py.take (Z.to_nat (MAX_QUERY_LENGTH w)) (Py.re_sub_ws query)).
  { unfold submitted_term, Py.slice_to.
    replace (MAX_QUERY_LENGTH w <? 0) with false
      by (symmetry; apply Z.ltb_ge; exact HM).
    reflexivity. }
  split.
  - pose proof (length_quote safe_chars (submitted_term w query)) as [_ H].
    rewrite Hterm in H at 2. rewrite length_take in H. lia.
  - intros H. apply quote_kept. rewrite Hterm.
    apply all_kept_take. apply all_kept_sub_ws. exact H.
Qed.

Lemma search_url_term_witness :
  search_url default_wrapper (submitted_term default_wrapper "fever AND  flu[ti]")
  = "https://eutils.ncbi.nlm.nih.gov/entrez/eutils/esearch.fcgi?db=pubmed&term=fever+AND+flu[ti]&retmode=json&retmax=1000&usehistory=y&sort=relevance".
Proof.
  unfold search_url.
  rewrite (proj2 (search_url_term default_wrapper "fever AND  flu[ti]"
                    eq_refl ltac:(discriminate)) eq_refl).
  reflexivity.
Defined.

(** ** The text tool *)

Lemma join_starts sep x rest :
  exists tail, Py.join sep (x :: rest) = x ++ tail.
Proof.
  destruct rest as [| y rest]; simpl.
  - exists "". now rewrite string_app_nil_r.
  - eexists. reflexivity.
Qed.

Lemma tool_text_cons py_str tool d docs :
  exists tail,
    match map (format_result py_str tool) (d :: docs) with
    | [] => no_result
    | _ => Py.join (newline ++ newline)
             (map (format_result py_str tool) (d :: docs))
    end = "URL: " ++ URL d ++ tail.
Proof.
  simpl map.
  destruct (join_starts (newline ++ newline) (format_result py_str tool d)
              (map (format_result py_str tool) docs)) as (tail & Htail).
  rewrite Htail. unfold format_result. rewrite !string_app_assoc.
  eexists. reflexivity.
Qed.

(** [PubmedQueryRun._run] raises what [run] raises and leaves the state
    that [run] leaves; its text is the fixed sentence exactly when [run]
    returns no document, and otherwise starts with the URL line of the
    first document. *)
Theorem tool_run_text py_str net tool query st :
  snd (PubmedQueryRun_run py_str net tool query st)
  = snd (run net query (top_k_results tool) st)
  /\ (forall e,
        fst (PubmedQueryRun_run py_str net tool query st) = Raise e
        <-> fst (run net query (top_k_results tool) st) = Raise e)
  /\ (fst (PubmedQueryRun_run py_str net tool query st) = Ok no_result
      <-> fst (run net query (top_k_results tool) st) = Ok [])
  /\ (forall d docs,
        fst (run net query (top_k_results tool) st) = Ok (d :: docs) ->
        exists tail,
          fst (PubmedQueryRun_run py_str net tool query st)
          = Ok ("URL: " ++ URL d ++ tail)).
Proof.
  unfold PubmedQueryRun_run.
  destruct (run net query (top_k_results tool) st) as [[docs | e0] st1];
    cbn [fst snd rbind].
  - split; [reflexivity |]. split; [intros e; split; discriminate |].
    destruct docs as [| d docs].
    + split; [split; reflexivity |]. intros d docs H. discriminate.
    + destruct (tool_text_cons py_str tool d docs) as (tail & Htail).
      rewrite Htail. split.
      * split; [| discriminate]. intros H. inversion H.
      * intros d' docs' H. inversion H. subst d' docs'.
        exists tail. reflexivity.
  - split; [reflexivity |]. split.
    + intros e. split; intros H; inversion H; reflexivity.
    + split; [split; discriminate |]. intros d docs H. discriminate.
Qed.

(** ** The texts cut out of the replies of the chat model *)

Lemma upto_first_app c body post :
  no_char c body = true ->
  Re.upto_first c (body ++ String c post) = Some (body ++ String c "").
Proof.
  induction body as [| d body IH]; simpl.
  - intros _. now rewrite Ascii.eqb_refl.
  - intros H. apply andb_true_iff in H as [Hd Hb].
    apply negb_true_iff in Hd. rewrite Hd, (IH Hb). reflexivity.
Qed.

Lemma upto_last_none c s : no_char c s = true -> Re.upto_last c s = None.
Proof.
  induction s as [| d s IH]; simpl; [reflexivity |].
  intros H. apply andb_true_iff in H as [Hd Hs].
  apply negb_true_iff in Hd. now rewrite (IH Hs), Hd.
Qed.

Lemma upto_last_app c body post :
  no_char c post = true ->
  Re.upto_last c (body ++ String c post) = Some (body ++ String c "").
Proof.
  intros Hpost. induction body as [| d body IH]; simpl.
  - now rewrite (upto_last_none c post Hpost), Ascii.eqb_refl.
  - now rewrite IH.
Qed.

Lemma bracket_at_not_open d r :
  Ascii.eqb d "[" = false -> Re.bracket_at (String d r) = None.
Proof.
  intros H. unfold Re.bracket_at.
  destruct d as [[] [] [] [] [] [] [] []]; try reflexivity. discriminate.
Qed.

Lemma brace_at_not_open d r :
  Ascii.eqb d "{" = false -> Re.brace_at (String d r) = None.
Proof.
  intros H. unfold Re.brace_at.
  destruct d as [[] [] [] [] [] [] [] []]; try reflexivity. discriminate.
Qed.

Lemma search_bracket_skip pre s :
  no_char "[" pre = true ->
  Re.search_bracket (pre ++ s) = Re.search_bracket s.
Proof.
  induction pre as [| d pre IH]; [reflexivity |].
  intros H. simpl in H. apply andb_true_iff in H as [Hd Hp].
  apply negb_true_iff in Hd.
  change ((String d pre) ++ s) with (String d (pre ++ s)).
  cbn [Re.search_bracket]. rewrite (bracket_at_not_open d _ Hd). apply IH, Hp.
Qed.

Lemma search_brace_skip pre s :
  no_char "{" pre = true ->
  Re.search_brace (pre ++ s) = Re.search_brace s.
Proof.
  induction pre as [| d pre IH]; [reflexivity |].
  intros H. simpl in H. apply andb_true_iff in H as [Hd Hp].
  apply negb_true_iff in Hd.
  change ((String d pre) ++ s) with (String d (pre ++ s)).
  cbn [Re.search_brace]. rewrite (brace_at_not_open d _ Hd). apply IH, Hp.
Qed.

(** The lazy pattern of [raise_questions] cuts the reply from its first
    opening bracket to the first closing bracket that comes after at least
    one character. *)
Lemma search_bracket_first_close pre x body post :
  no_char "[" pre = true ->
  no_char "]" body = true ->
  Re.search_bracket (pre ++ String "[" (String x (body ++ String "]" post)))
  = Some (String "[" (String x (body ++ String "]" ""))).
Proof.
  intros Hpre Hbody. rewrite (search_bracket_skip pre _ Hpre).
  cbn [Re.search_bracket Re.bracket_at].
  rewrite (upto_first_app "]" body post Hbody). reflexivity.
Qed.

(** The greedy pattern of [search_knowledge] cuts the reply from its first
    opening brace to its last closing brace. *)
Lemma search_brace_first_to_last pre x body post :
  no_char "{" pre = true ->
  no_char "}" post = true ->
  Re.search_brace (pre ++ String "{" (String x (body ++ String "}" post)))
  = Some (String "{" (String x (body ++ String "}" ""))).
Proof.
  intros Hpre Hpost. rewrite (search_brace_skip pre _ Hpre).
  cbn [Re.search_brace Re.brace_at].
  rewrite (upto_last_app "}" body post Hpost). reflexivity.
Qed.

Lemma upto_first_none c s : no_char c s = true -> Re.upto_first c s = None.
Proof.
  induction s as [| d s IH]; simpl; [reflexivity |].
  intros H. apply andb_true_iff in H as [Hd Hs].
  apply negb_true_iff in Hd. now rewrite Hd, (IH Hs).
Qed.

Lemma bracket_at_unclosed s : no_char "]" s = true -> Re.bracket_at s = None.
Proof.
  intros H. unfold Re.bracket_at.
  destruct s as [| d [| x r]].
  - reflexivity.
  - destruct d as [[] [] [] [] [] [] [] []]; reflexivity.
  - cbn [no_char] in H. apply andb_true_iff in H as [_ H].
    apply andb_true_iff in H as [_ H].
    rewrite (upto_first_none "]" r H).
    destruct d as [[] [] [] [] [] [] [] []]; reflexivity.
Qed.

Lemma search_bracket_unclosed s :
  no_char "]" s = true -> Re.search_bracket s = None.
Proof.
  induction s as [| d s IH]; intros H.
  - reflexivity.
  - cbn [Re.search_bracket]. rewrite (bracket_at_unclosed _ H).
    apply IH. cbn [no_char] in H. apply andb_true_iff in H. tauto.
Qed.

Lemma search_bracket_unopened s :
  no_char "[" s = true -> Re.search_bracket s = None.
Proof.
  intros H. rewrite <- (string_app_nil_r s).
  rewrite (search_bracket_skip s "" H). reflexivity.
Qed.

(** What [raise_questions] takes from one reply.  From the first opening
    bracket on, the text handed to [json.loads] stops at the first closing
    bracket that follows at least one character, whatever comes after it;
    a reply without an opening bracket, or without a closing one, adds no
    question and is not an error. *)
Theorem questions_cut_at_first_close json_loads :
  (forall pre x body post,
     no_char "[" pre = true ->
     no_char "]" body = true ->
     questions_of json_loads
       (pre ++ String "[" (String x (body ++ String "]" post)))
     = (questions <- json_loads (String "[" (String x (body ++ String "]" ""))) ;;
        J.iter questions))
  /\ (forall s, no_char "[" s = true -> questions_of json_loads s = Ok [])
  /\ (forall s, no_char "]" s = true -> questions_of json_loads s = Ok []).
Proof.
  split; [| split].
  - intros pre x body post Hpre Hbody. unfold questions_of.
    now rewrite (search_bracket_first_close pre x body post Hpre Hbody).
  - intros s H. unfold questions_of. now rewrite (search_bracket_unopened s H).
  - intros s H. unfold questions_of. now rewrite (search_bracket_unclosed s H).
Qed.

Lemma questions_cut_at_first_close_witness :
  questions_of Replies.json_loads
    ("Questions: " ++ Replies.questions_json ++ " (see [1])")
  = Ok [JStr "Which drug?"; JStr "Which dose?"]
  /\ questions_of Replies.json_loads "[[1, 2], [3]]" = Raise DecodeError.
Proof.
  destruct (questions_cut_at_first_close Replies.json_loads) as (H & _ & _).
  split.
  - exact (H "Questions: " "034"%char
             ("Which drug?" ++ Replies.dq ++ ", " ++ Replies.dq
              ++ "Which dose?" ++ Replies.dq)
             " (see [1])" eq_refl eq_refl).
  - exact (H "" "["%char "1, 2" ", [3]]" eq_refl eq_refl).
Defined.

(** [search_knowledge] on a reply of the chat model.  The text handed to
    [json.loads] goes from the first opening brace of the reply to its
    last closing brace.  The query is the value of ["Pubmed"] when it is a
    string and its ["query"] entry otherwise, and the result is that of
    [run] on it for ten results.  Without a braced text the method raises
    an [AttributeError], without the key a [KeyError], on a query that is
    not a string a [TypeError], in each case before any request. *)
Theorem search_knowledge_query json_loads net st :
  (forall pre x body post j,
     no_char "{" pre = true ->
     no_char "}" post = true ->
     json_loads (String "{" (String x (body ++ String "}" ""))) = Ok j ->
     (forall q,
        J.getitem j "Pubmed" = Ok (JStr q) ->
        search_knowledge json_loads net
          (pre ++ String "{" (String x (body ++ String "}" post))) st
        = run net q 10 st)
     /\ (forall d q,
           J.getitem j "Pubmed" = Ok (JDict d) ->
           assoc "query" d = Some (JStr q) ->
           search_knowledge json_loads net
             (pre ++ String "{" (String x (body ++ String "}" post))) st
           = run net q 10 st)
     /\ (forall e,
           J.getitem j "Pubmed" = Raise e ->
           search_knowledge json_loads net
             (pre ++ String "{" (String x (body ++ String "}" post))) st
           = (Raise e, st))
     /\ (forall d v,
           J.getitem j "Pubmed" = Ok (JDict d) ->
           assoc "query" d = Some v ->
           (forall q, v <> JStr q) ->
           search_knowledge json_loads net
             (pre ++ String "{" (String x (body ++ String "}" post))) st
           = (Raise TypeError, st)))
  /\ (forall s,
        no_char "{" s = true ->
        search_knowledge json_loads net s st = (Raise AttributeError, st)).
Proof.
  split.
  - intros pre x body post j Hpre Hpost Hj.
    unfold search_knowledge, pubmed_query.
    rewrite (search_brace_first_to_last pre x body post Hpre Hpost), Hj.
    cbn [rbind].
    split; [| split; [| split]].
    + intros q Hq. rewrite Hq. reflexivity.
    + intros d q Hd Hq. rewrite Hd. cbn [rbind].
      unfold J.getitem. rewrite Hq. reflexivity.
    + intros e He. rewrite He. reflexivity.
    + intros d v Hd Hv Hns. rewrite Hd. cbn [rbind].
      unfold J.getitem. rewrite Hv. cbn [rbind].
      destruct v; try reflexivity. now elim (Hns s).
  - intros s H. unfold search_knowledge, pubmed_query.
    rewrite <- (string_app_nil_r s), (search_brace_skip s "" H). reflexivity.
Qed.

Lemma search_knowledge_query_witness :
  fst (search_knowledge Replies.json_loads Scenario.net
         ("Query: " ++ Replies.query_json ++ " done.") fresh)
  = Ok [Scenario.doc_111; Scenario.doc_333].
Proof.
  destruct (search_knowledge_query Replies.json_loads Scenario.net fresh)
    as (H & _).
  destruct (H "Query: " "034"%char
              ("Pubmed" ++ Replies.dq ++ ": " ++ Replies.dq
               ++ "fever AND influenza" ++ Replies.dq)
              " done."
              (JDict [("Pubmed", JStr "fever AND influenza")])
              eq_refl eq_refl eq_refl) as (Hq & _).
  pose proof (Hq "fever AND influenza" eq_refl) as E.
  apply (f_equal fst) in E.
  etransitivity; [exact E |]. vm_compute. reflexivity.
Defined.

(** ** The inquiry dialogue *)

Lemma last_message_app l m : last_message (l ++ [m])%list = Some m.
Proof. unfold last_message. now rewrite rev_app_distr. Qed.

Lemma last_message_cons x l :
  l <> [] -> last_message (x :: l) = last_message l.
Proof.
  intros H. destruct (exists_last H) as (l' & m & ->).
  change (x :: (l' ++ [m])%list) with ((x :: l') ++ [m])%list.
  now rewrite !last_message_app.
Qed.

Lemma dialogue_of_cons greet r rest :
  dialogue_of greet (r :: rest)
  = AIMessage greet :: HumanMessage (fst r) :: dialogue_of (snd r) rest.
Proof. reflexivity. Qed.

Lemma last_message_dialogue rounds : forall greet,
  last_message (dialogue_of greet rounds)
  = Some (AIMessage (last_reply greet rounds)).
Proof.
  induction rounds as [| r rest IH]; intros greet; [reflexivity |].
  rewrite dialogue_of_cons, !last_message_cons; [apply IH | |];
    unfold dialogue_of; discriminate.
Qed.

Lemma dialogue_of_snoc greet rounds p i :
  dialogue_of greet (rounds ++ [(p, i)])
  = (dialogue_of greet rounds ++ [HumanMessage p; AIMessage i])%list.
Proof.
  unfold dialogue_of. rewrite flat_map_app. simpl. reflexivity.
Qed.

Lemma patient_view_snoc rounds p i : forall greet,
  patient_view greet (rounds ++ [(p, i)])
  = (patient_view greet rounds
     ++ [HumanMessage (last_reply greet rounds); AIMessage p])%list.
Proof.
  induction rounds as [| r rest IH]; intros greet; [reflexivity |].
  simpl. now rewrite IH.
Qed.

(** One turn of the loop keeps the three records in agreement. *)
Lemma inquiry_loop_rounds chat prompt greet : forall fuel rounds self calls out,
  records_agree prompt greet rounds self ->
  roles.inquiry_end (nursing_intern self) = false ->
  inquiry_loop chat fuel self calls = Some out ->
  exists self' more p i,
    out = Returns (self', (calls + 2 * (List.length more + 1))%nat)
    /\ records_agree prompt greet (rounds ++ more ++ [(p, i)]) self'
    /\ roles.inquiry_end (nursing_intern self') = true
    /\ says_goodbye i = true
    /\ forallb (fun r => negb (says_goodbye (snd r))) more = true.
Proof.
  induction fuel as [| fuel IH]; intros rounds self calls out Hinv Hend Hout;
    [discriminate |].
  destruct Hinv as (Hd & Hi & Hp).
  cbn [inquiry_loop] in Hout. rewrite Hend, Hd, last_message_dialogue in Hout.
  cbn [content patient.get_response roles.inquiry_respond] in Hout.
  rewrite Hend, Hi, Hp in Hout.
  set (p := chat calls
              ((SystemMessage patient.system_prompt :: patient_view greet rounds)
               ++ [HumanMessage (last_reply greet rounds)])%list) in *.
  set (i := chat (S calls)
              ((SystemMessage prompt :: dialogue_of greet rounds)
               ++ [HumanMessage p])%list) in *.
  assert (Hinv1 : forall e,
            records_agree prompt greet (rounds ++ [(p, i)])
              {| patent_online :=
                   {| patient.dialogue_record :=
                        (((SystemMessage patient.system_prompt
                           :: patient_view greet rounds)
                          ++ [HumanMessage (last_reply greet rounds)])
                         ++ [AIMessage p])%list |};
                 nursing_intern :=
                   {| roles.dialogue_record :=
                        (((SystemMessage prompt :: dialogue_of greet rounds)
                          ++ [HumanMessage p]) ++ [AIMessage i])%list;
                      roles.inquiry_end := e |};
                 inquiry_dialogue :=
                   ((dialogue_of greet rounds ++ [HumanMessage p])
                    ++ [AIMessage i])%list |}).
  { intros e. unfold records_agree. cbn [inquiry_dialogue nursing_intern
      patent_online roles.dialogue_record patient.dialogue_record].
    rewrite dialogue_of_snoc, patient_view_snoc, <- !app_assoc.
    repeat split. }
  destruct (says_goodbye i) eqn:Hbye.
  - destruct fuel as [| fuel]; [discriminate |].
    cbn [inquiry_loop nursing_intern roles.inquiry_end] in Hout.
    inversion Hout. eexists _, [], p, i.
    split; [f_equal; f_equal; simpl; lia |].
    split; [apply Hinv1 |]. split; [reflexivity |]. split; [exact Hbye |].
    reflexivity.
  - destruct (IH _ _ _ _ (Hinv1 false) eq_refl Hout)
      as (self' & more & p' & i' & Hret & Hinv' & Hend' & Hbye' & Hmore).
    exists self', ((p, i) :: more), p', i'.
    split; [rewrite Hret; f_equal; f_equal; simpl; lia |].
    split; [rewrite <- app_assoc in Hinv'; exact Hinv' |].
    split; [exact Hend' |]. split; [exact Hbye' |].
    simpl. rewrite Hbye. exact Hmore.
Qed.

(** An inquiry started on a new [PBL] that ends has gone through at least
    one round, whatever the greeting says.  The shared dialogue is the
    greeting followed by the rounds; the intern has recorded its prompt and
    then that dialogue; the patient has recorded its prompt and every
    message of the intern but the last one, each followed by its own
    answer.  The last reply of the intern is the only one that says
    goodbye, and the chat model was called once for the greeting and twice
    per round. *)
Theorem inquiry_dialogue_shape chat prompt fuel calls out :
  inquiry chat prompt fuel PBL_init calls = Some out ->
  exists self' greet rounds p i,
    out = Returns (self', (calls + 1 + 2 * (List.length rounds + 1))%nat)
    /\ records_agree prompt greet (rounds ++ [(p, i)]) self'
    /\ roles.inquiry_end (nursing_intern self') = true
    /\ says_goodbye i = true
    /\ forallb (fun r => negb (says_goodbye (snd r))) rounds = true.
Proof.
  unfold inquiry. cbn [roles.inquiry_greet PBL_init nursing_intern
    patent_online inquiry_dialogue roles.init roles.dialogue_record
    roles.inquiry_end app].
  set (greet := chat calls [SystemMessage prompt]).
  intros Hout.
  eapply (inquiry_loop_rounds chat prompt greet fuel []) in Hout
    as (self' & more & p & i & Hret & Hinv & Hend & Hbye & Hmore);
    [| repeat split | reflexivity].
  exists self', greet, more, p, i.
  split; [rewrite Hret; f_equal; f_equal; lia |].
  split; [exact Hinv |]. auto.
Qed.

Lemma inquiry_dialogue_shape_witness :
  exists self' calls,
    inquiry brief_model "Greet the patient." 5 PBL_init 0
    = Some (Returns (self', calls))
    /\ roles.inquiry_end (nursing_intern self') = true.
Proof.
  destruct (inquiry brief_model "Greet the patient." 5 PBL_init 0)
    as [out |] eqn:Hrun; [| vm_compute in Hrun; discriminate].
  destruct (inquiry_dialogue_shape _ _ _ _ _ Hrun)
    as (self' & greet & rounds & p & i & Hret & _ & Hend & _).
  exists self', (0 + 1 + 2 * (List.length rounds + 1))%nat.
  split; [rewrite Hret; reflexivity | exact Hend].
Defined.

Lemma inquiry_loop_endless chat :
  (forall n msgs, says_goodbye (chat n msgs) = false) ->
  forall fuel self calls,
    roles.inquiry_end (nursing_intern self) = false ->
    inquiry_dialogue self <> [] ->
    inquiry_loop chat fuel self calls = None.
Proof.
  intros Hchat. induction fuel as [| fuel IH]; intros self calls Hend Hne;
    [reflexivity |].
  cbn [inquiry_loop]. rewrite Hend.
  destruct (exists_last Hne) as (l & m & Hl). rewrite Hl, last_message_app.
  cbn [patient.get_response roles.inquiry_respond content].
  apply IH.
  - cbn [nursing_intern roles.inquiry_end]. rewrite Hchat. exact Hend.
  - cbn [inquiry_dialogue]. intros H. apply app_eq_nil in H as [_ H].
    discriminate.
Qed.

(** With a chat model that never says goodbye the inquiry does not end:
    no number of turns of the loop reaches its exit. *)
Theorem inquiry_without_goodbye chat prompt :
  (forall n msgs, says_goodbye (chat n msgs) = false) ->
  forall fuel self calls,
    roles.inquiry_end (nursing_intern self) = false ->
    inquiry chat prompt fuel self calls = None.
Proof.
  intros Hchat fuel self calls Hend. unfold inquiry.
  cbn [roles.inquiry_greet]. apply inquiry_loop_endless; [exact Hchat | exact Hend |].
  cbn [inquiry_dialogue]. intros H. apply app_eq_nil in H as [_ H].
  discriminate.
Qed.

Lemma inquiry_without_goodbye_witness :
  inquiry endless_model "Greet the patient." 1000 PBL_init 0 = None.
Proof.
  apply (inquiry_without_goodbye endless_model "Greet the patient.").
  - intros n msgs. reflexivity.
  - reflexivity.
Defined.

(** The inquiry with a model that says goodbye in its fifth answer: a
    greeting and two rounds, five calls of the model. *)
Example brief_inquiry :
  exists self',
    inquiry brief_model "Greet the patient." 3 PBL_init 0
    = Some (Returns (self', 5%nat))
    /\ inquiry_dialogue self'
       = [AIMessage "How do you feel?";
          HumanMessage "How do you feel?"; AIMessage "How do you feel?";
          HumanMessage "How do you feel?"; AIMessage ("Thank you. " ++ goodbye)]
    /\ List.length (patient.dialogue_record (patent_online self')) = 5%nat
    /\ List.length (roles.dialogue_record (nursing_intern self')) = 6%nat.
Proof. eexists. vm_compute. repeat split. Qed.

(** ** Failures of the search call *)

(** The search request is sent once and never retried: whatever error the
    transport raises for it, a rate-limit error included, [run] raises
    that error after this single request, without sleeping.  A response
    that is not JSON, or whose result object lacks the session token or
    the identifier list, makes [run] raise as well, before any detail
    request. *)
Theorem search_failure_aborts_run net query top_k st :
  (forall e,
     net (requests (trace st))
       (search_url (self st) (submitted_term (self st) query)) = Raise e ->
     run net query top_k st
     = (Raise e,
        requested (search_url (self st) (submitted_term (self st) query)) st))
  /\ (forall p e,
        net (requests (trace st))
          (search_url (self st) (submitted_term (self st) query)) = Ok p ->
        as_json p = Raise e ->
        run net query top_k st
        = (Raise e,
           requested (search_url (self st) (submitted_term (self st) query)) st))
  /\ (forall p j d,
        net (requests (trace st))
          (search_url (self st) (submitted_term (self st) query)) = Ok p ->
        as_json p = Ok j ->
        J.getitem j "esearchresult" = Ok (JDict d) ->
        assoc "webenv" d = None \/ assoc "idlist" d = None ->
        exists k,
          run net query top_k st
          = (Raise (KeyError k),
             requested (search_url (self st) (submitted_term (self st) query))
               st)).
Proof.
  split; [| split].
  - intros e H. unfold run, load, lazy_load, urlopen. rewrite H. reflexivity.
  - intros p e H Hj. unfold run, load, lazy_load, urlopen, search_result.
    rewrite H. cbn [rbind]. rewrite Hj. reflexivity.
  - intros p j d H Hj Hd Hmiss.
    unfold run, load, lazy_load, urlopen, search_result.
    rewrite H. cbn [rbind]. rewrite Hj. cbn [rbind]. rewrite Hd. cbn [rbind].
    unfold J.getitem at 1.
    destruct (assoc "webenv" d) as [w |] eqn:Hw.
    + destruct Hmiss as [Hmiss | Hmiss]; [discriminate |].
      cbn [rbind]. unfold J.getitem at 1. rewrite Hmiss.
      exists "idlist". reflexivity.
    + exists "webenv". reflexivity.
Qed.

Lemma search_failure_aborts_run_witness :
  run always_429 "fever AND influenza" 3 fresh
  = (Raise (HTTPError 429),
     {| self := default_wrapper;
        trace := [Request (search_url default_wrapper "fever+AND+influenza")] |})
  /\ exists k,
       run no_session_net "fever AND influenza" 3 fresh
       = (Raise (KeyError k),
          {| self := default_wrapper;
             trace := [Request (search_url default_wrapper
                                  "fever+AND+influenza")] |}).
Proof.
  split.
  - apply (proj1 (search_failure_aborts_run always_429 "fever AND influenza" 3
                    fresh) (HTTPError 429)).
    reflexivity.
  - apply (proj2 (proj2 (search_failure_aborts_run no_session_net
                           "fever AND influenza" 3 fresh))
             (json_payload no_session_json) no_session_json
             [("count", JStr "1"); ("idlist", JList [JStr "111"])]).
    + reflexivity.
    + reflexivity.
    + reflexivity.
    + left. reflexivity.
Defined.

(** ** Articles without abstract *)

Lemma all_space_no_summary d : all_space (Summary d) = true -> has_summary d = false.
Proof.
  intros H. apply strip_empty_iff in H. unfold has_summary. now rewrite H.
Qed.

(** An article node without [Abstract], or whose [Abstract] has no
    [AbstractText], has the empty summary; and details whose summary is
    empty or all whitespace never pass the filter of [load], so that such
    an article is left out of the result of [run] although its detail and
    citation requests were made. *)
Theorem no_abstract_no_document :
  (forall a t c,
     X.lookup a t c "Abstract" = None ->
     parse_summary (XDict a t c) = Ok "")
  /\ (forall a t c a' t' c',
        X.lookup a t c "Abstract" = Some (XDict a' t' c') ->
        X.lookup a' t' c' "AbstractText" = None ->
        parse_summary (XDict a t c) = Ok "")
  /\ (forall net query top_k st webenv uids ds,
        search_result top_k
          (net (requests (trace st))
             (search_url (self st) (submitted_term (self st) query)))
        = Ok (JStr webenv, map JStr uids) ->
        Forall2 (serves net (self st) webenv) uids ds ->
        Forall (fun d => all_space (Summary d) = true) ds ->
        fst (run net query top_k st) = Ok []
        /\ requests (trace (snd (run net query top_k st)))
           = (requests (trace st) + 1 + 2 * List.length uids)%nat).
Proof.
  split; [| split].
  - intros a t c H. unfold parse_summary, X.get. rewrite H. reflexivity.
  - intros a t c a' t' c' H H'. unfold parse_summary, X.get. rewrite H.
    cbn [rbind]. rewrite H'. reflexivity.
  - intros net query top_k st webenv uids ds Hs Hd Hblank.
    unfold run, load, lazy_load, urlopen. rewrite Hs.
    rewrite (lazy_load_loop_served net webenv (self st) uids ds Hd
               (requested
                  (search_url (self st) (submitted_term (self st) query)) st)
               eq_refl).
    cbn [fst snd trace rbind requested]. rewrite <- app_assoc.
    change ([Request ?u] ++ ?l)%list with (Request u :: l). split.
    + f_equal. replace (filter has_summary ds) with (@nil Details);
        [reflexivity |].
      clear Hd. induction Hblank as [| d ds Hd _ IH]; [reflexivity |].
      simpl. now rewrite (all_space_no_summary d Hd).
    + rewrite requests_app.
      change (Request ?u :: ?l) with ([Request u] ++ l)%list.
      rewrite requests_app. unfold requests at 2. simpl List.length.
      assert (H : requests (served_trace (self st) webenv uids)
                  = (2 * List.length uids)%nat).
      { clear. induction uids as [| u uids IH]; [reflexivity |].
        unfold served_trace in *. simpl flat_map.
        change (Request ?a :: Request ?b :: ?l)
          with ([Request a; Request b] ++ l)%list.
        rewrite requests_app, IH. unfold requests at 1. simpl. lia. }
      rewrite H. lia.
Qed.

Lemma no_abstract_no_document_witness :
  parse_summary (Scenario.elem [("ArticleTitle", XStr "A title")]) = Ok "".
Proof.
  apply (proj1 no_abstract_no_document [] None
           [("ArticleTitle", XStr "A title")]).
  reflexivity.
Defined.
